(** * DreamTrue: retrieval, context assembly, response parsing and the
    six-stage pipeline, embedded from the Python sources

  Sources embedded here:
  - [attached_assets/vector_store_1760607549716.py]  (class VectorStoreManager)
  - [attached_assets/rag_pipeline_1760607549723.py]  (class RAGPipeline)
  - [attached_assets/agentic_system_1760607549717.py] (class DreamInterpreterAgents)
  - [attached_assets/document_processor_1760607549716.py] (class DocumentProcessor)
  - [attached_assets/ragas_evaluation_1760607549722.py] (the simplified metrics)
  - [attached_assets/web_app_1760607549714.py] and [simple_web_app_1760607549714.py]
    (the user context of a request)

  Modelling conventions.
  - A Python [str] is a [string]; one [ascii] stands for one character.
    The string helpers of [PyStr] follow CPython on 7-bit text
    ([str.upper] on the letters a-z, the digits 0-9 for the regular
    expression class \d); the whitespace table of [str.isspace] also
    holds the two spaces between 128 and 255.
  - Where the sources look at characters above 127, in the cleaning of
    the text of a PDF, a [str] is the list of its code points
    ([PyText.text]).
  - A Python [float] is modelled by the rational number it stands for
    ([Q]); rounding and NaN are outside the model: two final scores that
    differ here by less than a rounding error can be equal in binary64,
    and the other way round.  The indexes of the examples are chosen so
    that binary64 orders their scores as the rationals do.  The one float
    exception the sources can meet, the [OverflowError] of an integer
    true division, is kept (see [PyStr.truediv_int]).
  - A call that may raise returns an [option]: [None] is a raised
    exception that nothing caught.
  - The vector index (ChromaDB) and the language model are external; they
    are Section variables of the modules that call them.
  - [print] calls are not modelled. *)

From Stdlib Require Import QArith Qabs Lqa ZArith Lia Ascii DecimalString DecimalNat.
From stdpp Require Import base option list sorting gmap strings.

Local Open Scope Q_scope.

(** ** Python string primitives used by the sources *)

Module PyStr.

Definition nl : string := String "010"%char "".
Definition dquote : string := String "034"%char "".

(** [str(n)] for a non-negative integer *)
Definition of_nat (n : nat) : string := NilEmpty.string_of_uint (Nat.to_uint n).

(** [str.isspace] on the characters below 256: TAB, LF, VT, FF, CR, the
    four separators FS GS RS US, the space, NEL (133) and the no-break
    space (160). *)
Definition is_space (c : ascii) : bool :=
  match c with
  | "009" | "010" | "011" | "012" | "013"
  | "028" | "029" | "030" | "031" | " " | "133" | "160" => true
  | _ => false
  end%char.

Fixpoint lstrip (s : string) : string :=
  match s with
  | String c s' => if is_space c then lstrip s' else s
  | EmptyString => EmptyString
  end.

(** [s.rstrip()]: a character is dropped when it is a space and nothing
    is left of what follows it. *)
Fixpoint rstrip (s : string) : string :=
  match s with
  | EmptyString => EmptyString
  | String c s' =>
      match rstrip s' with
      | EmptyString => if is_space c then EmptyString else String c EmptyString
      | rest => String c rest
      end
  end.

(** [s.strip()] *)
Definition strip (s : string) : string := rstrip (lstrip s).

(** [s.split(sep)] for a one-character separator: never the empty list. *)
Fixpoint split (sep : ascii) (s : string) : list string :=
  match s with
  | EmptyString => [EmptyString]
  | String c s' =>
      if Ascii.eqb c sep then EmptyString :: split sep s'
      else match split sep s' with
           | w :: ws => String c w :: ws
           | [] => [String c EmptyString]
           end
  end.

Definition upper_char (c : ascii) : ascii :=
  let n := nat_of_ascii c in
  if (97 <=? n)%nat && (n <=? 122)%nat then ascii_of_nat (n - 32) else c.

(** [s.upper()] *)
Fixpoint upper (s : string) : string :=
  match s with
  | EmptyString => EmptyString
  | String c s' => String (upper_char c) (upper s')
  end.

(** [s.startswith(p)] *)
Fixpoint starts_with (p s : string) : bool :=
  match p with
  | EmptyString => true
  | String a p' =>
      match s with
      | String b s' => Ascii.eqb a b && starts_with p' s'
      | EmptyString => false
      end
  end.

(** [sub in s] *)
Fixpoint contains (sub s : string) : bool :=
  starts_with sub s ||
  match s with
  | EmptyString => false
  | String _ s' => contains sub s'
  end.

(** [s[n:]] *)
Fixpoint drop (n : nat) (s : string) : string :=
  match n, s with
  | S n', String _ s' => drop n' s'
  | _, _ => s
  end.

(** [s[a:b]] for non-negative [a] and [b] *)
Definition slice (a b : nat) (s : string) : string := String.substring a (b - a) s.

(** [s.find(sub)]: the least index where [sub] starts, or -1 *)
Fixpoint find_from (i : nat) (sub s : string) : Z :=
  if starts_with sub s then Z.of_nat i
  else match s with
       | EmptyString => (-1)%Z
       | String _ s' => find_from (S i) sub s'
       end.
Definition find (sub s : string) : Z := find_from 0 sub s.

(** [s.replace(old, new)] for a non-empty [old]: the occurrences are
    taken from the left and do not overlap.  [skip] counts the
    characters of a replaced occurrence still to be passed over. *)
Fixpoint replace_go (old new : string) (skip : nat) (s : string) : string :=
  match s with
  | EmptyString => EmptyString
  | String c s' =>
      match skip with
      | S k => replace_go old new k s'
      | O =>
          if starts_with old s
          then new +:+ replace_go old new (String.length old - 1) s'
          else String c (replace_go old new 0 s')
      end
  end.
Definition replace (old new s : string) : string := replace_go old new 0 s.

Definition is_digit (c : ascii) : bool :=
  let n := nat_of_ascii c in (48 <=? n)%nat && (n <=? 57)%nat.

(** the longest run of digits at the head of [s], and what follows it *)
Fixpoint span_digits (s : string) : string * string :=
  match s with
  | String c s' =>
      if is_digit c
      then let '(ds, rest) := span_digits s' in (String c ds, rest)
      else (EmptyString, s)
  | EmptyString => (EmptyString, EmptyString)
  end.

(** [re.search(r'(\d+)%', s)]: group 1 of the leftmost match.  At a
    start position the greedy \d+ takes the whole run of digits, and
    giving digits back cannot help since the character after a shorter
    run is a digit; the search then moves one character to the right. *)
Fixpoint search_percent (s : string) : option string :=
  match s with
  | EmptyString => None
  | String c s' =>
      if is_digit c then
        match span_digits s with
        | (ds, String "%"%char _) => Some ds
        | _ => search_percent s'
        end
      else search_percent s'
  end.

(** [int(ds)] for a string of digits *)
Definition int_of_digits (ds : string) : Z :=
  let fix go (acc : Z) (s : string) : Z :=
    match s with
    | EmptyString => acc
    | String c s' => go (10 * acc + (Z.of_nat (nat_of_ascii c) - 48))%Z s'
    end in
  go 0%Z ds.

(** [n / d] on integers, a float: CPython rounds the exact quotient to
    the nearest double and raises OverflowError when that is not finite,
    that is from 2^1024 - 2^970 on; ZeroDivisionError for [d = 0].
    (For more digits than CPython's int() accepts the division would
    overflow as well, so the caller's handler sees an exception in both
    cases.) *)
Definition float_overflow (x : Q) : bool :=
  Qle_bool (inject_Z (2 ^ 1024 - 2 ^ 970)) (Qabs x).

Definition truediv_int (n d : Z) : option Q :=
  if (d =? 0)%Z then None
  else let x := inject_Z n / inject_Z d in
       if float_overflow x then None else Some x.

End PyStr.

(** ** [list.sort(key=..., reverse=True)] on float keys

  CPython's sort is stable, also with [reverse=True]: elements whose keys
  compare equal keep their order.  The descending stable arrangement of a
  list is unique (lemma [sort_desc_unique]), so insertion from the right
  computes what timsort returns: an element goes in front of the first
  later element whose key is not greater than its own. *)

Module PySort.
Section Sort.
Context {A : Type} (key : A -> Q).

Fixpoint insert_desc (x : A) (l : list A) : list A :=
  match l with
  | [] => [x]
  | y :: l' =>
      if Qle_bool (key y) (key x) then x :: l
      else y :: insert_desc x l'
  end.

Fixpoint sort_desc (l : list A) : list A :=
  match l with
  | [] => []
  | x :: l' => insert_desc x (sort_desc l')
  end.

(** descending order of the keys *)
Definition desc (a b : A) : Prop := key b <= key a.

(** the elements whose key is [q] *)
Definition has_key (q : Q) (x : A) : bool := Qeq_bool (key x) q.

End Sort.
End PySort.

(** ** vector_store.py: class VectorStoreManager *)

Module VectorStoreManager.

(** A metadata value as ChromaDB stores it: a string or a number. *)
Inductive mvalue : Type :=
| MStr (s : string)
| MNum (x : Q).

Abbreviation metadata_dict := (gmap string mvalue).

(** What [collection.query] returns for the one query text, with
    [include=documents, metadatas, distances]: four parallel lists. *)
Record query_result : Type := {
  ids : list string;
  documents : list string;
  metadatas : list metadata_dict;
  distances : list Q
}.

(** One entry of [formatted_results] in [similarity_search]. *)
Record result : Type := {
  result_id : string;
  content : string;
  metadata : metadata_dict;
  distance : Q;
  relevance_score : Q
}.

(** The same dict after [hybrid_search] stored the key [final_score]. *)
Record ranked : Type := {
  hit : result;
  final_score : Q
}.

Section Store.
(** [self.collection.query(query_texts=[query], n_results=n, where=f)];
    the filter is the list of the "$in" clause on the category. *)
Variable collection_query : string -> nat -> option (list string) -> query_result.
(** [str(x)] for a float, as an f-string renders it *)
Variable float_str : Q -> string.

(** The body of the formatting loop at index [i]; a list shorter than
    [ids] raises IndexError. *)
Definition format_result (res : query_result) (i : nat) : option result :=
  rid ← ids res !! i;
  doc ← documents res !! i;
  md ← metadatas res !! i;
  d ← distances res !! i;
  Some {| result_id := rid; content := doc; metadata := md;
          distance := d; relevance_score := 1 - d |}.

Definition similarity_search (query : string) (n_results : nat)
    (filter_dict : option (list string)) : option (list result) :=
  let results := collection_query query n_results filter_dict in
  mapM (format_result results) (seq 0 (length (ids results))).

(** [result['metadata'].get('weight', 0.1)], then [1 + weight]: a
    string there raises TypeError. *)
Definition weight_of (md : metadata_dict) : option Q :=
  match md !! "weight" with
  | None => Some 0.1
  | Some (MNum w) => Some w
  | Some (MStr _) => None
  end.

(** [result['final_score'] = result['relevance_score'] * (1 + weight)],
    computed over the rationals. *)
Definition rerank (r : result) : option ranked :=
  weight ← weight_of (metadata r);
  Some {| hit := r; final_score := relevance_score r * (1 + weight) |}.

(** [if categories: filter_dict = ...]: no filter for None and for the
    empty list *)
Definition category_filter (categories : option (list string))
    : option (list string) :=
  match categories with
  | Some (c :: cs) => Some (c :: cs)
  | _ => None
  end.

Definition hybrid_search (query : string) (n_results : nat)
    (categories : option (list string)) : option (list ranked) :=
  let filter_dict := category_filter categories in
  results ← similarity_search query (n_results * 2) filter_dict;
  results ← mapM rerank results;
  Some (take n_results (PySort.sort_desc final_score results)).

(** The order that the specification words for the retriever: final
    score descending, ties by similarity descending, then by the name of
    the source ascending.  [spec_before a b] says that [a] may stand
    before [b]. *)
Definition source_id (r : ranked) : string :=
  match metadata (hit r) !! "source" with
  | Some (MStr s) => s
  | _ => ""
  end.

Definition Qlt_bool (x y : Q) : bool := negb (Qle_bool y x).

Definition spec_before (a b : ranked) : bool :=
  Qlt_bool (final_score b) (final_score a)
  || Qeq_bool (final_score a) (final_score b)
     && (Qlt_bool (relevance_score (hit b)) (relevance_score (hit a))
         || Qeq_bool (relevance_score (hit a)) (relevance_score (hit b))
            && String.leb (source_id a) (source_id b)).

Fixpoint spec_ordered (l : list ranked) : bool :=
  match l with
  | [] => true
  | a :: rest => forallb (spec_before a) rest && spec_ordered rest
  end.

Definition py_str (v : mvalue) : string :=
  match v with
  | MStr s => s
  | MNum x => float_str x
  end.

(** [md.get(k, default)] inside an f-string *)
Definition get_str (md : metadata_dict) (k default : string) : string :=
  from_option py_str default (md !! k).

(** The f-string of the loop: a line break, the bracketed header, the
    content, the rule, each followed by a line break. *)
Definition chunk_text (idx : nat) (r : ranked) : string :=
  let source := get_str (metadata (hit r)) "source" "Unknown" in
  let category := get_str (metadata (hit r)) "category" "general" in
  let validation := get_str (metadata (hit r)) "validation" "N/A" in
  PyStr.nl +:+ "[Source " +:+ PyStr.of_nat (idx + 1) +:+ ": " +:+ source
    +:+ " | Category: " +:+ category
    +:+ " | Validation: " +:+ validation +:+ "]" +:+ PyStr.nl
    +:+ content (hit r) +:+ PyStr.nl
    +:+ "---" +:+ PyStr.nl.

(** the formatted block of every result, numbered from [idx] *)
Fixpoint blocks_from (idx : nat) (results : list ranked) : list string :=
  match results with
  | [] => []
  | r :: rest => chunk_text idx r :: blocks_from (S idx) rest
  end.

(** The loop over [enumerate(results)] with its [break]: [idx] and
    [total_chars] are the loop state, the value is what the remaining
    iterations append to [context_parts]. *)
Fixpoint context_loop (max_chars : Z) (idx : nat) (total_chars : Z)
    (results : list ranked) : list string :=
  match results with
  | [] => []
  | r :: rest =>
      let chunk := chunk_text idx r in
      let chunk_chars := Z.of_nat (String.length chunk) in
      if (total_chars + chunk_chars >? max_chars)%Z then []
      else chunk :: context_loop max_chars (S idx) (total_chars + chunk_chars)%Z rest
  end.

Definition get_context_for_query (query : string) (max_tokens : Z)
    (n_results : nat) : option (string * list ranked) :=
  results ← hybrid_search query n_results None;
  let max_chars := (max_tokens * 4)%Z in
  let context_parts := context_loop max_chars 0 0%Z results in
  let formatted_context := String.concat PyStr.nl context_parts in
  Some (formatted_context, results).

End Store.
End VectorStoreManager.

(** ** External calls: a state for the outside world, and failure

  A call to the language model reads and changes the provider's state
  and may raise; [None] aborts the whole computation, as an uncaught
  Python exception does. *)

Module Eff.
Definition M (W A : Type) : Type := W -> option (A * W).

Global Instance M_ret W : MRet (M W) := fun A a w => Some (a, w).

Global Instance M_bind W : MBind (M W) := fun A B k m w =>
  match m w with
  | Some (a, w') => k a w'
  | None => None
  end.

(** a pure step that may raise *)
Definition lift {W A} (o : option A) : M W A :=
  fun w => match o with Some a => Some (a, w) | None => None end.
End Eff.

(** ** rag_pipeline.py: class RAGPipeline *)

Module RAGPipeline.
Import Eff.

(** A value held by the [sections] dict of the parser. *)
Inductive pyval : Type :=
| VStr (s : string)
| VList (l : list string)
| VFloat (x : Q).

Abbreviation sections_dict := (gmap string pyval).

Inductive llm_provider : Type := anthropic | openai.

(** [{"role": ..., "content": ...}] *)
Record chat_message : Type := { role : string; msg_content : string }.

(** One entry of [sources_formatted]. *)
Record source_entry : Type := {
  source : VectorStoreManager.mvalue;
  category : VectorStoreManager.mvalue;
  relevance : Q;
  excerpt : string
}.

(** The dataclass RAGResponse; the fields filled from the parser's dict
    hold whatever value the dict has under the key. *)
Record RAGResponse : Type := {
  interpretation : pyval;
  confidence_score : pyval;
  sources_used : list source_entry;
  reasoning : pyval;
  alternative_interpretations : pyval;
  query : string
}.

Definition initial_sections : sections_dict :=
  <["primary_interpretation" := VStr ""]>
  (<["confidence" := VStr "Medium - 50%"]>
  (<["scientific_evidence" := VStr ""]>
  (<["reasoning" := VStr ""]>
  (<["alternative_interpretations" := VList []]>
  (<["sources_cited" := VStr ""]> ∅))))).

(** The if/elif chain on [line_upper]: the section a header line opens. *)
Definition header_of (line_upper : string) : option string :=
  if PyStr.contains "PRIMARY INTERPRETATION:" line_upper
  then Some "primary_interpretation"
  else if PyStr.contains "CONFIDENCE LEVEL:" line_upper
          || PyStr.contains "CONFIDENCE:" line_upper
  then Some "confidence"
  else if PyStr.contains "SCIENTIFIC EVIDENCE:" line_upper
  then Some "scientific_evidence"
  else if PyStr.contains "REASONING:" line_upper
  then Some "reasoning"
  else if PyStr.contains "ALTERNATIVE INTERPRETATION" line_upper
  then Some "alternative_interpretations"
  else if PyStr.contains "SOURCES CITED:" line_upper
          || PyStr.contains "SOURCES:" line_upper
  then Some "sources_cited"
  else None.

(** Some line of the response opens the section [key]. *)
Definition has_header (key response_text : string) : bool :=
  existsb
    (fun line =>
       bool_decide (header_of (PyStr.upper (PyStr.strip line)) = Some key))
    (PyStr.split "010" response_text).

(** The keys of [sections] that hold a string, all its keys, and the
    shape the parsing loop keeps. *)
Definition string_keys : list string :=
  ["primary_interpretation"; "confidence"; "scientific_evidence"; "reasoning";
   "sources_cited"].

Definition section_keys : list string := "alternative_interpretations" :: string_keys.

Definition shaped (sections : sections_dict) : Prop :=
  (forall k, k ∈ string_keys -> exists s, sections !! k = Some (VStr s)) /\
  (exists l, sections !! "alternative_interpretations" = Some (VList l)).

Definition numbered_prefixes : list string := ["1."; "2."; "3."; "4."; "5."].

(** The block under [# Add content to current section], entered with a
    section open and a line that is not blank.  A missing key raises
    KeyError, [append] on a value that is no list AttributeError. *)
Definition add_content (sections : sections_dict) (current_section line : string)
    : option sections_dict :=
  if String.eqb current_section "alternative_interpretations" then
    if bool_decide (PyStr.slice 0 2 (PyStr.strip line) ∈ numbered_prefixes) then
      match sections !! current_section with
      | Some (VList l) =>
          Some (<[current_section :=
                   VList (l ++ [PyStr.strip (PyStr.drop 3 (PyStr.strip line))])]> sections)
      | _ => None
      end
    else Some sections
  else
    match sections !! current_section with
    | Some (VStr s) =>
        Some (<[current_section := VStr (s +:+ PyStr.strip line +:+ " ")]> sections)
    | Some _ => Some sections
    | None => None
    end.

(** One iteration of [for line in lines]. *)
Definition parse_line (st : sections_dict * option string) (line : string)
    : option (sections_dict * option string) :=
  let '(sections, current_section) := st in
  let line_upper := PyStr.upper (PyStr.strip line) in
  match header_of line_upper with
  | Some key => Some (sections, Some key)
  | None =>
      match current_section with
      | Some cur =>
          if negb (String.eqb (PyStr.strip line) "") then
            sections' ← add_content sections cur line;
            Some (sections', current_section)
          else Some st
      | None => Some st
      end
  end.

Fixpoint parse_lines (st : sections_dict * option string) (lines : list string)
    : option (sections_dict * option string) :=
  match lines with
  | [] => Some st
  | line :: rest => st' ← parse_line st line; parse_lines st' rest
  end.

(** what every iteration keeps: the shape of the dict, and a current
    section that is one of its keys *)
Definition loop_inv (st : sections_dict * option string) : Prop :=
  shaped st.1 /\ forall c, st.2 = Some c -> c ∈ section_keys.

(** [# Clean up sections] *)
Definition clean (v : pyval) : pyval :=
  match v with
  | VStr s => VStr (PyStr.strip s)
  | _ => v
  end.

(** [# Extract confidence score], on the text of the confidence section.
    An exception of [int(...) / 100] is swallowed by the bare [except]. *)
Definition extract_confidence (confidence_text : string) : Q :=
  let confidence_score := 0.5 in
  if PyStr.contains "%" confidence_text then
    match PyStr.search_percent confidence_text with
    | Some digits =>
        match PyStr.truediv_int (PyStr.int_of_digits digits) 100 with
        | Some x => x
        | None => confidence_score
        end
    | None => confidence_score
    end
  else if PyStr.contains "High" confidence_text then 0.85
  else if PyStr.contains "Low" confidence_text then 0.35
  else confidence_score.

(** The whole function.  The text of the confidence section is read as
    a string, which it is for every response (lemma
    [parse_llm_response_unfold]); any other value counts as a failure. *)
Definition _parse_llm_response (response_text : string) : option sections_dict :=
  let lines := PyStr.split "010" response_text in
  match parse_lines (initial_sections, None) lines with
  | Some (sections, _) =>
      let sections := clean <$> sections in
      match sections !! "confidence" with
      | Some (VStr confidence_text) =>
          Some (<["confidence_score" :=
                   VFloat (extract_confidence confidence_text)]> sections)
      | _ => None
      end
  | None => None
  end.

Section Pipeline.
Variable World : Type.
Variable collection_query :
  string -> nat -> option (list string) -> VectorStoreManager.query_result.
Variable float_str : Q -> string.
(** The provider's chat endpoint with the pipeline's model and
    [max_tokens=2000], and the text of its first answer. *)
Variable client_create : llm_provider -> list chat_message -> M World string.

(** [if user_context:] holds for a dict that is not empty. *)
Definition truthy (user_context : option (gmap string string)) : bool :=
  match user_context with
  | Some ctx => negb (bool_decide (ctx = ∅))
  | None => false
  end.

Definition _build_dream_interpretation_prompt (dream_text context : string)
    (user_context : option (gmap string string)) : string :=
  let user_info :=
    match user_context with
    | Some ctx =>
        if truthy user_context then
          let stress := default "unknown" (ctx !! "stress_level") in
          let emotion := default "unknown" (ctx !! "emotional_state") in
          let events := default "none provided" (ctx !! "recent_events") in
          "
USER CONTEXT:
- Stress Level: " +:+ stress +:+ "
- Emotional State: " +:+ emotion +:+ "
- Recent Events: " +:+ events +:+ "
"
        else ""
    | None => ""
    end in
  "You are an expert dream analyst using evidence-based research to interpret dreams. You have access to scientific literature on dream analysis, including neuroscience studies, content analysis research, and psychological frameworks.

Your task is to interpret the following dream using ONLY the research context provided. Base your interpretation on scientific evidence and cite sources explicitly.

" +:+ user_info +:+ "

DREAM DESCRIPTION:
" +:+ dream_text +:+ "

RESEARCH CONTEXT:
" +:+ context +:+ "

INSTRUCTIONS:
1. Analyze the dream symbols and themes present in the dream
2. Reference specific research findings from the context
3. Provide an evidence-based interpretation citing sources
4. Assess confidence level (High: 80-100%, Medium: 50-79%, Low: 20-49%)
5. Offer 2-3 alternative interpretations if applicable
6. Explain your reasoning process

REQUIRED OUTPUT FORMAT:

PRIMARY INTERPRETATION:
[Provide main interpretation in 2-3 sentences]

CONFIDENCE LEVEL:
[High/Medium/Low] - [Percentage]%

SCIENTIFIC EVIDENCE:
[Cite specific research and findings from the provided context]

REASONING:
[Explain why this interpretation is most likely based on the research]

ALTERNATIVE INTERPRETATIONS:
1. [Alternative interpretation 1]
2. [Alternative interpretation 2]
3. [Alternative interpretation 3]

SOURCES CITED:
[List sources from context that supported your interpretation]

Remember: Only use information from the research context provided. Do not make up sources or cite research not present in the context.".

Definition request_messages (provider : llm_provider) (prompt : string)
    : list chat_message :=
  match provider with
  | anthropic => [ {| role := "user"; msg_content := prompt |} ]
  | openai =>
      [ {| role := "system";
           msg_content := "You are an expert dream analyst using evidence-based research." |};
        {| role := "user"; msg_content := prompt |} ]
  end.

(** [# Step 5: Format sources] *)
Definition format_source (doc : VectorStoreManager.ranked) : source_entry :=
  let md := VectorStoreManager.metadata (VectorStoreManager.hit doc) in
  {| source := default (VectorStoreManager.MStr "Unknown") (md !! "source");
     category := default (VectorStoreManager.MStr "general") (md !! "category");
     relevance := VectorStoreManager.relevance_score (VectorStoreManager.hit doc);
     excerpt :=
       PyStr.slice 0 200 (VectorStoreManager.content (VectorStoreManager.hit doc))
         +:+ "..." |}.

Definition interpret_dream (provider : llm_provider) (dream_text : string)
    (user_context : option (gmap string string)) (n_sources : nat)
    : M World RAGResponse :=
  '(context, source_docs) ←
    lift (VectorStoreManager.get_context_for_query collection_query float_str
            dream_text 3000 n_sources);
  let prompt := _build_dream_interpretation_prompt dream_text context user_context in
  response_text ← client_create provider (request_messages provider prompt);
  parsed ← lift (_parse_llm_response response_text);
  let sources_formatted := format_source <$> source_docs in
  primary ← lift (parsed !! "primary_interpretation");
  score ← lift (parsed !! "confidence_score");
  reason ← lift (parsed !! "reasoning");
  alternatives ← lift (parsed !! "alternative_interpretations");
  mret {| interpretation := primary;
          confidence_score := score;
          sources_used := sources_formatted;
          reasoning := reason;
          alternative_interpretations := alternatives;
          query := dream_text |}.

End Pipeline.
(** The lines that the parsing loop files under the section [key]: the
    lines that are no header and not blank, and whose nearest header
    above opens [key]; [current] is the section that is open before the
    first line. *)
Fixpoint lines_of_section (key : string) (current : option string)
    (lines : list string) : list string :=
  match lines with
  | [] => []
  | line :: rest =>
      match header_of (PyStr.upper (PyStr.strip line)) with
      | Some k => lines_of_section key (Some k) rest
      | None =>
          if bool_decide (current = Some key)
             && negb (String.eqb (PyStr.strip line) "")
          then line :: lines_of_section key current rest
          else lines_of_section key current rest
      end
  end.

(** every line stripped and followed by one space *)
Definition joined_lines (lines : list string) : string :=
  foldr (fun line acc => PyStr.strip line +:+ " " +:+ acc) "" lines.

(** the entries of the lines that start with 1. to 5. *)
Definition numbered_entries (lines : list string) : list string :=
  (fun line => PyStr.strip (PyStr.drop 3 (PyStr.strip line)))
    <$> List.filter
          (fun line => bool_decide (PyStr.slice 0 2 (PyStr.strip line) ∈ numbered_prefixes))
          lines.

(** One entry of [sources_formatted] in a follow-up: the source and the
    relevance, no category and no excerpt. *)
Record followup_source_entry : Type := {
  followup_source : VectorStoreManager.mvalue;
  followup_relevance : Q
}.

(** The RAGResponse that a follow-up builds: the text of the model as it
    is, constants, and the shorter source entries. *)
Record FollowupResponse : Type := {
  followup_interpretation : string;
  followup_confidence_score : Q;
  followup_sources_used : list followup_source_entry;
  followup_reasoning : string;
  followup_alternative_interpretations : list string;
  followup_query : string
}.

Definition followup_prompt (dream_text previous_context followup_question context : string)
    : string :=
  "You previously analyzed this dream:

DREAM: " +:+ dream_text +:+ "

PREVIOUS INTERPRETATION CONTEXT:
" +:+ previous_context +:+ "

The user has a follow-up question:
QUESTION: " +:+ followup_question +:+ "

ADDITIONAL RESEARCH CONTEXT:
" +:+ context +:+ "

Please answer the follow-up question based on the research context provided. Be specific and cite sources.".

Definition format_followup_source (doc : VectorStoreManager.ranked)
    : followup_source_entry :=
  let md := VectorStoreManager.metadata (VectorStoreManager.hit doc) in
  {| followup_source := default (VectorStoreManager.MStr "Unknown") (md !! "source");
     followup_relevance :=
       VectorStoreManager.relevance_score (VectorStoreManager.hit doc) |}.

Section Followup.
Variable World : Type.
Variable collection_query :
  string -> nat -> option (list string) -> VectorStoreManager.query_result.
Variable float_str : Q -> string.
(** The provider's chat endpoint with the pipeline's model and
    [max_tokens=1500], and the text of its first answer. *)
Variable client_create_followup : llm_provider -> list chat_message -> M World string.

(** Both branches send the prompt as the one message of the user. *)
Definition interpret_with_followup (provider : llm_provider)
    (dream_text followup_question previous_context : string)
    (user_context : option (gmap string string)) : M World FollowupResponse :=
  let combined_query := dream_text +:+ " " +:+ followup_question in
  '(context, source_docs) ←
    lift (VectorStoreManager.get_context_for_query collection_query float_str
            combined_query 2000 3);
  let prompt :=
    followup_prompt dream_text previous_context followup_question context in
  response_text ←
    client_create_followup provider [ {| role := "user"; msg_content := prompt |} ];
  let sources_formatted := format_followup_source <$> source_docs in
  mret {| followup_interpretation := response_text;
          followup_confidence_score := 0.75;
          followup_sources_used := sources_formatted;
          followup_reasoning := "Follow-up response";
          followup_alternative_interpretations := [];
          followup_query := followup_question |}.

End Followup.

End RAGPipeline.

(** ** agentic_system.py: class DreamInterpreterAgents *)

Module DreamInterpreterAgents.
Import Eff.

(** langchain's SystemMessage and HumanMessage *)
Inductive message : Type :=
| SystemMessage (content : string)
| HumanMessage (content : string).

(** The TypedDict DreamAnalysisState. *)
Record DreamAnalysisState : Type := {
  dream_text : string;
  user_context : gmap string string;
  dream_symbols : list string;
  research_context : string;
  retrieved_sources : list VectorStoreManager.ranked;
  symbol_analysis : string;
  psychological_analysis : string;
  cultural_analysis : string;
  final_interpretation : string;
  confidence_score : Q;
  reasoning : string;
  alternative_interpretations : list string;
  current_step : string;
  messages : list string
}.

(** The dataclass AgenticResponse. *)
Record AgenticResponse : Type := {
  interpretation : string;
  response_confidence_score : Q;
  response_symbol_analysis : string;
  response_psychological_analysis : string;
  response_cultural_analysis : string;
  response_reasoning : string;
  response_alternative_interpretations : list string;
  sources_used : list VectorStoreManager.ranked;
  agent_trace : list string
}.

(** [state[key] = v], one function per key that a stage assigns. *)
Definition set_dream_symbols (v : list string) (s : DreamAnalysisState) :=
  let '(Build_DreamAnalysisState a b _ d e f g h i j k l m n) := s in
  Build_DreamAnalysisState a b v d e f g h i j k l m n.
Definition set_research_context (v : string) (s : DreamAnalysisState) :=
  let '(Build_DreamAnalysisState a b c _ e f g h i j k l m n) := s in
  Build_DreamAnalysisState a b c v e f g h i j k l m n.
Definition set_retrieved_sources (v : list VectorStoreManager.ranked)
    (s : DreamAnalysisState) :=
  let '(Build_DreamAnalysisState a b c d _ f g h i j k l m n) := s in
  Build_DreamAnalysisState a b c d v f g h i j k l m n.
Definition set_symbol_analysis (v : string) (s : DreamAnalysisState) :=
  let '(Build_DreamAnalysisState a b c d e _ g h i j k l m n) := s in
  Build_DreamAnalysisState a b c d e v g h i j k l m n.
Definition set_psychological_analysis (v : string) (s : DreamAnalysisState) :=
  let '(Build_DreamAnalysisState a b c d e f _ h i j k l m n) := s in
  Build_DreamAnalysisState a b c d e f v h i j k l m n.
Definition set_cultural_analysis (v : string) (s : DreamAnalysisState) :=
  let '(Build_DreamAnalysisState a b c d e f g _ i j k l m n) := s in
  Build_DreamAnalysisState a b c d e f g v i j k l m n.
Definition set_final_interpretation (v : string) (s : DreamAnalysisState) :=
  let '(Build_DreamAnalysisState a b c d e f g h _ j k l m n) := s in
  Build_DreamAnalysisState a b c d e f g h v j k l m n.
Definition set_confidence_score (v : Q) (s : DreamAnalysisState) :=
  let '(Build_DreamAnalysisState a b c d e f g h i _ k l m n) := s in
  Build_DreamAnalysisState a b c d e f g h i v k l m n.
Definition set_reasoning (v : string) (s : DreamAnalysisState) :=
  let '(Build_DreamAnalysisState a b c d e f g h i j _ l m n) := s in
  Build_DreamAnalysisState a b c d e f g h i j v l m n.
Definition set_alternative_interpretations (v : list string)
    (s : DreamAnalysisState) :=
  let '(Build_DreamAnalysisState a b c d e f g h i j k _ m n) := s in
  Build_DreamAnalysisState a b c d e f g h i j k v m n.
Definition set_current_step (v : string) (s : DreamAnalysisState) :=
  let '(Build_DreamAnalysisState a b c d e f g h i j k l _ n) := s in
  Build_DreamAnalysisState a b c d e f g h i j k l v n.
(** [state['messages'].append(v)] *)
Definition append_message (v : string) (s : DreamAnalysisState) :=
  let '(Build_DreamAnalysisState a b c d e f g h i j k l m n) := s in
  Build_DreamAnalysisState a b c d e f g h i j k l m (n ++ [v]).

(** [# Parse symbols]: split on commas, strip every piece. *)
Definition parse_symbols (symbols_text : string) : list string :=
  PyStr.strip <$> PyStr.split "," symbols_text.

(** [# Extract confidence score] of the synthesis stage *)
Definition synthesis_confidence (synthesis : string) : Q :=
  if PyStr.contains "High" synthesis && PyStr.contains "%" synthesis then 0.85
  else if PyStr.contains "Low" synthesis && PyStr.contains "%" synthesis then 0.4
  else 0.7.

(** [line.strip()[0] in '123456789'] for a line that is not blank *)
Definition starts_with_digit_1_9 (stripped : string) : bool :=
  match stripped with
  | String c _ => PyStr.contains (String c "") "123456789"
  | EmptyString => false
  end.

(** [# Extract alternatives (simplified)]: the loop over the lines, from
    the flag [in_alternatives]; the value is what the remaining lines
    append. *)
Fixpoint alternatives_loop (in_alternatives : bool) (lines : list string)
    : list string :=
  match lines with
  | [] => []
  | line :: rest =>
      if PyStr.contains "ALTERNATIVE INTERPRETATION" (PyStr.upper line)
      then alternatives_loop true rest
      else if in_alternatives
              && negb (String.eqb (PyStr.strip line) "")
              && starts_with_digit_1_9 (PyStr.strip line)
      then PyStr.drop 3 (PyStr.strip line) :: alternatives_loop in_alternatives rest
      else alternatives_loop in_alternatives rest
  end.

Definition synthesis_alternatives (synthesis : string) : list string :=
  let alternatives := alternatives_loop false (PyStr.split "010" synthesis) in
  take 3 alternatives.

(** [# Extract reasoning] *)
Definition synthesis_reasoning (synthesis : string) : string :=
  let reasoning_start := PyStr.find "REASONING:" synthesis in
  let reasoning_end := PyStr.find "ALTERNATIVE INTERPRETATIONS:" synthesis in
  if negb (reasoning_start =? -1)%Z && negb (reasoning_end =? -1)%Z then
    PyStr.strip
      (PyStr.replace "REASONING:" ""
         (PyStr.slice (Z.to_nat reasoning_start) (Z.to_nat reasoning_end) synthesis))
  else "Synthesized from multiple analytical perspectives".

Section Workflow.
Variable World : Type.
Variable collection_query :
  string -> nat -> option (list string) -> VectorStoreManager.query_result.
Variable float_str : Q -> string.
(** [self.llm.invoke(messages).content] *)
Variable llm_invoke : list message -> M World string.

Definition extract_symbols_prompt (state : DreamAnalysisState) : string :=
  "Analyze this dream and extract the key symbols, themes, and elements.

Dream: " +:+ dream_text state +:+ "

List the most important symbols (5-10) that should be researched. Output as a comma-separated list.
Focus on: objects, actions, emotions, people, places, colors, animals.

Example output: " +:+ PyStr.dquote
    +:+ "teeth falling out, workplace, panic, embarrassment, falling"
    +:+ PyStr.dquote +:+ PyStr.nl.

Definition extract_symbols_messages (state : DreamAnalysisState) : list message :=
  [ SystemMessage "You are a dream symbol extraction expert.";
    HumanMessage (extract_symbols_prompt state) ].

(** Agent 1: Extract dream symbols *)
Definition extract_symbols_agent (state : DreamAnalysisState)
    : M World DreamAnalysisState :=
  symbols_text ← llm_invoke (extract_symbols_messages state);
  let symbols := parse_symbols symbols_text in
  let state := set_dream_symbols symbols state in
  let state := set_current_step "symbol_extraction" state in
  let state :=
    append_message ("Extracted " +:+ PyStr.of_nat (length symbols) +:+ " symbols")
      state in
  mret state.

(** Agent 2: Retrieve relevant research *)
Definition retrieve_research_agent (state : DreamAnalysisState)
    : M World DreamAnalysisState :=
  let search_query :=
    dream_text state +:+ " " +:+ String.concat " " (take 5 (dream_symbols state)) in
  '(context, sources) ←
    lift (VectorStoreManager.get_context_for_query collection_query float_str
            search_query 4000 7);
  let state := set_research_context context state in
  let state := set_retrieved_sources sources state in
  let state := set_current_step "research_retrieval" state in
  let state :=
    append_message
      ("Retrieved " +:+ PyStr.of_nat (length sources) +:+ " research sources")
      state in
  mret state.

Definition analyze_symbols_prompt (state : DreamAnalysisState) : string :=
  "You are a dream symbol analyst. Analyze the following symbols from a dream using the research context provided.

Dream: " +:+ dream_text state +:+ "
Symbols: " +:+ String.concat ", " (dream_symbols state) +:+ "

Research Context:
" +:+ PyStr.slice 0 3000 (research_context state) +:+ "

For each major symbol, explain:
1. What it represents based on research
2. Scientific evidence supporting this interpretation
3. Common patterns in dream research

Be specific and cite sources from the research context.".

(** Agent 3: Analyze symbols using research *)
Definition analyze_symbols_agent (state : DreamAnalysisState)
    : M World DreamAnalysisState :=
  let prompt := analyze_symbols_prompt state in
  let messages :=
    [ SystemMessage "You are a scientific dream symbol analyst.";
      HumanMessage prompt ] in
  response ← llm_invoke messages;
  let state := set_symbol_analysis response state in
  let state := set_current_step "symbol_analysis" state in
  let state := append_message "Completed symbol analysis" state in
  mret state.

Definition psychological_prompt (state : DreamAnalysisState) : string :=
  let user_context_str :=
    if negb (bool_decide (user_context state = ∅)) then
      let ctx := user_context state in
      "
User Context:
- Stress Level: " +:+ default "unknown" (ctx !! "stress_level") +:+ "
- Emotional State: " +:+ default "unknown" (ctx !! "emotional_state") +:+ "
- Recent Events: " +:+ default "none" (ctx !! "recent_events") +:+ "
"
    else "" in
  "You are a psychological dream analyst. Analyze this dream from psychological perspectives.

Dream: " +:+ dream_text state +:+ "
" +:+ user_context_str +:+ "

Previous Symbol Analysis:
" +:+ PyStr.slice 0 1500 (symbol_analysis state) +:+ "

Research Context (focus on psychological studies):
" +:+ PyStr.slice 0 2000 (research_context state) +:+ "

Analyze from these perspectives:
1. Emotional processing and mood regulation
2. Memory consolidation and personal experiences
3. Threat simulation and evolutionary psychology
4. Personal psychological state and stress response

Connect the dream to the user's current context if provided.".

(** Agent 4: Psychological framework analysis *)
Definition psychological_analysis_agent (state : DreamAnalysisState)
    : M World DreamAnalysisState :=
  let prompt := psychological_prompt state in
  let messages :=
    [ SystemMessage "You are a psychological dream analyst with expertise in contemporary dream research.";
      HumanMessage prompt ] in
  response ← llm_invoke messages;
  let state := set_psychological_analysis response state in
  let state := set_current_step "psychological_analysis" state in
  let state := append_message "Completed psychological analysis" state in
  mret state.

Definition cultural_prompt (state : DreamAnalysisState) : string :=
  "You are a cultural dream analyst. Provide cultural and archetypal context for this dream.

Dream: " +:+ dream_text state +:+ "
Symbols: " +:+ String.concat ", " (dream_symbols state) +:+ "

Research Context (focus on cultural studies):
" +:+ PyStr.slice 0 2000 (research_context state) +:+ "

Analyze:
1. Cross-cultural patterns and universal themes
2. Archetypal meanings (if supported by research)
3. Cultural variations in interpretation
4. Traditional vs modern perspectives

Stay grounded in the research provided.".

(** Agent 5: Cultural and archetypal analysis *)
Definition cultural_analysis_agent (state : DreamAnalysisState)
    : M World DreamAnalysisState :=
  let prompt := cultural_prompt state in
  let messages :=
    [ SystemMessage "You are a cultural dream analyst specializing in cross-cultural dream patterns.";
      HumanMessage prompt ] in
  response ← llm_invoke messages;
  let state := set_cultural_analysis response state in
  let state := set_current_step "cultural_analysis" state in
  let state := append_message "Completed cultural analysis" state in
  mret state.

Definition synthesis_prompt (state : DreamAnalysisState) : string :=
  "You are the synthesis agent. Combine all previous analyses into a comprehensive, coherent dream interpretation.

Dream: " +:+ dream_text state +:+ "

SYMBOL ANALYSIS:
" +:+ symbol_analysis state +:+ "

PSYCHOLOGICAL ANALYSIS:
" +:+ psychological_analysis state +:+ "

CULTURAL ANALYSIS:
" +:+ cultural_analysis state +:+ "

Create a final interpretation that:
1. Integrates insights from all analyses
2. Prioritizes scientific evidence over speculation
3. Provides actionable insights for the dreamer
4. Includes confidence assessment (High/Medium/Low with %)
5. Offers 2-3 alternative interpretations
6. Explains reasoning clearly

OUTPUT FORMAT:

FINAL INTERPRETATION:
[2-3 paragraphs integrating all perspectives]

CONFIDENCE:
[High/Medium/Low] - [XX]%

REASONING:
[Explain why this interpretation is most supported]

ALTERNATIVE INTERPRETATIONS:
1. [Alternative 1]
2. [Alternative 2]
3. [Alternative 3]

KEY INSIGHTS:
[Practical takeaways for the dreamer]
".

Definition synthesis_messages (state : DreamAnalysisState) : list message :=
  [ SystemMessage "You are the synthesis agent responsible for creating the final comprehensive dream interpretation.";
    HumanMessage (synthesis_prompt state) ].

(** Agent 6: Synthesize all analyses into final interpretation *)
Definition synthesis_agent (state : DreamAnalysisState)
    : M World DreamAnalysisState :=
  synthesis ← llm_invoke (synthesis_messages state);
  let state := set_final_interpretation synthesis state in
  let state := set_confidence_score (synthesis_confidence synthesis) state in
  let state :=
    set_alternative_interpretations (synthesis_alternatives synthesis) state in
  let state := set_reasoning (synthesis_reasoning synthesis) state in
  let state := set_current_step "complete" state in
  let state := append_message "Synthesis complete" state in
  mret state.

(** [_build_workflow]: the entry point is the symbol extractor, and the
    edges chain the six nodes up to END; the five nodes before the
    synthesis come first. *)
Definition analysis_stages : list (DreamAnalysisState -> M World DreamAnalysisState) :=
  [ extract_symbols_agent; retrieve_research_agent; analyze_symbols_agent;
    psychological_analysis_agent; cultural_analysis_agent ].

Definition workflow : list (DreamAnalysisState -> M World DreamAnalysisState) :=
  analysis_stages ++ [synthesis_agent].

(** [workflow.invoke(state)]: every node runs on the state its
    predecessor returned.  The reducer that LangGraph attaches to the
    channel [messages] is the library's and is not modelled: [messages]
    is here what the nodes themselves append, and no statement below
    depends on the length of the trace. *)
Fixpoint invoke (nodes : list (DreamAnalysisState -> M World DreamAnalysisState))
    (state : DreamAnalysisState) : M World DreamAnalysisState :=
  match nodes with
  | [] => mret state
  | node :: rest => state' ← node state; invoke rest state'
  end.

Definition initial_state (dream : string)
    (context : option (gmap string string)) : DreamAnalysisState :=
  {| dream_text := dream;
     user_context := default ∅ context;
     dream_symbols := [];
     research_context := "";
     retrieved_sources := [];
     symbol_analysis := "";
     psychological_analysis := "";
     cultural_analysis := "";
     final_interpretation := "";
     confidence_score := 0;
     reasoning := "";
     alternative_interpretations := [];
     current_step := "start";
     messages := [] |}.

Definition interpret_dream (dream : string)
    (context : option (gmap string string)) : M World AgenticResponse :=
  final_state ← invoke workflow (initial_state dream context);
  mret {| interpretation := final_interpretation final_state;
          response_confidence_score := confidence_score final_state;
          response_symbol_analysis := symbol_analysis final_state;
          response_psychological_analysis := psychological_analysis final_state;
          response_cultural_analysis := cultural_analysis final_state;
          response_reasoning := reasoning final_state;
          response_alternative_interpretations :=
            alternative_interpretations final_state;
          sources_used := retrieved_sources final_state;
          agent_trace := messages final_state |}.

End Workflow.
End DreamInterpreterAgents.

(** ** Text beyond 7 bits: the regular expressions of the cleaning step

  Where the sources look at characters above 127 a [str] is the list of
  its code points. *)

Module PyText.

Definition text : Type := list N.

Definition LF : N := 10.
Definition SPACE : N := 32.

(** [str.isspace] on a code point, which is also the class \s of [re] on
    a [str]: TAB to CR, FS to US, the space, NEL, the no-break space, and
    the Unicode spaces and separators. *)
Definition is_space (c : N) : bool :=
  ((9 <=? c) && (c <=? 13) || (28 <=? c) && (c <=? 32)
   || (c =? 133) || (c =? 160) || (c =? 5760)
   || (8192 <=? c) && (c <=? 8202)
   || (c =? 8232) || (c =? 8233) || (c =? 8239) || (c =? 8287)
   || (c =? 12288))%N.

(** the class [^\x00-\x7F] *)
Definition non_ascii (c : N) : bool := (127 <? c)%N.

(** [re.sub(cls+, ' ', s)] for a class [cls] of characters: every maximal
    run of characters of the class becomes one space.  [in_run] says that
    the character before was of the class. *)
Fixpoint sub_runs (cls : N -> bool) (in_run : bool) (s : text) : text :=
  match s with
  | [] => []
  | c :: s' =>
      if cls c then
        if in_run then sub_runs cls true s' else SPACE :: sub_runs cls true s'
      else c :: sub_runs cls false s'
  end.

(** The length of the match of \d+\n at the head of [s], if there is one.
    The engine takes the longest run of digits first and gives digits
    back until a line feed follows. *)
Fixpoint match_digits_lf (is_digit : N -> bool) (s : text) : option nat :=
  match s with
  | [] => None
  | c :: s' =>
      if is_digit c then
        match match_digits_lf is_digit s' with
        | Some n => Some (S n)
        | None =>
            match s' with
            | c' :: _ => if (c' =? LF)%N then Some 2%nat else None
            | [] => None
            end
        end
      else None
  end.

(** [re.sub(r'\n\d+\n', '\n', s)]: the matches are taken from the left
    and do not overlap.  [skip] counts the characters of a match still to
    be passed over. *)
Fixpoint sub_page_numbers_go (is_digit : N -> bool) (skip : nat) (s : text) : text :=
  match s with
  | [] => []
  | c :: s' =>
      match skip with
      | S k => sub_page_numbers_go is_digit k s'
      | O =>
          if (c =? LF)%N then
            match match_digits_lf is_digit s' with
            | Some n => LF :: sub_page_numbers_go is_digit n s'
            | None => c :: sub_page_numbers_go is_digit 0 s'
            end
          else c :: sub_page_numbers_go is_digit 0 s'
      end
  end.

Definition sub_page_numbers (is_digit : N -> bool) (s : text) : text :=
  sub_page_numbers_go is_digit 0 s.

Fixpoint lstrip (s : text) : text :=
  match s with
  | c :: s' => if is_space c then lstrip s' else s
  | [] => []
  end.

Fixpoint rstrip (s : text) : text :=
  match s with
  | [] => []
  | c :: s' =>
      match rstrip s' with
      | [] => if is_space c then [] else [c]
      | rest => c :: rest
      end
  end.

(** [s.strip()] *)
Definition strip (s : text) : text := rstrip (lstrip s).

(** [sep.join(parts)] *)
Fixpoint join (sep : text) (parts : list text) : text :=
  match parts with
  | [] => []
  | [p] => p
  | p :: rest => p ++ sep ++ join sep rest
  end.

(** [str(z)] for an integer *)
Definition of_int (z : Z) : string :=
  if (z <? 0)%Z then "-" +:+ PyStr.of_nat (Z.abs_nat z) else PyStr.of_nat (Z.to_nat z).

(** [range(0, stop, step)] for a positive step *)
Definition range_step (stop step : nat) : list nat :=
  (fun k => k * step)%nat <$> seq 0 ((stop + step - 1) / step).

Definition lower_char (c : ascii) : ascii :=
  let n := nat_of_ascii c in
  if (65 <=? n)%nat && (n <=? 90)%nat then ascii_of_nat (n + 32) else c.

(** [s.lower()] on 7-bit text *)
Fixpoint lower (s : string) : string :=
  match s with
  | EmptyString => EmptyString
  | String c s' => String (lower_char c) (lower s')
  end.

(** [s.split()]: the words between runs of whitespace; [word] is the
    word that is being read, if one is. *)
Fixpoint split_words_go (word : option string) (s : string) : list string :=
  match s with
  | EmptyString => match word with Some w => [w] | None => [] end
  | String c s' =>
      if PyStr.is_space c then
        match word with
        | Some w => w :: split_words_go None s'
        | None => split_words_go None s'
        end
      else
        split_words_go (Some (default "" word +:+ String c "")) s'
  end.

Definition split_words (s : string) : list string := split_words_go None s.

End PyText.

(** ** document_processor.py: class DocumentProcessor *)

Module DocumentProcessor.
Import PyText.

(** The dataclass ProcessedDocument. *)
Record ProcessedDocument : Type := {
  content : text;
  metadata : VectorStoreManager.metadata_dict;
  doc_id : string;
  chunk_id : Z
}.

Section Processor.
(** the Unicode decimal digits, the class \d of [re] on a [str] *)
Variable is_digit : N -> bool.
(** PyPDF2: the texts of the pages of the file at a path, in order, a
    page without text giving the empty text; [None] when opening or
    reading the file raises. *)
Variable pdf_pages : string -> option (list text).
(** [self.text_splitter.split_text] *)
Variable split_text : text -> list text.
(** [Path(p).name] and [Path(p).stem] *)
Variable path_name path_stem : string -> string.
(** [str(f)] for the files of [Path(directory).glob("*.pdf")] *)
Variable glob_pdf : string -> list string.

Definition _clean_text (t : text) : text :=
  let t := sub_runs is_space false t in
  let t := sub_page_numbers is_digit t in
  let t := sub_runs non_ascii false t in
  strip t.

(** The [try] spans the whole body: any exception gives the empty
    string. *)
Definition extract_text_from_pdf (pdf_path : string) : text :=
  match pdf_pages pdf_path with
  | Some pages =>
      let text :=
        _clean_text <$> List.filter (fun page_text => negb (bool_decide (page_text = []))) pages in
      join [LF; LF] text
  | None => []
  end.

(** [# Step 3: Create default metadata for this document] *)
Definition default_metadata (pdf_path : string) : VectorStoreManager.metadata_dict :=
  <["source" := VectorStoreManager.MStr (path_name pdf_path)]>
  (<["doc_id" := VectorStoreManager.MStr (path_stem pdf_path)]>
  (<["file_path" := VectorStoreManager.MStr pdf_path]>
  (<["document_type" := VectorStoreManager.MStr "research_paper"]> ∅))).

(** [processed_docs] is [self.processed_docs]; the second component of
    the result is its value when the method returns. *)
Definition process_pdf (pdf_path : string)
    (metadata : option VectorStoreManager.metadata_dict)
    (processed_docs : list ProcessedDocument)
    : list ProcessedDocument * list ProcessedDocument :=
  let text := extract_text_from_pdf pdf_path in
  match text with
  | [] => ([], processed_docs)
  | _ =>
      let doc_id := path_stem pdf_path in
      let doc_metadata := default_metadata pdf_path in
      let doc_metadata :=
        match metadata with
        | Some m => if bool_decide (m = ∅) then doc_metadata else m ∪ doc_metadata
        | None => doc_metadata
        end in
      let chunks := split_text text in
      let processed_chunks :=
        imap (fun chunk_idx chunk =>
                let chunk_metadata :=
                  <["total_chunks" :=
                      VectorStoreManager.MNum (inject_Z (Z.of_nat (length chunks)))]>
                  (<["chunk_id" :=
                      VectorStoreManager.MNum (inject_Z (Z.of_nat chunk_idx))]>
                     doc_metadata) in
                {| content := chunk; metadata := chunk_metadata;
                   doc_id := doc_id; chunk_id := Z.of_nat chunk_idx |})
          chunks in
      (processed_chunks, processed_docs ++ processed_chunks)
  end.

(** the loop of [process_directory]: the value is what the remaining
    files add to [all_chunks], with [self.processed_docs] after them *)
Fixpoint process_files (pdf_files : list string)
    (metadata_map : option (gmap string VectorStoreManager.metadata_dict))
    (processed_docs : list ProcessedDocument)
    : list ProcessedDocument * list ProcessedDocument :=
  match pdf_files with
  | [] => ([], processed_docs)
  | pdf_file :: rest =>
      let file_metadata :=
        match metadata_map with
        | Some m => m !! path_name pdf_file
        | None => None
        end in
      let '(chunks, processed_docs) := process_pdf pdf_file file_metadata processed_docs in
      let '(all_chunks, processed_docs) := process_files rest metadata_map processed_docs in
      (chunks ++ all_chunks, processed_docs)
  end.

Definition process_directory (directory_path : string)
    (metadata_map : option (gmap string VectorStoreManager.metadata_dict))
    (processed_docs : list ProcessedDocument)
    : list ProcessedDocument * list ProcessedDocument :=
  process_files (glob_pdf directory_path) metadata_map processed_docs.

End Processor.
End DocumentProcessor.

(** ** vector_store.py: adding documents, and the statistics *)

Module VectorStoreAdmin.
Import VectorStoreManager.

(** One call of [self.collection.add]. *)
Record add_call : Type := {
  batch_ids : list string;
  batch_texts : list PyText.text;
  batch_metadatas : list metadata_dict
}.

(** [l[i:i+n]] *)
Definition slice {A : Type} (i n : nat) (l : list A) : list A := take n (drop i l).

(** the id that a chunk gets in the collection *)
Definition chunk_key (doc : DocumentProcessor.ProcessedDocument) : string :=
  DocumentProcessor.doc_id doc +:+ "_chunk_"
    +:+ PyText.of_int (DocumentProcessor.chunk_id doc).

(** The calls of [self.collection.add] that [add_documents] makes, in
    their order. *)
Definition add_documents (documents : list DocumentProcessor.ProcessedDocument)
    : list add_call :=
  match documents with
  | [] => []
  | _ =>
      let ids := chunk_key <$> documents in
      let texts := DocumentProcessor.content <$> documents in
      let metadatas := DocumentProcessor.metadata <$> documents in
      let batch_size := 100%nat in
      (fun i => {| batch_ids := slice i batch_size ids;
                   batch_texts := slice i batch_size texts;
                   batch_metadatas := slice i batch_size metadatas |})
        <$> PyText.range_step (length ids) batch_size
  end.

(** The dict that [get_stats] returns. *)
Record stats : Type := {
  total_chunks : nat;
  unique_sources : nat;
  categories : list (mvalue * nat);
  embedding_provider : string
}.

(** [==] on the keys of a dict: strings, or numbers by their value *)
Definition mvalue_eqb (a b : mvalue) : bool :=
  match a, b with
  | MStr s, MStr t => String.eqb s t
  | MNum x, MNum y => Qeq_bool x y
  | _, _ => false
  end.

(** [categories[category] = categories.get(category, 0) + 1] on a dict
    in the order of insertion *)
Fixpoint count_category (category : mvalue) (categories : list (mvalue * nat))
    : list (mvalue * nat) :=
  match categories with
  | [] => [(category, 1%nat)]
  | (k, v) :: rest =>
      if mvalue_eqb k category then (k, S v) :: rest
      else (k, v) :: count_category category rest
  end.

(** [sources.add(source)] *)
Definition add_source (source : mvalue) (sources : list mvalue) : list mvalue :=
  if existsb (mvalue_eqb source) sources then sources else sources ++ [source].

Section Stats.
(** [self.collection.count()] *)
Variable collection_count : nat.
(** the key [metadatas] of [self.collection.get(limit=n)] *)
Variable collection_get : nat -> list metadata_dict.
(** [self.embedding_provider] *)
Variable provider : string.

(** the loop over the sample, from the dict and the set built so far *)
Fixpoint count_sample (sample : list metadata_dict)
    (acc : list (mvalue * nat) * list mvalue) : list (mvalue * nat) * list mvalue :=
  match sample with
  | [] => acc
  | metadata :: rest =>
      let category := default (MStr "unknown") (metadata !! "category") in
      let source := default (MStr "Unknown") (metadata !! "source") in
      count_sample rest (count_category category acc.1, add_source source acc.2)
  end.

Definition get_stats : stats :=
  let count := collection_count in
  let sample := collection_get count in
  let '(categories, sources) := count_sample sample ([], []) in
  {| total_chunks := count;
     unique_sources := length sources;
     categories := categories;
     embedding_provider := provider |}.

End Stats.
End VectorStoreAdmin.

(** ** ragas_evaluation.py: the simplified metrics *)

Module RAGEvaluator.

(** The keys of a result of [evaluate_single_case] that the simplified
    metrics read. *)
Record case_result : Type := {
  response_time : Q;
  sources_count : nat;
  generated_interpretation : string;
  ground_truth : string
}.

(** The dict of [_calculate_simple_metrics], without its note. *)
Record simple_metrics : Type := {
  average_response_time : Q;
  average_sources_retrieved : Q;
  keyword_overlap_score : Q;
  total_tests : nat
}.

Definition Qsum (l : list Q) : Q := foldr Qplus 0 l.

(** [min(a, b)]: [b] when it is less than [a], else [a] *)
Definition py_min (a b : Q) : Q := if Qle_bool a b then a else b.

(** [set(s.lower().split())] *)
Definition words (s : string) : gset string :=
  list_to_set (PyText.split_words (PyText.lower s)).

(** the entry of [relevancy_scores] for one result *)
Definition relevancy_score (result : case_result) : Q :=
  let gen := words (generated_interpretation result) in
  let truth := words (ground_truth result) in
  let overlap :=
    if bool_decide (truth = ∅) then 0
    else inject_Z (Z.of_nat (size (gen ∩ truth))) / inject_Z (Z.of_nat (size truth)) in
  py_min overlap 1.

(** A division by [len(results)] raises ZeroDivisionError for the empty
    list. *)
Definition _calculate_simple_metrics (results : list case_result)
    : option simple_metrics :=
  match results with
  | [] => None
  | _ =>
      let n := inject_Z (Z.of_nat (length results)) in
      let avg_response_time := Qsum (response_time <$> results) / n in
      let avg_sources :=
        inject_Z (Z.of_nat (sum_list (sources_count <$> results))) / n in
      let relevancy_scores := relevancy_score <$> results in
      Some {| average_response_time := avg_response_time;
              average_sources_retrieved := avg_sources;
              keyword_overlap_score :=
                Qsum relevancy_scores / inject_Z (Z.of_nat (length relevancy_scores));
              total_tests := length results |}
  end.

End RAGEvaluator.

(** ** web_app.py and simple_web_app.py: the user context of a request *)

Module WebApp.

(** The field [age] of a request, by what [if age:] and [int(age)] make
    of it: missing or falsy, a value that [int] converts, or a value on
    which [int] raises ValueError. *)
Inductive age_field : Type :=
| age_missing
| age_number (n : Z)
| age_invalid.

(** [# Build user context], from the age and from the stripped fields
    [gender] and [recent_events], and the argument that the handler
    passes to the pipelines: [user_context if user_context else None].
    A value is kept as [str] shows it. *)
Definition user_context_of (age : age_field) (gender recent_events : string)
    : option (gmap string string) :=
  let user_context : gmap string string := ∅ in
  let user_context :=
    match age with
    | age_number n => <["age" := PyText.of_int n]> user_context
    | _ => user_context
    end in
  let user_context :=
    if negb (String.eqb gender "") then <["gender" := gender]> user_context
    else user_context in
  let user_context :=
    if negb (String.eqb recent_events "")
    then <["recent_life_events" := recent_events]> user_context
    else user_context in
  if bool_decide (user_context = ∅) then None else Some user_context.

End WebApp.

(** ** Concrete indexes and scripted model answers, for the examples *)

Module Fixtures.
Import VectorStoreManager.

(** the metadata the corpus builder attaches to a chunk *)
Definition meta (source category validation : string) (weight : Q) : metadata_dict :=
  <["source" := MStr source]>
  (<["category" := MStr category]>
  (<["validation" := MStr validation]>
  (<["weight" := MNum weight]> ∅))).

(** An index that answers every query with the first [n] of fixed
    neighbours (id, document, metadata, distance). *)
Definition index_of (hits : list (string * string * metadata_dict * Q))
    (query : string) (n : nat) (filter : option (list string)) : query_result :=
  let hits := take n hits in
  {| ids := (fun h => h.1.1.1) <$> hits;
     documents := (fun h => h.1.1.2) <$> hits;
     metadatas := (fun h => h.1.2) <$> hits;
     distances := (fun h => h.2) <$> hits |}.

Definition float_str (x : Q) : string := "0.0".

(** Two sources with the same similarity 0.5: S with weight 0.2, T with
    weight 0.8. *)
Definition index_ST :=
  index_of [ ("S_chunk_0", "flying over water", meta "S" "clinical" "High" 0.2, 0.5);
             ("T_chunk_0", "flying and falling", meta "T" "clinical" "High" 0.8, 0.5) ].

(** Two chunks with the same similarity and the same weight, the source
    named T first. *)
Definition index_tie :=
  index_of [ ("T_chunk_0", "flying", meta "T" "clinical" "High" 0.2, 0.5);
             ("S_chunk_0", "flying", meta "S" "clinical" "High" 0.2, 0.5) ].

(** A neighbour at distance 1.5. *)
Definition index_far :=
  index_of [ ("S_chunk_0", "flying", meta "S" "clinical" "High" 0.2, 1.5) ].

(** Two chunks whose formatted blocks have 54 characters each. *)
Definition index_two_blocks :=
  index_of [ ("S_chunk_0", "abcd", meta "S" "c" "v" 0.2, 0.1);
             ("S_chunk_1", "efgh", meta "S" "c" "v" 0.2, 0.2) ].

(** Chunks whose formatted blocks have 80 characters. *)
Definition index_wide :=
  index_of [ ("S_chunk_0", "a dream about flying",
              meta "S" "clinical" "High" 0.2, 0.1);
             ("S_chunk_1", "a dream about a fall",
              meta "S" "clinical" "High" 0.2, 0.2) ].

(** A language model that reads its answers off a script: the world is
    the list of answers still to give. *)
Definition scripted {A : Type} (messages : A) : Eff.M (list string) string :=
  fun script =>
    match script with
    | answer :: rest => Some (answer, rest)
    | [] => None
    end.

(** A synthesis answer in the requested format, with four numbered
    alternatives and a confidence of 92%. *)
Definition synthesis_answer : string :=
  "FINAL INTERPRETATION:
The dream reflects a wish for freedom.

CONFIDENCE:
High - 92%

REASONING:
Flying dreams are linked to elation.

ALTERNATIVE INTERPRETATIONS:
1. Avoidance of a conflict
2. Memory of a journey
3. Vestibular activation in REM sleep
4. A film seen the evening before

KEY INSIGHTS:
Keep a dream journal.
".

(** An answer to the RAG prompt, with four numbered alternatives. *)
Definition rag_answer : string :=
  "PRIMARY INTERPRETATION:
Losing teeth reflects stress at work.

CONFIDENCE LEVEL:
High - 85%

SCIENTIFIC EVIDENCE:
Content analysis of coded dreams.

REASONING:
The dreamer reports pressure.

ALTERNATIVE INTERPRETATIONS:
1. Concern about appearance
2. Fear of ageing
3. Dental irritation during sleep
4. A recent visit to the dentist

SOURCES CITED:
S".



(** An answer to the RAG prompt with six numbered lines under the header
    of the alternatives. *)
Definition rag_answer_six : string :=
  "ALTERNATIVE INTERPRETATIONS:
1. Concern about appearance
2. Fear of ageing
3. Dental irritation during sleep
4. A recent visit to the dentist
5. Worry about money
6. A change of diet".

(** What the sources compute on these inputs. *)
Definition ranked_ST : list ranked :=
  Eval vm_compute in default [] (hybrid_search index_ST "flying" 2 None).

Definition ranked_tie : list ranked :=
  Eval vm_compute in default [] (hybrid_search index_tie "flying" 2 None).

Definition results_far : list result :=
  Eval vm_compute in default [] (similarity_search index_far "flying" 1 None).

Definition context_two_blocks : string * list ranked :=
  Eval vm_compute in
    default ("", []) (get_context_for_query index_two_blocks float_str "x" 27 5).

Definition context_wide : string * list ranked :=
  Eval vm_compute in
    default ("", []) (get_context_for_query index_wide float_str "x" 12 5).

Definition state_flying : DreamInterpreterAgents.DreamAnalysisState :=
  DreamInterpreterAgents.initial_state "I was flying" None.

(** the state after the symbol extraction, for an empty answer *)
Definition state_empty_answer : DreamInterpreterAgents.DreamAnalysisState :=
  Eval vm_compute in
    match DreamInterpreterAgents.extract_symbols_agent (list string) scripted
            state_flying [""] with
    | Some (state, _) => state
    | None => state_flying
    end.

Definition agentic_script : list string :=
  ["flying, water"; "symbols"; "psyche"; "culture"; synthesis_answer].

(** the response of the agentic pipeline on the script (the empty
    response stands for a run that failed) *)
Definition agentic_response : DreamInterpreterAgents.AgenticResponse :=
  Eval vm_compute in
    match DreamInterpreterAgents.interpret_dream (list string) index_ST float_str
            scripted "I was flying" None agentic_script with
    | Some (resp, _) => resp
    | None => DreamInterpreterAgents.Build_AgenticResponse "" 0 "" "" "" "" [] [] []
    end.

(** the response of the RAG pipeline to [rag_answer] *)
Definition rag_response : RAGPipeline.RAGResponse :=
  Eval vm_compute in
    match RAGPipeline.interpret_dream (list string) index_ST float_str
            (fun _ => scripted) RAGPipeline.anthropic "I was flying" None 5
            [rag_answer] with
    | Some (resp, _) => resp
    | None =>
        RAGPipeline.Build_RAGResponse (RAGPipeline.VStr "") (RAGPipeline.VFloat 0) []
          (RAGPipeline.VStr "") (RAGPipeline.VList []) ""
    end.

(** An index without any neighbour. *)
Definition index_empty := index_of [].

(** Two neighbours by ascending distance whose final scores are equal,
    in the sources' floating point as well as here: similarity 0.5 with
    weight 0 gives 0.5 * 1, similarity 0.25 with weight 1 gives 0.25 * 2. *)
Definition index_equal_final :=
  index_of [ ("S_chunk_0", "flying", meta "S" "clinical" "High" 0, 0.5);
             ("T_chunk_0", "falling", meta "T" "clinical" "High" 1, 0.75) ].

Definition ranked_equal_final : list ranked :=
  Eval vm_compute in default [] (hybrid_search index_equal_final "flying" 2 None).

(** Two neighbours at the distance 1.5, similarity -0.5: S with weight
    0.2, T with weight 0.8. *)
Definition index_far_ST :=
  index_of [ ("S_chunk_0", "flying", meta "S" "clinical" "High" 0.2, 1.5);
             ("T_chunk_0", "falling", meta "T" "clinical" "High" 0.8, 1.5) ].

Definition ranked_far_ST : list ranked :=
  Eval vm_compute in default [] (hybrid_search index_far_ST "flying" 2 None).

(** the response to a follow-up question whose answer states a
    confidence of 95% *)
Definition followup_response : RAGPipeline.FollowupResponse :=
  Eval vm_compute in
    match RAGPipeline.interpret_with_followup (list string) index_ST float_str
            (fun _ => scripted) RAGPipeline.openai "I was flying" "Why water?"
            "The dream reflects a wish for freedom." None
            ["CONFIDENCE: High - 95%"] with
    | Some (resp, _) => resp
    | None => RAGPipeline.Build_FollowupResponse "" 0 [] "" [] ""
    end.

(** the agentic pipeline on a script whose last answer is [synthesis] *)
Definition agentic_run (synthesis : string)
    : option (DreamInterpreterAgents.AgenticResponse * list string) :=
  DreamInterpreterAgents.interpret_dream (list string) index_ST float_str
    scripted "I was flying" None
    ["flying, water"; "symbols"; "psyche"; "culture"; synthesis].

Definition blank_agentic_response : DreamInterpreterAgents.AgenticResponse :=
  DreamInterpreterAgents.Build_AgenticResponse "" 0 "" "" "" "" [] [] [].

(** a synthesis without any of the sections *)
Definition agentic_response_free : DreamInterpreterAgents.AgenticResponse :=
  Eval vm_compute in
    match agentic_run "You long for freedom." with
    | Some (resp, _) => resp
    | None => blank_agentic_response
    end.

(** a synthesis that states its alternatives before its reasoning *)
Definition reversed_answer : string :=
  "ALTERNATIVE INTERPRETATIONS:
1. Avoidance of a conflict
REASONING: Flying dreams are linked to elation.".

Definition agentic_response_reversed : DreamInterpreterAgents.AgenticResponse :=
  Eval vm_compute in
    match agentic_run reversed_answer with
    | Some (resp, _) => resp
    | None => blank_agentic_response
    end.

(** the digits 0 to 9, for the class \d *)
Definition ascii_digit (c : N) : bool := ((48 <=? c) && (c <=? 57))%N.

(** A folder with two files: paper.pdf has two pages, the second with the
    text [cd] between line breaks; scan.pdf cannot be read. *)
Definition pdf_pages (path : string) : option (list PyText.text) :=
  if String.eqb path "docs/paper.pdf" then Some [[97; 98]%N; [10; 99; 100; 10]%N]
  else None.

(** a splitter that cuts after every third character *)
Fixpoint split_text_3 (fuel : nat) (t : PyText.text) : list PyText.text :=
  match fuel, t with
  | S fuel', _ :: _ => take 3 t :: split_text_3 fuel' (drop 3 t)
  | _, _ => []
  end.
Definition split_text (t : PyText.text) : list PyText.text :=
  split_text_3 (length t) t.

Definition path_name (path : string) : string := PyStr.drop 5 path.
Definition path_stem (path : string) : string :=
  PyStr.slice 5 (String.length path - 4) path.
Definition glob_pdf (directory : string) : list string :=
  ["docs/scan.pdf"; "docs/paper.pdf"].

(** metadata for paper.pdf that names a source and a chunk number *)
Definition paper_metadata : metadata_dict :=
  <["source" := MStr "Solms 2021"]> (<["chunk_id" := MNum 7]>
  (<["weight" := MNum 0.215]> ∅)).

Definition paper_chunks : list DocumentProcessor.ProcessedDocument :=
  Eval vm_compute in
    (DocumentProcessor.process_pdf ascii_digit pdf_pages split_text path_name
       path_stem "docs/paper.pdf" (Some paper_metadata) []).1.

(** a collection of three chunks: two of the category clinical from
    the source S, one without category from the source T *)
Definition sample_metadatas (limit : nat) : list metadata_dict :=
  take limit
    [ meta "S" "clinical" "High" 0.2;
      <["source" := MStr "T"]> ∅;
      meta "S" "clinical" "High" 0.2 ].

(** two results of the evaluation *)
Definition case_results : list RAGEvaluator.case_result :=
  [ {| RAGEvaluator.response_time := 2;
       RAGEvaluator.sources_count := 5;
       RAGEvaluator.generated_interpretation := "You feel Stress at work";
       RAGEvaluator.ground_truth := "stress  work" |};
    {| RAGEvaluator.response_time := 4;
       RAGEvaluator.sources_count := 3;
       RAGEvaluator.generated_interpretation := "A wish for freedom";
       RAGEvaluator.ground_truth := "Fear of falling" |} ].
End Fixtures.

(** * Properties *)

(** closes a goal between closed terms by evaluation *)
Ltac run := vm_compute; reflexivity.

(** closes a goal whose hypothesis [H] finds a string in a list of strings
    that all differ from it *)
Ltac not_among H :=
  exfalso;
  repeat (apply elem_of_cons in H as [H|H]; [discriminate H|]);
  by apply elem_of_nil in H.

(** ** Python strings *)

Section StringFacts.
Import PyStr.

Lemma string_app_cons (c : ascii) (a b : string) :
  String c a +:+ b = String c (a +:+ b).
Proof. reflexivity. Qed.

Lemma string_app_nil_l (b : string) : "" +:+ b = b.
Proof. reflexivity. Qed.

Lemma string_app_assoc (a b c : string) : (a +:+ b) +:+ c = a +:+ (b +:+ c).
Proof.
  induction a as [|x a IH]; [done|].
  by rewrite !string_app_cons, IH.
Qed.

Lemma split_nonempty sep s : split sep s <> [].
Proof.
  destruct s as [|c s]; simpl; [done|].
  destruct (Ascii.eqb c sep); [done|]. by destruct (split sep s).
Qed.

Lemma rstrip_cons_nonspace c s :
  is_space c = false -> rstrip (String c s) = String c (rstrip s).
Proof. intros H. simpl. rewrite H. by destruct (rstrip s). Qed.

Lemma rstrip_cons_nonempty c s :
  rstrip s <> "" -> rstrip (String c s) = String c (rstrip s).
Proof. intros H. simpl. by destruct (rstrip s). Qed.

Lemma contains_suffix sub a b :
  contains sub b = true -> contains sub (a +:+ b) = true.
Proof.
  intros H. induction a as [|c a IH]; [done|].
  rewrite string_app_cons. cbn [contains]. rewrite IH. apply orb_true_r.
Qed.

Lemma contains_prefix sub b : starts_with sub b = true -> contains sub b = true.
Proof. intros H. destruct b; cbn [contains]; rewrite H; done. Qed.



End StringFacts.


(** ** The stable descending sort *)

Section SortFacts.
Context {A : Type} (key : A -> Q).
Implicit Types (x : A) (l : list A).

Lemma insert_desc_Permutation x l : PySort.insert_desc key x l ≡ₚ x :: l.
Proof.
  induction l as [|y l IH]; simpl; [done|].
  destruct (Qle_bool (key y) (key x)); [done|].
  rewrite IH. apply Permutation_swap.
Qed.

Lemma sort_desc_Permutation l : PySort.sort_desc key l ≡ₚ l.
Proof.
  induction l as [|x l IH]; simpl; [done|].
  by rewrite insert_desc_Permutation, IH.
Qed.

Lemma insert_desc_sorted x l :
  StronglySorted (PySort.desc key) l ->
  StronglySorted (PySort.desc key) (PySort.insert_desc key x l).
Proof.
  induction 1 as [|y l Hl IH Hy]; simpl.
  - repeat constructor.
  - destruct (Qle_bool (key y) (key x)) eqn:E.
    + apply Qle_bool_iff in E.
      constructor; [by constructor|].
      constructor; [exact E|].
      eapply Forall_impl; [exact Hy|].
      intros z Hz. unfold PySort.desc in *. eapply Qle_trans; [exact Hz|exact E].
    + constructor; [exact IH|].
      rewrite insert_desc_Permutation. constructor; [|exact Hy].
      unfold PySort.desc.
      destruct (Qlt_le_dec (key x) (key y)) as [Hlt|Hle].
      * by apply Qlt_le_weak.
      * apply Qle_bool_iff in Hle. congruence.
Qed.

Lemma sort_desc_sorted l : StronglySorted (PySort.desc key) (PySort.sort_desc key l).
Proof.
  induction l as [|x l IH]; simpl; [constructor|].
  by apply insert_desc_sorted.
Qed.

(** the elements with a given key keep their order *)

Lemma insert_desc_stable q x l :
  List.filter (PySort.has_key key q) (PySort.insert_desc key x l)
  = List.filter (PySort.has_key key q) (x :: l).
Proof.
  induction l as [|y l IH]; [done|].
  cbn [PySort.insert_desc].
  destruct (Qle_bool (key y) (key x)) eqn:E; [done|].
  cbn [List.filter] in *. rewrite IH.
  destruct (PySort.has_key key q x) eqn:Ex, (PySort.has_key key q y) eqn:Ey; try done.
  exfalso. unfold PySort.has_key in *.
  apply Qeq_bool_eq in Ex, Ey.
  assert (key y <= key x) as H by (rewrite Ex, Ey; apply Qle_refl).
  apply Qle_bool_iff in H. congruence.
Qed.

Lemma sort_desc_stable q l :
  List.filter (PySort.has_key key q) (PySort.sort_desc key l) = List.filter (PySort.has_key key q) l.
Proof.
  induction l as [|x l IH]; [done|].
  cbn [PySort.sort_desc]. rewrite insert_desc_stable.
  cbn [List.filter]. by rewrite IH.
Qed.

Lemma filter_take_prefix (p : A -> bool) n l :
  List.filter p (take n l) `prefix_of` List.filter p l.
Proof.
  revert n. induction l as [|x l IH]; intros [|n]; simpl;
    try apply prefix_nil.
  destruct (p x); [apply prefix_cons|]; apply IH.
Qed.

Lemma StronglySorted_take (R : relation A) n l :
  StronglySorted R l -> StronglySorted R (take n l).
Proof.
  intros H. revert n. induction H as [|x l Hl IH Hx]; intros [|n]; simpl;
    try constructor; [apply IH|].
  eapply Forall_take in Hx. exact Hx.
Qed.
Lemma StronglySorted_filter (R : relation A) (p : A -> bool) l :
  StronglySorted R l -> StronglySorted R (List.filter p l).
Proof.
  induction 1 as [|x l Hl IH Hx]; simpl; [constructor|].
  destruct (p x); [|exact IH]. constructor; [exact IH|].
  apply Forall_forall. intros y Hy.
  apply list_elem_of_In, filter_In in Hy as [Hy _].
  rewrite Forall_forall in Hx. by apply Hx, list_elem_of_In.
Qed.

(** a list is sorted when the relation holds from any position to any
    later one *)
Lemma StronglySorted_lookup (R : relation A) l :
  StronglySorted R l <->
  forall i j a b, (i < j)%nat -> l !! i = Some a -> l !! j = Some b -> R a b.
Proof.
  split.
  - induction 1 as [|x l Hl IH Hx]; intros i j a b Hij Hi Hj; [done|].
    destruct j as [|j]; [lia|]. destruct i as [|i]; simpl in *.
    + simplify_eq. rewrite Forall_forall in Hx.
      by eapply Hx, list_elem_of_lookup_2.
    + eapply (IH i j); [lia|done..].
  - induction l as [|x l IH]; intros H; constructor.
    + apply IH. intros i j a b Hij Hi Hj. by apply (H (S i) (S j)); [lia|..].
    + apply Forall_forall. intros y [j Hj]%list_elem_of_lookup.
      by apply (H 0%nat (S j)); [lia|..].
Qed.

(** Among elements of one key the sort keeps every order that the list
    had: if the list was sorted for [R], an element that stands before
    another of the same key is related to it. *)
Lemma sort_desc_ties (R : relation A) l l1 a l2 b l3 :
  StronglySorted R l ->
  PySort.sort_desc key l = l1 ++ a :: l2 ++ b :: l3 ->
  key a == key b -> R a b.
Proof.
  intros Hl Hs Hab.
  pose proof (sort_desc_stable (key a) l) as Hf. rewrite Hs in Hf.
  rewrite !List.filter_app in Hf. cbn [List.filter] in Hf.
  rewrite !List.filter_app in Hf. cbn [List.filter] in Hf.
  unfold PySort.has_key at 2 4 in Hf.
  rewrite Qeq_bool_refl in Hf.
  rewrite (Qeq_eq_bool (key b) (key a)) in Hf by (by symmetry).
  apply (StronglySorted_filter R (PySort.has_key key (key a))) in Hl.
  rewrite <- Hf in Hl.
  apply StronglySorted_app_1_r in Hl.
  apply StronglySorted_inv in Hl as [_ Hl].
  rewrite Forall_app, Forall_cons in Hl. by destruct Hl as (_ & ? & _).
Qed.

Lemma desc_head_max x y l :
  StronglySorted (PySort.desc key) (y :: l) -> In x (y :: l) -> key x <= key y.
Proof.
  intros [_ Hy]%StronglySorted_inv [->|Hin]; [apply Qle_refl|].
  rewrite Forall_forall in Hy. by apply Hy, list_elem_of_In.
Qed.

Lemma filter_has_key_head x l :
  List.filter (PySort.has_key key (key x)) (x :: l)
  = x :: List.filter (PySort.has_key key (key x)) l.
Proof. cbn [List.filter]. unfold PySort.has_key at 1. by rewrite Qeq_bool_refl. Qed.

(** The descending stable arrangement is unique: two lists in descending
    order of the keys that agree, key by key, on the elements of that key
    and on their order are one list.  Whatever algorithm the interpreter
    runs, a stable descending sort returns [sort_desc]. *)
Lemma stable_desc_unique l1 l2 :
  StronglySorted (PySort.desc key) l1 ->
  StronglySorted (PySort.desc key) l2 ->
  (forall q, List.filter (PySort.has_key key q) l1
             = List.filter (PySort.has_key key q) l2) ->
  l1 = l2.
Proof.
  revert l2. induction l1 as [|x l1 IH]; intros [|y l2] H1 H2 Hf.
  - done.
  - specialize (Hf (key y)). by rewrite filter_has_key_head in Hf.
  - specialize (Hf (key x)). by rewrite filter_has_key_head in Hf.
  - assert (key x <= key y) as Hxy.
    { apply (desc_head_max x y l2 H2).
      eapply (proj1 (filter_In _ _ _)). rewrite <- (Hf (key x)).
      rewrite filter_has_key_head. by left. }
    assert (key y <= key x) as Hyx.
    { apply (desc_head_max y x l1 H1).
      eapply (proj1 (filter_In _ _ _)). rewrite (Hf (key y)).
      rewrite filter_has_key_head. by left. }
    assert (x = y) as ->.
    { pose proof (Hf (key x)) as Hq. rewrite filter_has_key_head in Hq.
      cbn [List.filter] in Hq. unfold PySort.has_key at 2 in Hq.
      rewrite (Qeq_eq_bool (key y) (key x)) in Hq
        by (by apply Qle_antisym).
      by injection Hq. }
    f_equal. apply IH.
    + by apply StronglySorted_inv in H1 as [? _].
    + by apply StronglySorted_inv in H2 as [? _].
    + intros q. specialize (Hf q). cbn [List.filter] in Hf.
      destruct (PySort.has_key key q y); [by injection Hf|done].
Qed.

Lemma sort_desc_unique l l' :
  StronglySorted (PySort.desc key) l' ->
  (forall q, List.filter (PySort.has_key key q) l'
             = List.filter (PySort.has_key key q) l) ->
  l' = PySort.sort_desc key l.
Proof.
  intros Hs Hf. apply stable_desc_unique; [done|apply sort_desc_sorted|].
  intros q. by rewrite sort_desc_stable.
Qed.

End SortFacts.

(** ** The vector store *)

Section StoreFacts.
Import VectorStoreManager.
Variable collection_query : string -> nat -> option (list string) -> query_result.
Variable float_str : Q -> string.

Lemma format_result_spec res i r :
  format_result res i = Some r ->
  ids res !! i = Some (result_id r) /\
  documents res !! i = Some (content r) /\
  metadatas res !! i = Some (metadata r) /\
  distances res !! i = Some (distance r) /\
  relevance_score r = 1 - distance r.
Proof.
  unfold format_result. intros H.
  destruct (ids res !! i), (documents res !! i), (metadatas res !! i),
    (distances res !! i); simplify_eq/=. done.
Qed.

Lemma similarity_search_lookup query n f rs i r :
  similarity_search collection_query query n f = Some rs ->
  rs !! i = Some r ->
  format_result (collection_query query n f) i = Some r.
Proof.
  unfold similarity_search. intros H Hi.
  apply mapM_Some_1 in H.
  destruct (Forall2_lookup_r _ _ _ _ _ H Hi) as (j & Hj & Hf).
  apply lookup_seq in Hj as [-> _]. exact Hf.
Qed.

(** The index hands back parallel lists: when they are as long as the
    list of ids the search returns. *)
Lemma similarity_search_returns query n f :
  let res := collection_query query n f in
  length (documents res) = length (ids res) ->
  length (metadatas res) = length (ids res) ->
  length (distances res) = length (ids res) ->
  is_Some (similarity_search collection_query query n f).
Proof.
  intros res Hd Hm Hx. unfold similarity_search. fold res.
  apply mapM_is_Some, Forall_forall. intros i Hi%elem_of_seq. simpl.
  unfold format_result.
  destruct (lookup_lt_is_Some_2 (ids res) i) as [? ->]; [lia|].
  destruct (lookup_lt_is_Some_2 (documents res) i) as [? ->]; [lia|].
  destruct (lookup_lt_is_Some_2 (metadatas res) i) as [? ->]; [lia|].
  destruct (lookup_lt_is_Some_2 (distances res) i) as [? ->]; [lia|].
  by eexists.
Qed.

(** C7, as amended: every result of the similarity search carries the
    distance that the index returned at its position, its similarity is
    1 minus that distance, with no normalisation and no clamping, and so
    it lies in [0,1] exactly when the distance does. *)
Theorem similarity_search_relevance query n f rs i r :
  similarity_search collection_query query n f = Some rs ->
  rs !! i = Some r ->
  distances (collection_query query n f) !! i = Some (distance r) /\
  relevance_score r = 1 - distance r /\
  (0 <= relevance_score r <= 1 <-> 0 <= distance r <= 1).
Proof.
  intros H Hi.
  destruct (format_result_spec _ _ _ (similarity_search_lookup _ _ _ _ _ _ H Hi))
    as (_ & _ & _ & Hd & Hr).
  split; [exact Hd|]. split; [exact Hr|].
  rewrite Hr. split; intros [? ?]; split; lra.
Qed.

Lemma rerank_spec r k :
  rerank r = Some k ->
  hit k = r /\
  exists w, weight_of (metadata r) = Some w /\
            final_score k = relevance_score r * (1 + w).
Proof.
  unfold rerank. destruct (weight_of (metadata r)) as [w|]; intros; simplify_eq/=.
  eauto.
Qed.

Lemma mapM_rerank_hits cands scored :
  mapM rerank cands = Some scored -> hit <$> scored = cands.
Proof.
  intros H. eapply mapM_fmap_Some_inv; [exact H|].
  intros r k Hk. by apply rerank_spec in Hk as [? _].
Qed.

Lemma hybrid_search_unfold query n cats rs :
  hybrid_search collection_query query n cats = Some rs ->
  exists cands scored,
    similarity_search collection_query query (n * 2) (category_filter cats)
      = Some cands /\
    mapM rerank cands = Some scored /\
    rs = take n (PySort.sort_desc final_score scored).
Proof.
  unfold hybrid_search. intros H.
  destruct (similarity_search _ _ _ _) as [cands|] eqn:E1; [|done]. simpl in H.
  destruct (mapM rerank cands) as [scored|] eqn:E2; [|done]. simpl in H.
  exists cands, scored. by simplify_eq.
Qed.

(** When the index hands back its neighbours by ascending distance, as a
    nearest-neighbour query does, candidates of one final score stand in
    the result by descending similarity: this much of a tie-break the
    stable sort inherits from the index. *)
Lemma hybrid_search_ties_by_similarity query n cats rs l1 a l2 b l3 :
  StronglySorted Qle
    (distances (collection_query query (n * 2) (category_filter cats))) ->
  hybrid_search collection_query query n cats = Some rs ->
  rs = l1 ++ a :: l2 ++ b :: l3 ->
  final_score a == final_score b ->
  relevance_score (hit b) <= relevance_score (hit a).
Proof.
  intros Hd (cands & scored & Hs & Hm & Hrs)%hybrid_search_unfold -> Hab.
  apply (sort_desc_ties final_score
           (fun x y => relevance_score (hit y) <= relevance_score (hit x))
           scored l1 a l2 b (l3 ++ drop n (PySort.sort_desc final_score scored)));
    [| |exact Hab].
  - apply StronglySorted_lookup. intros i j x y Hij Hi Hj.
    pose proof (mapM_rerank_hits _ _ Hm) as Hh.
    assert (cands !! i = Some (hit x)) as Hci
      by (rewrite <- Hh, list_lookup_fmap, Hi; done).
    assert (cands !! j = Some (hit y)) as Hcj
      by (rewrite <- Hh, list_lookup_fmap, Hj; done).
    destruct (format_result_spec _ _ _
                (similarity_search_lookup _ _ _ _ _ _ Hs Hci))
      as (_ & _ & _ & Hdi & ->).
    destruct (format_result_spec _ _ _
                (similarity_search_lookup _ _ _ _ _ _ Hs Hcj))
      as (_ & _ & _ & Hdj & ->).
    pose proof (proj1 (StronglySorted_lookup Qle _) Hd i j _ _ Hij Hdi Hdj).
    lra.
  - rewrite <- (take_drop n (PySort.sort_desc final_score scored)) at 1.
    rewrite <- Hrs, <- app_assoc. f_equal. simpl. f_equal.
    by rewrite <- app_assoc.
Qed.


(** C6, as amended: the sort has the final score as its only key and is
    stable, so the returned candidates of any one final score stand in the
    order in which the index returned them; the result is a function of
    the list of candidates as the index ordered it. *)
Theorem hybrid_search_ties_keep_index_order query n cats rs :
  hybrid_search collection_query query n cats = Some rs ->
  exists cands scored,
    similarity_search collection_query query (n * 2) (category_filter cats)
      = Some cands /\
    mapM rerank cands = Some scored /\
    hit <$> scored = cands /\
    forall q, List.filter (PySort.has_key final_score q) rs
                `prefix_of` List.filter (PySort.has_key final_score q) scored.
Proof.
  intros (cands & scored & Hs & Hm & ->)%hybrid_search_unfold.
  exists cands, scored. repeat split; [done..|by eapply mapM_rerank_hits|].
  intros q. rewrite <- (sort_desc_stable final_score q scored).
  apply filter_take_prefix.
Qed.

Lemma string_length_app (s1 s2 : string) :
  String.length (s1 +:+ s2) = (String.length s1 + String.length s2)%nat.
Proof. induction s1 as [|c s1 IH]; simpl; [done|]. by rewrite IH. Qed.

Lemma sum_lengths_cons (s : string) (l : list string) :
  sum_list (String.length <$> s :: l)
  = (String.length s + sum_list (String.length <$> l))%nat.
Proof. reflexivity. Qed.

Lemma string_length_concat (sep : string) (l : list string) :
  String.length (String.concat sep l)
  = (sum_list (String.length <$> l) + String.length sep * (length l - 1))%nat.
Proof.
  induction l as [|s [|s' l] IH]; simpl in *.
  - lia.
  - lia.
  - rewrite !string_length_app, IH. simpl. lia.
Qed.

Lemma context_loop_prefix max_chars idx total results :
  context_loop float_str max_chars idx total results
    `prefix_of` blocks_from float_str idx results.
Proof.
  revert idx total. induction results as [|r rest IH]; intros idx total;
    cbn [context_loop blocks_from].
  - done.
  - destruct (_ >? _)%Z; [apply prefix_nil|]. apply prefix_cons, IH.
Qed.

(** what the loop appended fits the budget left *)
Lemma context_loop_budget max_chars idx total results :
  let parts := context_loop float_str max_chars idx total results in
  parts <> [] ->
  (total + Z.of_nat (sum_list (String.length <$> parts)) <= max_chars)%Z.
Proof.
  revert idx total. induction results as [|r rest IH]; intros idx total;
    cbn [context_loop].
  - done.
  - destruct (_ >? _)%Z eqn:E; [done|]. intros _.
    rewrite Z.gtb_ltb in E. apply Z.ltb_ge in E.
    set (n := String.length (chunk_text float_str idx r)) in *.
    specialize (IH (S idx) (total + Z.of_nat n)%Z).
    destruct (context_loop float_str max_chars (S idx) _ rest) as [|p ps].
    + cbn. fold n. lia.
    + specialize (IH ltac:(done)).
      rewrite sum_lengths_cons. fold n. rewrite Nat2Z.inj_add. lia.
Qed.

(** the loop stops at the first block that does not fit *)
Lemma context_loop_stops max_chars idx total results :
  let parts := context_loop float_str max_chars idx total results in
  forall b, blocks_from float_str idx results !! length parts = Some b ->
  (total + Z.of_nat (sum_list (String.length <$> parts))
     + Z.of_nat (String.length b) > max_chars)%Z.
Proof.
  revert idx total. induction results as [|r rest IH]; intros idx total;
    cbn [context_loop blocks_from].
  - done.
  - destruct (_ >? _)%Z eqn:E.
    + intros b [= <-]. apply Z.gtb_lt in E. cbn. lia.
    + intros b Hb. cbn [length] in Hb. rewrite lookup_cons in Hb.
      specialize (IH _ _ b Hb).
      rewrite sum_lengths_cons, Nat2Z.inj_add. lia.
Qed.
End StoreFacts.

(** ** Context assembly *)

Section ContextFacts.
Import VectorStoreManager.
Variable collection_query : string -> nat -> option (list string) -> query_result.
Variable float_str : Q -> string.

Abbreviation hybrid_search' := (hybrid_search collection_query).
Abbreviation get_context_for_query' :=
  (get_context_for_query collection_query float_str).

(** The search returns when the index hands back parallel lists and no
    weight is a string. *)
Lemma hybrid_search_returns query n cats :
  let res := collection_query query (n * 2) (category_filter cats) in
  length (documents res) = length (ids res) ->
  length (metadatas res) = length (ids res) ->
  length (distances res) = length (ids res) ->
  Forall (fun md => is_Some (weight_of md)) (metadatas res) ->
  is_Some (hybrid_search' query n cats).
Proof.
  intros res Hd Hm Hx Hw. unfold hybrid_search.
  destruct (similarity_search_returns collection_query query (n * 2)
              (category_filter cats) Hd Hm Hx) as [cands Hc].
  rewrite Hc. simpl.
  assert (is_Some (mapM rerank cands)) as [scored ->]; [|by eexists].
  apply mapM_is_Some, Forall_forall. intros r Hr.
  apply list_elem_of_lookup in Hr as [i Hi].
  destruct (format_result_spec _ _ _ (similarity_search_lookup _ _ _ _ _ _ _ Hc Hi))
    as (_ & _ & Hmd & _).
  fold res in Hmd. apply list_elem_of_lookup_2 in Hmd.
  rewrite Forall_forall in Hw. destruct (Hw _ Hmd) as [w Hwt].
  simpl. unfold rerank. rewrite Hwt. by eexists.
Qed.

Lemma get_context_unfold query max_tokens n ctx srcs :
  get_context_for_query' query max_tokens n = Some (ctx, srcs) ->
  hybrid_search' query n None = Some srcs /\
  ctx = String.concat PyStr.nl (context_loop float_str (max_tokens * 4) 0 0 srcs).
Proof.
  unfold get_context_for_query.
  destruct (hybrid_search' query n None) as [results|]; [|done].
  simpl. by intros [= <- <-].
Qed.

Lemma get_context_returns query max_tokens n :
  is_Some (get_context_for_query' query max_tokens n)
  <-> is_Some (hybrid_search' query n None).
Proof.
  unfold get_context_for_query.
  destruct (hybrid_search' query n None) as [results|]; simpl.
  - split; by eexists.
  - split; by intros [? ?].
Qed.

(** What the budget test does guarantee: the context is made of whole
    blocks, the blocks of the first results, their lengths add up to no
    more than the budget, the next block would not have fitted, and the
    string is longer than that sum by the line breaks between blocks. *)
Lemma get_context_whole_blocks query max_tokens n ctx srcs :
  get_context_for_query' query max_tokens n = Some (ctx, srcs) ->
  exists parts,
    ctx = String.concat PyStr.nl parts /\
    parts = take (length parts) (blocks_from float_str 0 srcs) /\
    (parts <> [] ->
     (Z.of_nat (sum_list (String.length <$> parts)) <= max_tokens * 4)%Z) /\
    (forall b, blocks_from float_str 0 srcs !! length parts = Some b ->
       (Z.of_nat (sum_list (String.length <$> parts)) + Z.of_nat (String.length b)
        > max_tokens * 4)%Z) /\
    String.length ctx
      = (sum_list (String.length <$> parts) + (length parts - 1))%nat.
Proof.
  intros [_ ->]%get_context_unfold.
  set (parts := context_loop float_str (max_tokens * 4) 0 0 srcs).
  exists parts. split; [done|]. split; [|split; [|split]].
  - destruct (context_loop_prefix float_str (max_tokens * 4) 0 0 srcs) as [k Hk].
    fold parts in Hk. rewrite Hk. by rewrite take_app_length.
  - intros Hne.
    pose proof (context_loop_budget float_str (max_tokens * 4) 0 0 srcs Hne) as H.
    cbv zeta in H. fold parts in H. lia.
  - intros b Hb.
    pose proof (context_loop_stops float_str (max_tokens * 4) 0 0 srcs b Hb) as H.
    cbv zeta in H. fold parts in H. lia.
  - rewrite string_length_concat. simpl. lia.
Qed.

(** C3, as amended: the source list is the whole result of the hybrid
    search, whether or not the block of a result was included; the context
    is made of the blocks of the first k results, for some k; when the
    first block alone exceeds the budget the context is empty. *)
Theorem get_context_sources_are_search_results query max_tokens n ctx srcs :
  get_context_for_query' query max_tokens n = Some (ctx, srcs) ->
  hybrid_search' query n None = Some srcs /\
  (exists k, (k <= length srcs)%nat /\
     ctx = String.concat PyStr.nl (take k (blocks_from float_str 0 srcs))) /\
  (forall r rest, srcs = r :: rest ->
     (Z.of_nat (String.length (chunk_text float_str 0 r)) > max_tokens * 4)%Z ->
     ctx = "").
Proof.
  intros H. pose proof H as [Hs ->]%get_context_unfold.
  split; [done|]. split.
  - destruct (context_loop_prefix float_str (max_tokens * 4) 0 0 srcs) as [k Hk].
    exists (length (context_loop float_str (max_tokens * 4) 0 0 srcs)). split.
    + apply (f_equal length) in Hk. rewrite length_app in Hk.
      assert (length (blocks_from float_str 0 srcs) = length srcs) as <-; [|lia].
      generalize 0%nat. clear. induction srcs as [|r srcs IH]; intros i; simpl;
        [done|by rewrite IH].
    + rewrite Hk. by rewrite take_app_length.
  - intros r rest -> Hlen. cbn [context_loop].
    rewrite Z.add_0_l.
    destruct (_ >? _)%Z eqn:E; [done|].
    rewrite Z.gtb_ltb in E. apply Z.ltb_ge in E. lia.
Qed.

End ContextFacts.

(** ** The response parser of the RAG pipeline *)

Section ParserFacts.
Import RAGPipeline.

Lemma header_of_key line_upper key :
  header_of line_upper = Some key -> key ∈ section_keys.
Proof.
  unfold header_of, section_keys, string_keys.
  repeat (match goal with |- context [if ?b then _ else _] => destruct b end);
    intros [= <-]; set_solver.
Qed.

Lemma initial_sections_shaped : shaped initial_sections.
Proof.
  split.
  - intros k Hk. unfold string_keys in Hk.
    repeat (apply elem_of_cons in Hk as [->|Hk]; [by eexists|]).
    by apply elem_of_nil in Hk.
  - by eexists.
Qed.

Lemma shaped_insert_str sections k s :
  shaped sections -> k ∈ string_keys -> shaped (<[k := VStr s]> sections).
Proof.
  intros [Hs [l Hl]] Hk. split.
  - intros k' Hk'. destruct (decide (k = k')) as [->|Hne].
    + rewrite lookup_insert_eq. by eexists.
    + rewrite lookup_insert_ne by done. by apply Hs.
  - exists l. rewrite lookup_insert_ne; [done|].
    intros ->. unfold string_keys in Hk. not_among Hk.
Qed.

Lemma shaped_insert_list sections l :
  shaped sections -> shaped (<["alternative_interpretations" := VList l]> sections).
Proof.
  intros [Hs _]. split.
  - intros k Hk. rewrite lookup_insert_ne; [by apply Hs|].
    intros <-. unfold string_keys in Hk. not_among Hk.
  - exists l. by rewrite lookup_insert_eq.
Qed.

(** only the entry of the current section changes *)
Lemma add_content_other sections cur line sections' k :
  add_content sections cur line = Some sections' ->
  k <> cur -> sections' !! k = sections !! k.
Proof.
  unfold add_content. intros H Hk.
  destruct (String.eqb cur _).
  - destruct (bool_decide _); [|by simplify_eq].
    destruct (sections !! cur) as [[]|]; simplify_eq.
    by rewrite lookup_insert_ne.
  - destruct (sections !! cur) as [[]|]; simplify_eq; try done.
    by rewrite lookup_insert_ne.
Qed.

Lemma add_content_shaped sections cur line :
  shaped sections -> cur ∈ section_keys ->
  exists sections', add_content sections cur line = Some sections' /\ shaped sections'.
Proof.
  intros Hsh Hcur. unfold add_content.
  destruct (String.eqb cur _) eqn:E.
  - apply String.eqb_eq in E as ->.
    destruct (bool_decide _); [|by eauto].
    pose proof Hsh as [Hs [l Hl]]. rewrite Hl.
    eexists; split; [done|]. by apply shaped_insert_list.
  - apply String.eqb_neq in E.
    assert (cur ∈ string_keys) as Hk.
    { unfold section_keys in Hcur.
      by apply elem_of_cons in Hcur as [->|Hcur]. }
    destruct (proj1 Hsh cur Hk) as [s Hs]. rewrite Hs.
    eexists; split; [done|]. by apply shaped_insert_str.
Qed.

(** the list of alternatives grows by one entry at most *)
Lemma add_content_alternatives sections cur line sections' l :
  add_content sections cur line = Some sections' ->
  sections !! "alternative_interpretations" = Some (VList l) ->
  exists l', sections' !! "alternative_interpretations" = Some (VList l') /\
             (length l' <= S (length l))%nat.
Proof.
  intros H Hl.
  destruct (decide ("alternative_interpretations" = cur)) as [<-|Hne].
  - unfold add_content in H. rewrite String.eqb_refl in H.
    destruct (bool_decide _).
    + rewrite Hl in H. simplify_eq. rewrite lookup_insert_eq.
      eexists; split; [done|]. rewrite length_app. simpl. lia.
    + simplify_eq. eauto.
  - rewrite (add_content_other _ _ _ _ _ H Hne). eauto.
Qed.

(** the text of the confidence section is only appended to *)
Lemma add_content_confidence sections cur line sections' t :
  add_content sections cur line = Some sections' ->
  sections !! "confidence" = Some (VStr t) ->
  exists t', sections' !! "confidence" = Some (VStr (t +:+ t')).
Proof.
  intros H Ht.
  destruct (decide ("confidence" = cur)) as [<-|Hne].
  - unfold add_content in H. 
    replace (String.eqb "confidence" "alternative_interpretations") with false in H
      by reflexivity.
    rewrite Ht in H. simplify_eq. rewrite lookup_insert_eq. eauto.
  - rewrite (add_content_other _ _ _ _ _ H Hne). exists "".
    rewrite Ht. do 2 f_equal. clear. induction t as [|c t IH]; [done|].
    by rewrite string_app_cons, <- IH.
Qed.

(** What one line does to the loop state. *)
Lemma parse_line_cases sections cur line st' :
  parse_line (sections, cur) line = Some st' ->
  (exists key, header_of (PyStr.upper (PyStr.strip line)) = Some key /\
               st' = (sections, Some key)) \/
  (header_of (PyStr.upper (PyStr.strip line)) = None /\
   (st' = (sections, cur) \/
    exists c sections', cur = Some c /\
      add_content sections c line = Some sections' /\ st' = (sections', cur))).
Proof.
  unfold parse_line.
  destruct (header_of _) as [key|]; [intros [= <-]; eauto|].
  intros H. right. split; [done|].
  destruct cur as [c|]; [|simplify_eq; eauto].
  destruct (negb _); [|simplify_eq; eauto].
  destruct (add_content sections c line) as [sections'|] eqn:E; simplify_eq/=.
  right. eauto.
Qed.

Lemma parse_line_inv st line :
  loop_inv st -> exists st', parse_line st line = Some st' /\ loop_inv st'.
Proof.
  destruct st as [sections cur]. intros [Hsh Hcur]. simpl in *.
  unfold parse_line.
  destruct (header_of _) as [key|] eqn:Eh.
  - eexists; split; [done|]. split; [done|]. simpl. intros c [= <-].
    by eapply header_of_key.
  - destruct cur as [c|]; [|by eexists].
    destruct (negb _); [|by eexists].
    destruct (add_content_shaped sections c line Hsh (Hcur c eq_refl))
      as (sections' & -> & Hsh').
    simpl. eexists; split; [done|]. by split.
Qed.

Lemma parse_lines_inv st lines :
  loop_inv st -> exists st', parse_lines st lines = Some st' /\ loop_inv st'.
Proof.
  revert st. induction lines as [|line lines IH]; intros st Hst; simpl.
  - eauto.
  - destruct (parse_line_inv st line Hst) as (st1 & -> & Hst1). simpl.
    by apply IH.
Qed.


Lemma parse_lines_cons st line lines st' :
  parse_lines st (line :: lines) = Some st' ->
  exists st1, parse_line st line = Some st1 /\ parse_lines st1 lines = Some st'.
Proof.
  cbn [parse_lines]. destruct (parse_line st line) as [st1|]; [|done]. eauto.
Qed.

Lemma parse_lines_alternatives st lines st' l :
  parse_lines st lines = Some st' ->
  st.1 !! "alternative_interpretations" = Some (VList l) ->
  exists l', st'.1 !! "alternative_interpretations" = Some (VList l') /\
             (length l' <= length l + length lines)%nat.
Proof.
  revert st l. induction lines as [|line lines IH]; intros [sections cur] l.
  - intros [= <-] Hl. exists l. simpl. split; [done|lia].
  - intros (st1 & E1 & H)%parse_lines_cons Hl. cbn [length].
    apply parse_line_cases in E1
      as [(key & _ & ->)|(_ & [->|(c & sections1 & -> & Ha & ->)])].
    + destruct (IH _ _ H Hl) as (l' & ? & ?). exists l'. split; [done|lia].
    + destruct (IH _ _ H Hl) as (l' & ? & ?). exists l'. split; [done|lia].
    + destruct (add_content_alternatives _ _ _ _ _ Ha Hl) as (l1 & Hl1 & ?).
      destruct (IH _ _ H Hl1) as (l' & ? & ?). exists l'. split; [done|lia].
Qed.

Lemma parse_lines_confidence st lines st' t :
  parse_lines st lines = Some st' ->
  st.1 !! "confidence" = Some (VStr t) ->
  exists t', st'.1 !! "confidence" = Some (VStr (t +:+ t')).
Proof.
  revert st t. induction lines as [|line lines IH]; intros [sections cur] t.
  - intros [= <-] Ht. exists "". rewrite Ht. do 2 f_equal.
    clear. induction t as [|c t IH]; [done|]. by rewrite string_app_cons, <- IH.
  - intros (st1 & E1 & H)%parse_lines_cons Ht.
    apply parse_line_cases in E1
      as [(key & _ & ->)|(_ & [->|(c & sections1 & -> & Ha & ->)])];
      [by eapply IH..|].
    destruct (add_content_confidence _ _ _ _ _ Ha Ht) as (t1 & Ht1).
    destruct (IH _ _ H Ht1) as (t' & Ht'). exists (t1 +:+ t').
    by rewrite <- string_app_assoc.
Qed.

(** a section that no line opens keeps its entry *)
Lemma parse_lines_untouched k st lines st' :
  parse_lines st lines = Some st' ->
  st.2 <> Some k ->
  Forall (fun line => header_of (PyStr.upper (PyStr.strip line)) <> Some k) lines ->
  st'.1 !! k = st.1 !! k.
Proof.
  revert st. induction lines as [|line lines IH]; intros [sections cur].
  - by intros [= <-].
  - intros (st1 & E1 & H)%parse_lines_cons Hcur [Hline Hlines]%Forall_cons.
    apply parse_line_cases in E1
      as [(key & Hkey & ->)|(_ & [->|(c & sections1 & -> & Ha & ->)])].
    + apply (IH _ H); [|done]. simpl. congruence.
    + by apply (IH _ H).
    + rewrite (IH _ H Hcur Hlines). simpl.
      eapply add_content_other; [done|]. simpl in Hcur. congruence.
Qed.

Lemma has_header_false key response_text :
  has_header key response_text = false ->
  Forall (fun line => header_of (PyStr.upper (PyStr.strip line)) <> Some key)
    (PyStr.split "010" response_text).
Proof.
  unfold has_header. intros H. apply Forall_forall. intros line Hline Hk.
  assert (existsb
    (fun line => bool_decide (header_of (PyStr.upper (PyStr.strip line)) = Some key))
    (PyStr.split "010" response_text) = true) as Ht; [|congruence].
  apply existsb_exists. exists line. split; [by apply list_elem_of_In|].
  by apply bool_decide_eq_true.
Qed.

(** the list of alternatives after the loop *)
Lemma parse_lines_entries st lines st' l :
  loop_inv st -> parse_lines st lines = Some st' ->
  st.1 !! "alternative_interpretations" = Some (VList l) ->
  st'.1 !! "alternative_interpretations"
  = Some (VList (l ++ numbered_entries
                        (lines_of_section "alternative_interpretations" st.2 lines))).
Proof.
  intros Hinv Hp. revert st l Hinv Hp.
  induction lines as [|line lines IH]; intros [sections cur] l Hinv Hp Hl.
  - injection Hp as <-. simpl. by rewrite app_nil_r.
  - apply parse_lines_cons in Hp as (st1 & H1 & Hp).
    destruct (parse_line_inv _ line Hinv) as (st1' & H1' & Hinv1).
    rewrite H1 in H1'. injection H1' as <-.
    cbn [lines_of_section fst snd] in *. unfold parse_line in H1.
    destruct (header_of _) as [key|] eqn:Eh.
    { injection H1 as <-. by apply (IH _ _ Hinv1 Hp). }
    destruct cur as [c|]; [|injection H1 as <-; by apply (IH _ _ Hinv1 Hp)].
    destruct (String.eqb (PyStr.strip line) "") eqn:Eb; cbn [negb] in *.
    { injection H1 as <-. rewrite andb_false_r. by apply (IH _ _ Hinv1 Hp). }
    rewrite andb_true_r.
    destruct (add_content sections c line) as [sections1|] eqn:Ea; [|done].
    simpl in H1. injection H1 as <-.
    destruct (decide (c = "alternative_interpretations")) as [->|Hne].
    + rewrite bool_decide_eq_true_2 by done.
      unfold numbered_entries. cbn [List.filter].
      unfold add_content in Ea. rewrite String.eqb_refl, Hl in Ea.
      destruct (bool_decide (_ ∈ numbered_prefixes)).
      * injection Ea as <-. cbn [fmap list_fmap].
        rewrite (IH _ (l ++ [PyStr.strip (PyStr.drop 3 (PyStr.strip line))]) Hinv1 Hp)
          by (simpl; by rewrite lookup_insert_eq).
        by rewrite <- app_assoc.
      * injection Ea as <-. by apply (IH _ _ Hinv1 Hp).
    + rewrite bool_decide_eq_false_2 by congruence.
      apply (IH _ _ Hinv1 Hp). simpl.
      by rewrite (add_content_other _ _ _ _ "alternative_interpretations" Ea).
Qed.

Lemma loop_inv_initial : loop_inv (initial_sections, None).
Proof. split; [apply initial_sections_shaped|done]. Qed.

(** The parser returns, and this is what it returns. *)
Lemma parse_llm_response_unfold response_text :
  exists sections cur t,
    parse_lines (initial_sections, None) (PyStr.split "010" response_text)
      = Some (sections, cur) /\
    shaped sections /\
    sections !! "confidence" = Some (VStr ("Medium - 50%" +:+ t)) /\
    _parse_llm_response response_text
      = Some (<["confidence_score" :=
                 VFloat (extract_confidence (PyStr.strip ("Medium - 50%" +:+ t)))]>
                (clean <$> sections)).
Proof.
  destruct (parse_lines_inv (initial_sections, None) (PyStr.split "010" response_text))
    as ([sections cur] & Hp & Hsh & _).
  { split; [apply initial_sections_shaped|done]. }
  destruct (parse_lines_confidence _ _ _ "Medium - 50%" Hp eq_refl) as (t & Ht).
  exists sections, cur, t. do 3 (split; [done|]).
  unfold _parse_llm_response. rewrite Hp.
  rewrite lookup_fmap. simpl in Ht. rewrite Ht. done.
Qed.

End ParserFacts.

(** ** Confidence, alternatives and defaults of the two parsers *)

Section ParserResults.
Import RAGPipeline.

Lemma strip_default_label t :
  PyStr.strip ("Medium - 50%" +:+ t) = "Medium - 50%" +:+ PyStr.rstrip t.
Proof.
  rewrite !string_app_cons, string_app_nil_l. unfold PyStr.strip.
  cbn [PyStr.lstrip PyStr.is_space].
  repeat first
    [ rewrite rstrip_cons_nonspace by reflexivity
    | rewrite rstrip_cons_nonempty
        by (rewrite rstrip_cons_nonspace by reflexivity; discriminate) ].
  reflexivity.
Qed.

Lemma extract_confidence_default_label t :
  extract_confidence ("Medium - 50%" +:+ t) == 0.5.
Proof.
  rewrite !string_app_cons, string_app_nil_l. unfold extract_confidence.
  replace (PyStr.contains "%" _) with true by reflexivity.
  replace (PyStr.search_percent _) with (Some "50") by reflexivity.
  vm_compute. reflexivity.
Qed.

(** The text of the confidence section starts with the default label,
    whose percentage is the leftmost one: the score of the RAG parser is
    0.5 for every response. *)
Lemma rag_confidence_score_constant response_text :
  exists d x, _parse_llm_response response_text = Some d /\
              d !! "confidence_score" = Some (VFloat x) /\ x == 0.5.
Proof.
  destruct (parse_llm_response_unfold response_text)
    as (sections & cur & t & _ & _ & _ & ->).
  eexists _, _. split; [done|]. rewrite lookup_insert_eq. split; [done|].
  rewrite strip_default_label. apply extract_confidence_default_label.
Qed.

End ParserResults.

(** ** The claims on the two parsers *)

Section ParserClaims.
Import RAGPipeline.

(** C9, as amended: the parser returns for every text; a section that no
    line opens keeps its default, which is the empty string or the empty
    list, and the label Medium - 50% for the confidence section; the score
    is a number, the default 0.5 when no line opens the confidence
    section. *)
Theorem parse_llm_response_total response_text :
  exists d,
    _parse_llm_response response_text = Some d /\
    (exists x, d !! "confidence_score" = Some (VFloat x) /\
               (has_header "confidence" response_text = false -> x == 0.5)) /\
    (forall k, k ∈ ["primary_interpretation"; "scientific_evidence"; "reasoning";
                    "sources_cited"] ->
               has_header k response_text = false -> d !! k = Some (VStr "")) /\
    (has_header "alternative_interpretations" response_text = false ->
     d !! "alternative_interpretations" = Some (VList [])) /\
    (has_header "confidence" response_text = false ->
     d !! "confidence" = Some (VStr "Medium - 50%")).
Proof.
  destruct (parse_llm_response_unfold response_text)
    as (sections & cur & t & Hp & _ & _ & ->).
  eexists. split; [done|].
  assert (forall k, k <> "confidence_score" ->
            has_header k response_text = false ->
            (<["confidence_score" :=
                VFloat (extract_confidence (PyStr.strip ("Medium - 50%" +:+ t)))]>
               (clean <$> sections)) !! k = clean <$> initial_sections !! k) as Hkeep.
  { intros k Hk Hh. rewrite lookup_insert_ne by done. rewrite lookup_fmap.
    f_equal. apply (parse_lines_untouched k _ _ _ Hp); [done|].
    by apply has_header_false. }
  split; [|split; [|split]].
  - eexists. split; [by rewrite lookup_insert_eq|]. intros _.
    rewrite strip_default_label. apply extract_confidence_default_label.
  - intros k Hk Hh. rewrite Hkeep; [|intros ->; not_among Hk|done].
    repeat (apply elem_of_cons in Hk as [->|Hk]; [done|]).
    by apply elem_of_nil in Hk.
  - intros Hh. by rewrite Hkeep.
  - intros Hh. by rewrite Hkeep.
Qed.

Lemma alternatives_bounds_rag response_text :
  exists d l,
    _parse_llm_response response_text = Some d /\
    d !! "alternative_interpretations" = Some (VList l) /\
    (length l <= length (PyStr.split "010" response_text))%nat.
Proof.
  destruct (parse_llm_response_unfold response_text)
    as (sections & cur & t & Hp & _ & _ & ->).
  destruct (parse_lines_alternatives _ _ _ [] Hp eq_refl) as (l & Hl & Hlen).
  eexists _, l. split; [done|]. split; [|exact Hlen].
  rewrite lookup_insert_ne by done. rewrite lookup_fmap. simpl in Hl.
  by rewrite Hl.
Qed.

(** C8, as amended: the synthesis stage keeps three alternatives at most.
    The RAG parser does not truncate: its list holds, in the order of the
    response, one entry for every line that is filed under the section of
    the alternatives (a line that is not blank and no header, below a
    header of the alternatives and above the next header) and that starts
    with one of 1. to 5. once stripped; the entry is the stripped line
    without its first three characters, stripped again.  The list has as
    many entries as there are such lines, and no more than the response
    has lines. *)
Theorem alternatives_bounds response_text :
  let lines := PyStr.split "010" response_text in
  let filed := lines_of_section "alternative_interpretations" None lines in
  (length (DreamInterpreterAgents.synthesis_alternatives response_text) <= 3)%nat /\
  exists d l,
    _parse_llm_response response_text = Some d /\
    d !! "alternative_interpretations" = Some (VList l) /\
    l = numbered_entries filed /\
    length l
    = length (List.filter
                (fun line =>
                   bool_decide (PyStr.slice 0 2 (PyStr.strip line) ∈ numbered_prefixes))
                filed) /\
    (length l <= length lines)%nat.
Proof.
  intros lines filed. split.
  { unfold DreamInterpreterAgents.synthesis_alternatives. rewrite length_take. lia. }
  destruct (parse_llm_response_unfold response_text)
    as (sections & cur & t & Hp & _ & _ & ->).
  fold lines in Hp.
  pose proof (parse_lines_entries _ _ _ [] loop_inv_initial Hp eq_refl) as Hl.
  cbn [fst snd app] in Hl. fold filed in Hl.
  destruct (parse_lines_alternatives _ _ _ [] Hp eq_refl) as (l' & Hl' & Hlen).
  cbn [fst] in Hl'. rewrite Hl in Hl'. injection Hl' as <-.
  eexists _, _. split; [done|]. split.
  { rewrite lookup_insert_ne by done. rewrite lookup_fmap, Hl. reflexivity. }
  split; [done|]. split; [|exact Hlen].
  unfold numbered_entries. by rewrite length_fmap.
Qed.

End ParserClaims.

(** ** The six-stage pipeline *)

Section EffFacts.
Import Eff.
Context {W A B : Type}.

Lemma bind_Some (m : M W A) (k : A -> M W B) w b w' :
  (m ≫= k) w = Some (b, w') ->
  exists a w1, m w = Some (a, w1) /\ k a w1 = Some (b, w').
Proof.
  unfold mbind, M_bind. destruct (m w) as [[a w1]|]; [|done]. eauto.
Qed.

Lemma bind_Some_2 (m : M W A) (k : A -> M W B) w a w1 :
  m w = Some (a, w1) -> (m ≫= k) w = k a w1.
Proof. unfold mbind, M_bind. by intros ->. Qed.

Lemma ret_Some (a b : A) (w w' : W) :
  (mret a : M W A) w = Some (b, w') -> a = b /\ w = w'.
Proof. unfold mret, M_ret. by intros [= -> ->]. Qed.

End EffFacts.

Section AgenticFacts.
Import Eff DreamInterpreterAgents.
Variable World : Type.
Variable collection_query :
  string -> nat -> option (list string) -> VectorStoreManager.query_result.
Variable float_str : Q -> string.
Variable llm_invoke : list message -> M World string.

Abbreviation invoke' := (invoke World).
Abbreviation workflow' := (workflow World collection_query float_str llm_invoke).
Abbreviation analysis_stages' :=
  (analysis_stages World collection_query float_str llm_invoke).
Abbreviation interpret_dream' :=
  (interpret_dream World collection_query float_str llm_invoke).
Abbreviation synthesis_agent' := (synthesis_agent World llm_invoke).
Abbreviation extract_symbols_agent' := (extract_symbols_agent World llm_invoke).

Lemma invoke_app nodes1 nodes2 state w :
  invoke' (nodes1 ++ nodes2) state w
  = match invoke' nodes1 state w with
    | Some (state1, w1) => invoke' nodes2 state1 w1
    | None => None
    end.
Proof.
  revert state w. induction nodes1 as [|node nodes1 IH]; intros state w.
  - reflexivity.
  - cbn [app invoke]. unfold mbind, M_bind.
    destruct (node state w) as [[state1 w1]|]; [apply IH|done].
Qed.

(** What the synthesis stage writes. *)
Lemma synthesis_agent_spec state w state' w' :
  synthesis_agent' state w = Some (state', w') ->
  exists synthesis,
    llm_invoke (synthesis_messages state) w = Some (synthesis, w') /\
    final_interpretation state' = synthesis /\
    confidence_score state' = synthesis_confidence synthesis /\
    alternative_interpretations state' = synthesis_alternatives synthesis /\
    reasoning state' = synthesis_reasoning synthesis /\
    retrieved_sources state' = retrieved_sources state.
Proof.
  unfold synthesis_agent.
  intros (synthesis & w1 & Hllm & [<- <-]%ret_Some)%bind_Some.
  exists synthesis. split; [exact Hllm|]. by destruct state.
Qed.

Lemma interpret_dream_unfold dream context w resp w' :
  interpret_dream' dream context w = Some (resp, w') ->
  exists state w5 final,
    invoke' analysis_stages' (initial_state dream context) w = Some (state, w5) /\
    synthesis_agent' state w5 = Some (final, w') /\
    interpretation resp = final_interpretation final /\
    response_confidence_score resp = confidence_score final /\
    response_reasoning resp = reasoning final /\
    response_alternative_interpretations resp = alternative_interpretations final /\
    sources_used resp = retrieved_sources final.
Proof.
  unfold interpret_dream.
  intros (final & w6 & Hrun & [<- <-]%ret_Some)%bind_Some.
  unfold workflow in Hrun. rewrite invoke_app in Hrun.
  destruct (invoke' analysis_stages' _ w) as [[state w5]|]; [|done].
  cbn [invoke] in Hrun.
  apply bind_Some in Hrun as (final' & w6' & Hsyn & [<- <-]%ret_Some).
  exists state, w5, final'. by repeat split.
Qed.

(** C10: the interpretation of a successful agentic run is the text that
    the model returned to the messages of the synthesis stage, as it was
    returned: the whole answer with its section headers, not a section
    extracted from it. *)
Theorem interpretation_is_raw_synthesis dream context w resp w' :
  interpret_dream' dream context w = Some (resp, w') ->
  exists state w5,
    invoke' analysis_stages' (initial_state dream context) w = Some (state, w5) /\
    llm_invoke (synthesis_messages state) w5 = Some (interpretation resp, w').
Proof.
  intros (state & w5 & final & Hrun & Hsyn & -> & _)%interpret_dream_unfold.
  apply synthesis_agent_spec in Hsyn as (synthesis & Hllm & -> & _).
  eauto.
Qed.

Lemma agentic_result_alternatives dream context w resp w' :
  interpret_dream' dream context w = Some (resp, w') ->
  (length (response_alternative_interpretations resp) <= 3)%nat.
Proof.
  intros (state & w5 & final & _ & Hsyn & _ & _ & _ & -> & _)%interpret_dream_unfold.
  apply synthesis_agent_spec in Hsyn as (synthesis & _ & _ & _ & -> & _).
  unfold synthesis_alternatives. rewrite length_take. lia.
Qed.

Lemma split_no_separator sep s :
  PyStr.contains (String sep "") s = false -> PyStr.split sep s = [s].
Proof.
  induction s as [|c s IH]; [done|].
  cbn [PyStr.contains PyStr.starts_with PyStr.split].
  rewrite andb_true_r, Ascii.eqb_sym.
  destruct (Ascii.eqb c sep); [done|]. cbn [orb].
  intros H. by rewrite (IH H).
Qed.

(** C5, as amended: when the model returns, the symbol extraction
    returns too and the next stage runs on its state; the symbol list is
    the list of the stripped pieces between commas, which is never empty:
    for an answer without a comma (the empty answer among them) it holds
    the stripped answer as its one entry. *)
Theorem extract_symbols_never_empty state w symbols_text w' :
  llm_invoke (extract_symbols_messages state) w = Some (symbols_text, w') ->
  exists state',
    extract_symbols_agent' state w = Some (state', w') /\
    dream_symbols state' = parse_symbols symbols_text /\
    dream_symbols state' <> [] /\
    (PyStr.contains "," symbols_text = false ->
     dream_symbols state' = [PyStr.strip symbols_text]) /\
    forall rest, invoke' (extract_symbols_agent' :: rest) state w
                 = invoke' rest state' w'.
Proof.
  intros Hllm. unfold extract_symbols_agent.
  eexists. split.
  { rewrite (bind_Some_2 _ _ _ _ _ Hllm). reflexivity. }
  assert (forall v s, dream_symbols
            (append_message v (set_current_step s
               (set_dream_symbols (parse_symbols symbols_text) state)))
          = parse_symbols symbols_text) as Hsym by (by destruct state).
  rewrite Hsym. split; [done|]. split.
  { unfold parse_symbols. intros H%fmap_nil_inv. by apply split_nonempty in H. }
  split.
  { intros H. unfold parse_symbols. by rewrite (split_no_separator _ _ H). }
  intros rest. cbn [invoke].
  rewrite (bind_Some_2 _ _ _ _ _
             (bind_Some_2 _ _ _ _ _ Hllm : extract_symbols_agent' state w = _)).
  reflexivity.
Qed.

End AgenticFacts.

(** ** The result records of the two orchestrators *)

Section AgenticResults.
Import Eff DreamInterpreterAgents.
Variable World : Type.
Variable collection_query :
  string -> nat -> option (list string) -> VectorStoreManager.query_result.
Variable float_str : Q -> string.
Variable llm_invoke : list message -> M World string.

(** The confidence, the alternatives and the reasoning of the result are
    read off the text that the result returns as its interpretation. *)
Lemma agentic_result_fields dream context w resp w' :
  interpret_dream World collection_query float_str llm_invoke dream context w
    = Some (resp, w') ->
  response_confidence_score resp = synthesis_confidence (interpretation resp) /\
  response_alternative_interpretations resp
    = synthesis_alternatives (interpretation resp) /\
  response_reasoning resp = synthesis_reasoning (interpretation resp).
Proof.
  intros (state & w5 & final & _ & Hsyn & -> & -> & -> & -> & _)%interpret_dream_unfold.
  apply synthesis_agent_spec in Hsyn as (synthesis & _ & -> & -> & -> & -> & _).
  done.
Qed.

End AgenticResults.

Section RagResults.
Import Eff RAGPipeline.
Variable World : Type.
Variable collection_query :
  string -> nat -> option (list string) -> VectorStoreManager.query_result.
Variable float_str : Q -> string.
Variable client_create : llm_provider -> list chat_message -> M World string.

Abbreviation rag_interpret_dream :=
  (interpret_dream World collection_query float_str client_create).

Lemma lift_Some {A : Type} (o : option A) (w : World) a w' :
  lift o w = Some (a, w') -> o = Some a /\ w = w'.
Proof. unfold lift. destruct o; [|done]. by intros [= -> ->]. Qed.

Lemma rag_interpret_dream_unfold provider dream context n w resp w' :
  rag_interpret_dream provider dream context n w = Some (resp, w') ->
  exists ctx source_docs response_text d,
    VectorStoreManager.get_context_for_query collection_query float_str dream 3000 n
      = Some (ctx, source_docs) /\
    client_create provider
      (request_messages provider
         (_build_dream_interpretation_prompt dream ctx context)) w
      = Some (response_text, w') /\
    _parse_llm_response response_text = Some d /\
    d !! "primary_interpretation" = Some (interpretation resp) /\
    d !! "confidence_score" = Some (confidence_score resp) /\
    d !! "reasoning" = Some (reasoning resp) /\
    d !! "alternative_interpretations" = Some (alternative_interpretations resp) /\
    sources_used resp = format_source <$> source_docs.
Proof.
  unfold interpret_dream.
  intros ([ctx docs] & w1 & [Hctx ->]%lift_Some & H)%bind_Some.
  apply bind_Some in H as (response_text & w2 & Hllm & H).
  apply bind_Some in H as (d & w3 & [Hd ->]%lift_Some & H).
  apply bind_Some in H as (primary & w4 & [Hp ->]%lift_Some & H).
  apply bind_Some in H as (score & w5 & [Hs ->]%lift_Some & H).
  apply bind_Some in H as (reason & w6 & [Hr ->]%lift_Some & H).
  apply bind_Some in H as (alts & w7 & [Ha ->]%lift_Some & [<- <-]%ret_Some).
  exists ctx, docs, response_text, d. by repeat split.
Qed.

(** The RAG orchestrator returns as soon as the retrieval and the model
    do: the parser has a value under every key that is read. *)
Lemma rag_interpret_dream_returns provider dream context n w ctx docs response_text w' :
  VectorStoreManager.get_context_for_query collection_query float_str dream 3000 n
    = Some (ctx, docs) ->
  client_create provider
    (request_messages provider (_build_dream_interpretation_prompt dream ctx context)) w
    = Some (response_text, w') ->
  exists resp, rag_interpret_dream provider dream context n w = Some (resp, w').
Proof.
  intros Hctx Hllm.
  destruct (parse_llm_response_unfold response_text)
    as (sections & cur & t & _ & [Hstr [l Hl]] & _ & Hd).
  destruct (Hstr "primary_interpretation") as [s1 H1]; [set_solver|].
  destruct (Hstr "reasoning") as [s2 H2]; [set_solver|].
  unfold interpret_dream, mbind, M_bind, lift, mret, M_ret.
  rewrite Hctx. cbv beta iota. rewrite Hllm. cbv beta iota.
  rewrite Hd. cbv beta iota.
  rewrite lookup_insert_ne, lookup_fmap, H1 by done. cbn.
  rewrite lookup_insert_eq. cbn.
  rewrite lookup_insert_ne, lookup_fmap, H2 by done. cbn.
  rewrite lookup_insert_ne, lookup_fmap, Hl by done. cbn.
  by eexists.
Qed.

(** The score of a RAG result is a number, the default's 0.5, and its
    alternatives are a list. *)
Lemma rag_result_fields provider dream context n w resp w' :
  rag_interpret_dream provider dream context n w = Some (resp, w') ->
  (exists x, confidence_score resp = VFloat x /\ x == 0.5) /\
  (exists l, alternative_interpretations resp = VList l).
Proof.
  intros (ctx & docs & text & d & _ & _ & Hd & _ & Hs & _ & Ha & _)
    %rag_interpret_dream_unfold.
  destruct (rag_confidence_score_constant text) as (d' & x & Hd' & Hx & Hx05).
  destruct (alternatives_bounds_rag text) as (d'' & l & Hd'' & Hl & _).
  simplify_eq. split; [exists x|exists l]; [split; [|done]|]; congruence.
Qed.

End RagResults.

(** ** The confidence score of the two strategies *)

Section ConfidenceClaim.
Import Eff DreamInterpreterAgents.
Variable World : Type.
Variable llm_invoke : list message -> M World string.


End ConfidenceClaim.

(** ** The claims at concrete inputs *)

Section Examples.
Import VectorStoreManager Fixtures.


Example hybrid_search_prefers_validated_source :
  (fun r => result_id (hit r)) <$> ranked_ST = ["T_chunk_0"; "S_chunk_0"].
Proof. run. Qed.

(** C6: two candidates with one final score and one similarity come back
    in the order of the index, T before S. *)
Lemma hybrid_search_tie_not_by_source :
  hybrid_search index_tie "flying" 2 None = Some ranked_tie /\
  source_id <$> ranked_tie = ["T"; "S"] /\
  Forall (fun r => final_score r == 0.6 /\ relevance_score (hit r) == 0.5) ranked_tie /\
  spec_ordered ranked_tie = false.
Proof.
  split; [run|]. split; [run|]. split; [|run].
  repeat constructor.
Qed.

Lemma hybrid_search_ties_witness :
  hybrid_search index_tie "flying" 2 None = Some ranked_tie /\
  exists cands scored,
    similarity_search index_tie "flying" (2 * 2) (category_filter None)
      = Some cands /\
    mapM rerank cands = Some scored /\
    hit <$> scored = cands /\
    forall q, List.filter (PySort.has_key final_score q) ranked_tie
                `prefix_of` List.filter (PySort.has_key final_score q) scored.
Proof.
  split; [run|].
  apply (hybrid_search_ties_keep_index_order index_tie "flying" 2 None). run.
Defined.

(** C7: a neighbour at distance 1.5 is reported with the similarity -0.5. *)
Lemma similarity_search_not_clamped :
  similarity_search index_far "flying" 1 None = Some results_far /\
  distance <$> results_far = [1.5] /\
  relevance_score <$> results_far = [-0.5] /\
  Forall (fun r => relevance_score r < 0) results_far.
Proof.
  split; [run|]. split; [run|]. split; [run|]. repeat constructor.
Qed.

Lemma similarity_search_relevance_witness :
  similarity_search index_far "flying" 1 None = Some results_far /\
  forall r, results_far !! 0%nat = Some r ->
    distances (index_far "flying" 1%nat None) !! 0%nat = Some (distance r) /\
    relevance_score r = 1 - distance r /\
    (0 <= relevance_score r <= 1 <-> 0 <= distance r <= 1).
Proof.
  split; [run|]. intros r Hr.
  apply (similarity_search_relevance index_far "flying" 1 None results_far 0 r);
    [run|exact Hr].
Defined.

(** C2: two blocks of 54 characters fill a budget of 27 tokens, 108
    characters, to the last one; joined by a line break they make a
    context of 109 characters. *)
Theorem get_context_exceeds_budget :
  get_context_for_query index_two_blocks float_str "x" 27 5
    = Some context_two_blocks /\
  String.length <$> context_loop float_str (27 * 4) 0 0 context_two_blocks.2
    = [54; 54]%nat /\
  String.length context_two_blocks.1 = 109%nat /\
  (Z.of_nat (String.length context_two_blocks.1) > 27 * 4)%Z.
Proof. split; [run|]. split; [run|]. split; run. Qed.

(** C3: with a budget of 48 characters and blocks of 80 the context is
    empty, and the source list still holds the two results. *)
Lemma get_context_sources_not_only_included :
  get_context_for_query index_wide float_str "x" 12 5 = Some context_wide /\
  String.length <$> blocks_from float_str 0 context_wide.2 = [80; 80]%nat /\
  context_wide.1 = "" /\
  length context_wide.2 = 2%nat.
Proof. split; [run|]. split; [run|]. split; run. Qed.

Lemma get_context_sources_witness :
  get_context_for_query index_wide float_str "x" 12 5
    = Some (context_wide.1, context_wide.2) /\
  (hybrid_search index_wide "x" 5 None = Some context_wide.2 /\
   (exists k, (k <= length context_wide.2)%nat /\
      context_wide.1
      = String.concat PyStr.nl (take k (blocks_from float_str 0 context_wide.2))) /\
   (forall r rest, context_wide.2 = r :: rest ->
      (Z.of_nat (String.length (chunk_text float_str 0 r)) > 12 * 4)%Z ->
      context_wide.1 = "")).
Proof.
  split; [run|].
  apply (get_context_sources_are_search_results index_wide float_str "x" 12 5). run.
Defined.

End Examples.

Section PipelineExamples.
Import Fixtures.


(** The RAG pipeline on an answer that states High - 85%: the score is
    that of the default label, 50%. *)
Example rag_confidence_of_answer :
  RAGPipeline.confidence_score rag_response = RAGPipeline.VFloat (50 # 100).
Proof. run. Qed.

(** C5: an empty answer of the model yields the list with one empty
    string. *)
Lemma extract_symbols_of_empty_answer :
  DreamInterpreterAgents.extract_symbols_agent (list string) scripted
    state_flying [""] = Some (state_empty_answer, []) /\
  DreamInterpreterAgents.dream_symbols state_empty_answer = [""] /\
  DreamInterpreterAgents.dream_symbols state_empty_answer <> [] /\
  DreamInterpreterAgents.messages state_empty_answer = ["Extracted 1 symbols"].
Proof. split; [run|]. split; [run|]. split; [|run]. vm_compute. congruence. Qed.

Lemma extract_symbols_witness :
  scripted (DreamInterpreterAgents.extract_symbols_messages state_flying) [""]
    = Some ("", []) /\
  exists state',
    DreamInterpreterAgents.extract_symbols_agent (list string) scripted
      state_flying [""] = Some (state', []) /\
    DreamInterpreterAgents.dream_symbols state'
      = DreamInterpreterAgents.parse_symbols "" /\
    DreamInterpreterAgents.dream_symbols state' <> [] /\
    (PyStr.contains "," "" = false ->
     DreamInterpreterAgents.dream_symbols state' = [PyStr.strip ""]) /\
    forall rest,
      DreamInterpreterAgents.invoke (list string)
        (DreamInterpreterAgents.extract_symbols_agent (list string) scripted :: rest)
        state_flying [""]
      = DreamInterpreterAgents.invoke (list string) rest state' [].
Proof.
  split; [reflexivity|].
  apply (extract_symbols_never_empty (list string) scripted state_flying [""] "" []).
  reflexivity.
Defined.

(** C8: the RAG pipeline returns the four alternatives of the answer. *)
Lemma rag_returns_four_alternatives :
  RAGPipeline.interpret_dream (list string) index_ST float_str (fun _ => scripted)
    RAGPipeline.anthropic "I was flying" None 5 [rag_answer]
  = Some (rag_response, []) /\
  RAGPipeline.alternative_interpretations rag_response
  = RAGPipeline.VList
      ["Concern about appearance"; "Fear of ageing";
       "Dental irritation during sleep"; "A recent visit to the dentist"].
Proof. split; run. Qed.

(** Five lines numbered 1. to 5. give five entries, in their order; the
    line numbered 6. gives none. *)
Example parse_six_numbered_lines :
  RAGPipeline._parse_llm_response rag_answer_six
    ≫= (fun d => d !! "alternative_interpretations")
  = Some (RAGPipeline.VList
            ["Concern about appearance"; "Fear of ageing";
             "Dental irritation during sleep"; "A recent visit to the dentist";
             "Worry about money"]).
Proof. run. Qed.

(** C9: on a text without headers the confidence section is not empty. *)
Lemma parse_default_confidence_label :
  RAGPipeline.has_header "confidence" "random text with no headers" = false /\
  RAGPipeline._parse_llm_response "random text with no headers"
    ≫= (fun d => d !! "confidence")
  = Some (RAGPipeline.VStr "Medium - 50%") /\
  "Medium - 50%" <> "".
Proof. split; [run|]. split; [run|]. congruence. Qed.

Example parse_text_without_headers :
  RAGPipeline._parse_llm_response "random text with no headers"
    ≫= (fun d => Some (d !! "confidence_score", d !! "alternative_interpretations",
                        d !! "primary_interpretation"))
  = Some (Some (RAGPipeline.VFloat (50 # 100)), Some (RAGPipeline.VList []),
          Some (RAGPipeline.VStr "")).
Proof. run. Qed.

(** C10 on a scripted run: the interpretation is the whole synthesis
    answer, headers included. *)
Lemma interpretation_witness :
  DreamInterpreterAgents.interpret_dream (list string) index_ST float_str scripted
    "I was flying" None agentic_script = Some (agentic_response, []) /\
  DreamInterpreterAgents.interpretation agentic_response = synthesis_answer /\
  exists state w5,
    DreamInterpreterAgents.invoke (list string)
      (DreamInterpreterAgents.analysis_stages (list string) index_ST float_str scripted)
      (DreamInterpreterAgents.initial_state "I was flying" None) agentic_script
    = Some (state, w5) /\
    scripted (DreamInterpreterAgents.synthesis_messages state) w5
    = Some (DreamInterpreterAgents.interpretation agentic_response, []).
Proof.
  split; [run|]. split; [run|].
  apply (interpretation_is_raw_synthesis (list string) index_ST float_str scripted
           "I was flying" None agentic_script).
  run.
Defined.

End PipelineExamples.

(** * Further properties of the sources *)

(** ** vector_store.py: the searches *)

Section SearchShape.
Import VectorStoreManager.
Variable collection_query : string -> nat -> option (list string) -> query_result.
Variable float_str : Q -> string.

Lemma format_result_is_Some res i :
  is_Some (format_result res i) <->
  (i < length (ids res))%nat /\ (i < length (documents res))%nat /\
  (i < length (metadatas res))%nat /\ (i < length (distances res))%nat.
Proof.
  unfold format_result. rewrite <- !lookup_lt_is_Some.
  destruct (ids res !! i), (documents res !! i), (metadatas res !! i),
    (distances res !! i); simpl; split;
    try (intros [? ?]; done); try (intros (? & ? & ? & ?); by eauto);
    try (intros ([? ?] & [? ?] & [? ?] & [? ?]); done).
Qed.

Lemma similarity_search_is_Some query n f :
  let res := collection_query query n f in
  is_Some (similarity_search collection_query query n f) <->
  (length (ids res) <= length (documents res))%nat /\
  (length (ids res) <= length (metadatas res))%nat /\
  (length (ids res) <= length (distances res))%nat.
Proof.
  intros res.
  unfold similarity_search. fold res. rewrite mapM_is_Some, Forall_forall.
  split.
  - intros H. destruct (ids res) as [|x xs] eqn:E; [simpl; lia|].
    assert (is_Some (format_result res (length xs))) as Hl.
    { apply (H (length xs)). apply elem_of_seq. simpl. lia. }
    apply format_result_is_Some in Hl. rewrite E in *. simpl in *. lia.
  - intros (Hd & Hm & Hx) i Hi%elem_of_seq. simpl.
    apply format_result_is_Some. lia.
Qed.

Lemma similarity_search_fields query n f rs :
  let res := collection_query query n f in
  similarity_search collection_query query n f = Some rs ->
  result_id <$> rs = ids res /\
  content <$> rs = take (length (ids res)) (documents res) /\
  metadata <$> rs = take (length (ids res)) (metadatas res).
Proof.
  intros res Hrs.
  assert (length rs = length (ids res)) as Hlen.
  { unfold similarity_search in Hrs. apply length_mapM in Hrs.
    by rewrite length_seq in Hrs. }
  assert (forall i r, rs !! i = Some r ->
            ids res !! i = Some (result_id r) /\
            documents res !! i = Some (content r) /\
            metadatas res !! i = Some (metadata r)) as Hi.
  { intros i r Hr.
    destruct (format_result_spec _ _ _
                (similarity_search_lookup _ _ _ _ _ _ _ Hrs Hr))
      as (? & ? & ? & _). done. }
  repeat split; apply list_eq; intros i; rewrite list_lookup_fmap.
  - destruct (rs !! i) as [r|] eqn:Er; simpl.
    + symmetry. by apply Hi.
    + symmetry. apply lookup_ge_None. apply lookup_ge_None in Er. lia.
  - destruct (rs !! i) as [r|] eqn:Er; simpl.
    + rewrite lookup_take_lt by (apply lookup_lt_Some in Er; lia).
      symmetry. by apply Hi.
    + symmetry. apply lookup_ge_None in Er.
      apply lookup_ge_None. rewrite length_take. lia.
  - destruct (rs !! i) as [r|] eqn:Er; simpl.
    + rewrite lookup_take_lt by (apply lookup_lt_Some in Er; lia).
      symmetry. by apply Hi.
    + symmetry. apply lookup_ge_None in Er.
      apply lookup_ge_None. rewrite length_take. lia.
Qed.

(** X1: the similarity search raises (IndexError) exactly when one of the
    lists of documents, metadatas and distances is shorter than the list
    of ids; when it returns, it returns one result for every id, in the
    order of the index, carrying the id, the document and the metadata of
    its position. *)
Theorem similarity_search_shape query n f :
  let res := collection_query query n f in
  (is_Some (similarity_search collection_query query n f) <->
   (length (ids res) <= length (documents res))%nat /\
   (length (ids res) <= length (metadatas res))%nat /\
   (length (ids res) <= length (distances res))%nat) /\
  forall rs, similarity_search collection_query query n f = Some rs ->
    result_id <$> rs = ids res /\
    content <$> rs = take (length (ids res)) (documents res) /\
    metadata <$> rs = take (length (ids res)) (metadatas res).
Proof.
  intros res. split.
  - apply similarity_search_is_Some.
  - intros rs. apply similarity_search_fields.
Qed.

(** X2: the hybrid search raises exactly when the similarity search does
    (a list of the index shorter than its list of ids) or when the weight
    of one of the candidates is a string (TypeError of [1 + weight]). *)
Theorem hybrid_search_returns_iff query n cats :
  let res := collection_query query (n * 2) (category_filter cats) in
  is_Some (hybrid_search collection_query query n cats) <->
  (length (ids res) <= length (documents res))%nat /\
  (length (ids res) <= length (metadatas res))%nat /\
  (length (ids res) <= length (distances res))%nat /\
  Forall (fun md => forall s, md !! "weight" <> Some (MStr s))
    (take (length (ids res)) (metadatas res)).
Proof.
  intros res.
  pose proof (similarity_search_is_Some query (n * 2) (category_filter cats))
    as Hsome.
  pose proof (similarity_search_fields query (n * 2) (category_filter cats))
    as Hshape.
  cbv zeta in Hsome, Hshape. fold res in Hsome, Hshape.
  assert (forall md, is_Some (weight_of md) <->
            forall s, md !! "weight" <> Some (MStr s)) as Hw.
  { intros md. unfold weight_of.
    destruct (md !! "weight") as [[s|x]|]; split;
      try (intros _ ? ?; done); try (intros _; by eexists).
    - by intros [? ?].
    - intros H. by destruct (H s). }
  unfold hybrid_search. fold res.
  destruct (similarity_search collection_query query (n * 2) (category_filter cats))
    as [cands|] eqn:E; simpl.
  - destruct (Hshape cands eq_refl) as (_ & _ & Hmd).
    assert (is_Some (mapM rerank cands) <->
            Forall (fun md => forall s, md !! "weight" <> Some (MStr s))
              (take (length (ids res)) (metadatas res))) as Hr.
    { rewrite mapM_is_Some, <- Hmd, Forall_fmap. apply Forall_iff. intros r.
      simpl. rewrite <- Hw. unfold rerank.
      destruct (weight_of (metadata r)); simpl; split; intros [? ?]; by eauto. }
    destruct (mapM rerank cands) as [scored|]; simpl.
    + split; [|by eexists]. intros _.
      destruct (proj1 Hsome) as (? & ? & ?); [by eexists|].
      repeat split; [done..|]. apply Hr. by eexists.
    + split; [by intros [? ?]|]. intros (_ & _ & _ & H). by apply Hr.
  - split; [by intros [? ?]|]. intros (H1 & H2 & H3 & _).
    destruct (proj2 Hsome) as [? ?]; done.
Qed.

(** X3: the hybrid search asks the index for twice as many neighbours as
    it returns; it returns [n_results] candidates, or all of them when the
    index has fewer, and every returned entry is one of the candidates of
    the similarity search, none of them twice. *)
Theorem hybrid_search_size query n cats rs :
  hybrid_search collection_query query n cats = Some rs ->
  length rs
  = (n `min` length (ids (collection_query query (n * 2) (category_filter cats))))%nat /\
  exists cands,
    similarity_search collection_query query (n * 2) (category_filter cats)
      = Some cands /\
    hit <$> rs ⊆+ cands.
Proof.
  intros (cands & scored & Hs & Hm & ->)%hybrid_search_unfold. split.
  - rewrite length_take, (Permutation_length (sort_desc_Permutation _ scored)).
    apply length_mapM in Hm. rewrite <- Hm.
    unfold similarity_search in Hs. apply length_mapM in Hs.
    rewrite length_seq in Hs. by rewrite <- Hs.
  - exists cands. split; [done|].
    rewrite <- (mapM_rerank_hits _ _ Hm). apply fmap_submseteq.
    etrans; [apply sublist_submseteq, sublist_take|].
    by rewrite sort_desc_Permutation.
Qed.

End SearchShape.

(** ** vector_store.py: the context of a query *)

Section ContextBounds.
Import VectorStoreManager.
Variable collection_query : string -> nat -> option (list string) -> query_result.
Variable float_str : Q -> string.

Lemma chunk_text_not_empty idx r :
  (0 < String.length (chunk_text float_str idx r))%nat.
Proof. unfold chunk_text. rewrite string_length_app. simpl. lia. Qed.

Lemma length_blocks_from idx results :
  length (blocks_from float_str idx results) = length results.
Proof.
  revert idx. induction results as [|r rest IH]; intros idx; simpl;
    [done|by rewrite IH].
Qed.

Lemma context_loop_no_budget max_chars idx total results :
  (max_chars <= total)%Z ->
  context_loop float_str max_chars idx total results = [].
Proof.
  intros H. destruct results as [|r rest]; cbn [context_loop]; [done|].
  pose proof (chunk_text_not_empty idx r).
  destruct (_ >? _)%Z eqn:E; [done|].
  rewrite Z.gtb_ltb in E. apply Z.ltb_ge in E. lia.
Qed.

(** X5: the context of a query is never longer than the budget of
    [max_tokens * 4] characters plus one line break between any two of the
    results, and there are no more results than [n_results]; with a budget
    of zero or less the context is empty. *)
Theorem get_context_length_bound query max_tokens n ctx srcs :
  get_context_for_query collection_query float_str query max_tokens n
    = Some (ctx, srcs) ->
  (length srcs <= n)%nat /\
  (Z.of_nat (String.length ctx)
     <= Z.max 0 (max_tokens * 4 + Z.of_nat (length srcs) - 1))%Z /\
  (max_tokens <= 0 -> ctx = "")%Z.
Proof.
  intros H. pose proof H as [Hs Hctx]%get_context_unfold.
  split; [|split].
  - apply hybrid_search_unfold in Hs as (cands & scored & _ & _ & ->).
    rewrite length_take. lia.
  - destruct (get_context_whole_blocks _ _ _ _ _ _ _ H)
      as (parts & _ & Hparts & Hbudget & _ & Hlen).
    assert (length parts <= length srcs)%nat as Hle.
    { rewrite Hparts, length_take, length_blocks_from. lia. }
    destruct parts as [|p parts]; [simpl in Hlen; lia|].
    specialize (Hbudget ltac:(done)).
    cbn [length] in *. lia.
  - intros Hneg. rewrite Hctx, context_loop_no_budget by lia. done.
Qed.

(** X6: when the index has no neighbour for the query, the hybrid search
    returns the empty list and the context of the query is the empty
    string with no source, for any budget; nothing raises. *)
Theorem get_context_of_no_results query max_tokens n :
  ids (collection_query query (n * 2) None) = [] ->
  hybrid_search collection_query query n None = Some [] /\
  get_context_for_query collection_query float_str query max_tokens n
    = Some ("", []).
Proof.
  intros Hids.
  assert (hybrid_search collection_query query n None = Some []) as Hh.
  { unfold hybrid_search, similarity_search. cbn [category_filter].
    rewrite Hids. simpl. by rewrite take_nil. }
  split; [exact Hh|]. unfold get_context_for_query. by rewrite Hh.
Qed.

(** X7: when the index hands back its neighbours by ascending distance,
    the result of the hybrid search is ordered by descending final score
    and, among candidates of one final score, by descending similarity. *)
Theorem hybrid_search_order_on_sorted_index query n cats rs :
  StronglySorted Qle
    (distances (collection_query query (n * 2) (category_filter cats))) ->
  hybrid_search collection_query query n cats = Some rs ->
  StronglySorted
    (fun a b => final_score b < final_score a \/
                (final_score a == final_score b /\
                 relevance_score (hit b) <= relevance_score (hit a))) rs.
Proof.
  intros Hd Hrs. apply StronglySorted_lookup. intros i j a b Hij Ha Hb.
  assert (final_score b <= final_score a) as Hle.
  { pose proof Hrs as (cands & scored & _ & _ & ->)%hybrid_search_unfold.
    apply (proj1 (StronglySorted_lookup (PySort.desc final_score) _)
             (StronglySorted_take _ n _ (sort_desc_sorted final_score scored))
             i j a b Hij Ha Hb). }
  destruct (Qlt_le_dec (final_score b) (final_score a)) as [Hlt|Hge]; [by left|].
  right. assert (final_score a == final_score b) as Heq by (by apply Qle_antisym).
  split; [exact Heq|].
  apply (hybrid_search_ties_by_similarity collection_query query n cats rs
           (take i rs) a (take (j - S i) (drop (S i) rs)) b (drop (S j) rs));
    [exact Hd|exact Hrs| |exact Heq].
  rewrite <- (take_drop_middle rs i a Ha) at 1. f_equal. f_equal.
  assert (drop (S i) rs !! (j - S i)%nat = Some b) as Hb'.
  { rewrite lookup_drop. rewrite <- Hb. f_equal. lia. }
  rewrite <- (take_drop_middle _ _ _ Hb') at 1. f_equal. f_equal.
  rewrite drop_drop. f_equal. lia.
Qed.

End ContextBounds.

(** ** The searches and the context at concrete indexes *)

Section SearchExamples.
Import VectorStoreManager Fixtures.

Lemma hybrid_search_size_witness :
  hybrid_search index_ST "flying" 2 None = Some ranked_ST /\
  (length ranked_ST
   = (2 `min` length (ids (index_ST "flying" (2 * 2)%nat (category_filter None))))%nat /\
   exists cands,
     similarity_search index_ST "flying" (2 * 2) (category_filter None) = Some cands /\
     hit <$> ranked_ST ⊆+ cands).
Proof.
  split; [run|]. apply (hybrid_search_size index_ST "flying" 2 None). run.
Defined.

(** At the distance 1.5 the source S of weight 0.2 stands before the
    source T of weight 0.8. *)
Example hybrid_search_penalises_weight_of_far_hits :
  hybrid_search index_far_ST "flying" 2 None = Some ranked_far_ST /\
  (fun r => result_id (hit r)) <$> ranked_far_ST = ["S_chunk_0"; "T_chunk_0"].
Proof. split; run. Qed.

Lemma get_context_length_bound_witness :
  get_context_for_query index_two_blocks float_str "x" 27 5
    = Some (context_two_blocks.1, context_two_blocks.2) /\
  ((length context_two_blocks.2 <= 5)%nat /\
   (Z.of_nat (String.length context_two_blocks.1)
      <= Z.max 0 (27 * 4 + Z.of_nat (length context_two_blocks.2) - 1))%Z /\
   (27 <= 0 -> context_two_blocks.1 = "")%Z).
Proof.
  split; [run|].
  apply (get_context_length_bound index_two_blocks float_str "x" 27 5). run.
Defined.

Lemma get_context_of_no_results_witness :
  ids (index_empty "flying" (5 * 2)%nat None) = [] /\
  (hybrid_search index_empty "flying" 5 None = Some [] /\
   get_context_for_query index_empty float_str "flying" 3000 5 = Some ("", [])).
Proof.
  split; [reflexivity|].
  apply (get_context_of_no_results index_empty float_str "flying" 3000 5).
  reflexivity.
Defined.

(** Two candidates of the final score 0.5: the one of the greater
    similarity, S, stands first. *)
Example hybrid_search_of_equal_final_scores :
  (fun r => result_id (hit r)) <$> ranked_equal_final = ["S_chunk_0"; "T_chunk_0"] /\
  Forall (fun r => final_score r == 0.5) ranked_equal_final /\
  Forall2 (fun r x => relevance_score (hit r) == x) ranked_equal_final [0.5; 0.25].
Proof. split; [run|]. split; repeat constructor. Qed.

Lemma hybrid_search_order_on_sorted_index_witness :
  StronglySorted Qle
    (distances (index_equal_final "flying" (2 * 2)%nat (category_filter None))) /\
  hybrid_search index_equal_final "flying" 2 None = Some ranked_equal_final /\
  StronglySorted
    (fun a b => final_score b < final_score a \/
                (final_score a == final_score b /\
                 relevance_score (hit b) <= relevance_score (hit a)))
    ranked_equal_final.
Proof.
  assert (StronglySorted Qle
    (distances (index_equal_final "flying" (2 * 2)%nat (category_filter None))))
    as Hd.
  { repeat constructor. vm_compute. congruence. }
  split; [exact Hd|]. split; [run|].
  apply (hybrid_search_order_on_sorted_index index_equal_final "flying" 2 None);
    [exact Hd|run].
Defined.

End SearchExamples.

(** ** rag_pipeline.py: what the parser files under a section *)

Section ParserSections.
Import RAGPipeline.

Lemma split_app sep a b :
  PyStr.split sep (a +:+ String sep b) = PyStr.split sep a ++ PyStr.split sep b.
Proof.
  induction a as [|c a IH].
  - rewrite string_app_nil_l. cbn [PyStr.split]. by rewrite Ascii.eqb_refl.
  - rewrite string_app_cons. cbn [PyStr.split]. rewrite IH.
    destruct (Ascii.eqb c sep); [done|].
    pose proof (split_nonempty sep a). by destruct (PyStr.split sep a).
Qed.

Lemma parse_lines_app st lines1 lines2 :
  parse_lines st (lines1 ++ lines2)
  = match parse_lines st lines1 with
    | Some st1 => parse_lines st1 lines2
    | None => None
    end.
Proof.
  revert st. induction lines1 as [|line lines1 IH]; intros st; [done|].
  cbn [app parse_lines]. destruct (parse_line st line) as [st1|]; [apply IH|done].
Qed.

Lemma joined_lines_cons line lines :
  joined_lines (line :: lines) = (PyStr.strip line +:+ " ") +:+ joined_lines lines.
Proof. unfold joined_lines. cbn [foldr]. by rewrite string_app_assoc. Qed.

Lemma string_app_nil_r (s : string) : s +:+ "" = s.
Proof. induction s as [|c s IH]; [done|]. by rewrite string_app_cons, IH. Qed.

Lemma string_key_not_alternatives k :
  k ∈ string_keys -> k <> "alternative_interpretations".
Proof. intros Hk ->. unfold string_keys in Hk. not_among Hk. Qed.

(** the text of a section after the loop: what it held, then the lines
    filed under it *)
Lemma parse_lines_text k st lines st' s :
  loop_inv st -> parse_lines st lines = Some st' ->
  k ∈ string_keys -> st.1 !! k = Some (VStr s) ->
  st'.1 !! k = Some (VStr (s +:+ joined_lines (lines_of_section k st.2 lines))).
Proof.
  intros Hinv Hp Hk. revert st s Hinv Hp.
  induction lines as [|line lines IH]; intros [sections cur] s Hinv Hp Hs.
  - injection Hp as <-. simpl. by rewrite string_app_nil_r.
  - apply parse_lines_cons in Hp as (st1 & H1 & Hp).
    destruct (parse_line_inv _ line Hinv) as (st1' & H1' & Hinv1).
    rewrite H1 in H1'. injection H1' as <-.
    cbn [lines_of_section fst snd] in *. unfold parse_line in H1.
    destruct (header_of _) as [key|] eqn:Eh.
    { injection H1 as <-. by apply (IH _ _ Hinv1 Hp). }
    destruct cur as [c|]; [|injection H1 as <-; by apply (IH _ _ Hinv1 Hp)].
    destruct (String.eqb (PyStr.strip line) "") eqn:Eb; cbn [negb] in *.
    { injection H1 as <-. rewrite andb_false_r. by apply (IH _ _ Hinv1 Hp). }
    rewrite andb_true_r.
    destruct (add_content sections c line) as [sections1|] eqn:Ea; [|done].
    simpl in H1. injection H1 as <-.
    destruct (decide (c = k)) as [->|Hne].
    + rewrite bool_decide_eq_true_2 by done.
      rewrite joined_lines_cons, <- string_app_assoc.
      apply (IH _ _ Hinv1 Hp). simpl.
      unfold add_content in Ea.
      rewrite (proj2 (String.eqb_neq _ _) (string_key_not_alternatives k Hk)) in Ea.
      rewrite Hs in Ea. injection Ea as <-. by rewrite lookup_insert_eq.
    + rewrite bool_decide_eq_false_2 by congruence.
      apply (IH _ _ Hinv1 Hp). simpl.
      by rewrite (add_content_other _ _ _ _ k Ea).
Qed.

(** X8: what the parser returns under the key of a section.  A text
    section holds its default followed by the lines filed under it, each
    stripped and followed by one space, the whole stripped; the list of
    alternatives holds the entries of the numbered lines filed under it.
    A line is filed under the section of the nearest header line above
    it; header lines and blank lines are filed nowhere. *)
Theorem parse_llm_response_sections response_text :
  let lines := PyStr.split "010" response_text in
  exists d,
    _parse_llm_response response_text = Some d /\
    (forall k s, k ∈ string_keys -> initial_sections !! k = Some (VStr s) ->
       d !! k = Some (VStr (PyStr.strip
                              (s +:+ joined_lines (lines_of_section k None lines))))) /\
    d !! "alternative_interpretations"
    = Some (VList (numbered_entries
                     (lines_of_section "alternative_interpretations" None lines))).
Proof.
  intros lines.
  destruct (parse_llm_response_unfold response_text)
    as (sections & cur & t & Hp & _ & _ & ->).
  fold lines in Hp. eexists. split; [done|]. split.
  - intros k s Hk Hs.
    rewrite lookup_insert_ne
      by (intros <-; unfold string_keys in Hk; not_among Hk).
    rewrite lookup_fmap.
    pose proof (parse_lines_text k _ _ _ s loop_inv_initial Hp Hk Hs) as Ht.
    cbn [fst snd] in Ht. by rewrite Ht.
  - rewrite lookup_insert_ne by done. rewrite lookup_fmap.
    pose proof (parse_lines_entries _ _ _ [] loop_inv_initial Hp eq_refl) as Ht.
    cbn [fst snd] in Ht. by rewrite Ht.
Qed.

Lemma parse_lines_headers_only st lines :
  Forall (fun line => is_Some (header_of (PyStr.upper (PyStr.strip line)))) lines ->
  exists cur, parse_lines st lines = Some (st.1, cur).
Proof.
  revert st. induction lines as [|line lines IH];
    intros [sections cur]; [by eexists|].
  intros [[key Hkey] Hlines]%Forall_cons. cbn [parse_lines].
  unfold parse_line. rewrite Hkey. simpl.
  apply (IH (sections, Some key) Hlines).
Qed.

(** X9: the rest of a header line is dropped.  When every line of the
    response holds a header, whatever else the lines hold, the parser
    returns what it returns for the empty response: empty sections, no
    alternative, the default confidence. *)
Theorem parse_llm_response_header_lines response_text :
  Forall (fun line => is_Some (header_of (PyStr.upper (PyStr.strip line))))
    (PyStr.split "010" response_text) ->
  _parse_llm_response response_text = _parse_llm_response "" /\
  forall d, _parse_llm_response response_text = Some d ->
    d !! "primary_interpretation" = Some (VStr "") /\
    d !! "scientific_evidence" = Some (VStr "") /\
    d !! "reasoning" = Some (VStr "") /\
    d !! "sources_cited" = Some (VStr "") /\
    d !! "alternative_interpretations" = Some (VList []) /\
    d !! "confidence" = Some (VStr "Medium - 50%").
Proof.
  intros H.
  destruct (parse_lines_headers_only (initial_sections, None) _ H) as [cur Hp].
  assert (_parse_llm_response response_text = _parse_llm_response "") as Heq.
  { unfold _parse_llm_response. rewrite Hp. reflexivity. }
  split; [exact Heq|]. intros d Hd.
  destruct (parse_llm_response_unfold response_text)
    as (sections & cur' & t & Hp' & _ & _ & Hd').
  rewrite Hp in Hp'. injection Hp' as <- _.
  rewrite Hd' in Hd. injection Hd as <-.
  rewrite !lookup_insert_ne, !lookup_fmap by done.
  repeat split; vm_compute; reflexivity.
Qed.

(** X10: what stands before the first header is ignored.  Lines without
    a header in front of a response do not change what the parser
    returns. *)
Theorem parse_llm_response_preamble preamble response_text :
  Forall (fun line => header_of (PyStr.upper (PyStr.strip line)) = None)
    (PyStr.split "010" preamble) ->
  _parse_llm_response (preamble +:+ PyStr.nl +:+ response_text)
  = _parse_llm_response response_text.
Proof.
  intros H. unfold _parse_llm_response, PyStr.nl.
  rewrite string_app_cons, string_app_nil_l, split_app, parse_lines_app.
  assert (parse_lines (initial_sections, None) (PyStr.split "010" preamble)
          = Some (initial_sections, None)) as ->; [|done].
  induction H as [|line lines Hline _ IH]; [done|].
  cbn [parse_lines]. unfold parse_line. by rewrite Hline.
Qed.

End ParserSections.

Section ParserExamples.
Import RAGPipeline.

Lemma parse_llm_response_header_lines_witness :
  Forall (fun line => is_Some (header_of (PyStr.upper (PyStr.strip line))))
    (PyStr.split "010" "PRIMARY INTERPRETATION: You are anxious about work.") /\
  (_parse_llm_response "PRIMARY INTERPRETATION: You are anxious about work."
   = _parse_llm_response "" /\
   forall d,
     _parse_llm_response "PRIMARY INTERPRETATION: You are anxious about work."
       = Some d ->
     d !! "primary_interpretation" = Some (VStr "") /\
     d !! "scientific_evidence" = Some (VStr "") /\
     d !! "reasoning" = Some (VStr "") /\
     d !! "sources_cited" = Some (VStr "") /\
     d !! "alternative_interpretations" = Some (VList []) /\
     d !! "confidence" = Some (VStr "Medium - 50%")).
Proof.
  assert (Forall (fun line => is_Some (header_of (PyStr.upper (PyStr.strip line))))
    (PyStr.split "010" "PRIMARY INTERPRETATION: You are anxious about work."))
    as H.
  { repeat constructor. by eexists. }
  split; [exact H|].
  apply (parse_llm_response_header_lines
           "PRIMARY INTERPRETATION: You are anxious about work." H).
Defined.

Lemma parse_llm_response_preamble_witness :
  Forall (fun line => header_of (PyStr.upper (PyStr.strip line)) = None)
    (PyStr.split "010" "Here is my analysis.") /\
  _parse_llm_response ("Here is my analysis." +:+ PyStr.nl +:+ Fixtures.rag_answer)
  = _parse_llm_response Fixtures.rag_answer.
Proof.
  assert (Forall (fun line => header_of (PyStr.upper (PyStr.strip line)) = None)
    (PyStr.split "010" "Here is my analysis.")) as H.
  { repeat constructor. }
  split; [exact H|].
  apply (parse_llm_response_preamble "Here is my analysis." Fixtures.rag_answer H).
Defined.

(** The lines that the answer of the examples files under two of its
    sections. *)
Example lines_of_section_of_answer :
  lines_of_section "primary_interpretation" None
    (PyStr.split "010" Fixtures.rag_answer)
  = ["Losing teeth reflects stress at work."] /\
  numbered_entries
    (lines_of_section "alternative_interpretations" None
       (PyStr.split "010" Fixtures.rag_answer))
  = ["Concern about appearance"; "Fear of ageing";
     "Dental irritation during sleep"; "A recent visit to the dentist"].
Proof. split; run. Qed.

End ParserExamples.

(** ** rag_pipeline.py: the runs of interpret_dream *)

Section RagRuns.
Import Eff RAGPipeline.
Variable World : Type.
Variable collection_query :
  string -> nat -> option (list string) -> VectorStoreManager.query_result.
Variable float_str : Q -> string.
Variable client_create : llm_provider -> list chat_message -> M World string.

Lemma length_substring a n s : (String.length (String.substring a n s) <= n)%nat.
Proof.
  revert a n. induction s as [|c s IH]; intros [|a] [|n]; simpl; try lia.
  - specialize (IH 0%nat n). lia.
  - apply (IH a 0%nat).
  - apply (IH a (S n)).
Qed.

Lemma format_source_excerpt doc :
  (String.length (excerpt (format_source doc)) <= 203)%nat.
Proof.
  unfold format_source, PyStr.slice. cbn [excerpt].
  rewrite string_length_app.
  pose proof (length_substring 0 (200 - 0)
                (VectorStoreManager.content (VectorStoreManager.hit doc))).
  simpl in *. lia.
Qed.

(** X11: the RAG orchestrator raises only when the retrieval or the call
    of the model raises: it returns exactly when the context of the dream
    text is found (budget 3000 tokens, [n_sources] results) and the model
    answers the request built from it; no answer of the model makes the
    parser or the construction of the result fail. *)
Theorem rag_interpret_dream_returns_iff provider dream context n w :
  is_Some (interpret_dream World collection_query float_str client_create
             provider dream context n w) <->
  exists ctx docs,
    VectorStoreManager.get_context_for_query collection_query float_str dream 3000 n
      = Some (ctx, docs) /\
    is_Some (client_create provider
               (request_messages provider
                  (_build_dream_interpretation_prompt dream ctx context)) w).
Proof.
  split.
  - intros [[resp w'] H].
    apply rag_interpret_dream_unfold
      in H as (ctx & docs & text & d & Hctx & Hllm & _).
    exists ctx, docs. split; [done|]. by eexists.
  - intros (ctx & docs & Hctx & [[text w'] Hllm]).
    destruct (rag_interpret_dream_returns World collection_query float_str
                client_create provider dream context n w ctx docs text w'
                Hctx Hllm) as [resp Hresp].
    by eexists.
Qed.

(** X12: the sources of a RAG result are the results of the hybrid
    search for the dream text, one entry for each in their order, whatever
    the model answered: no more than [n_sources] entries, each with the
    similarity of its result and an excerpt of 203 characters at most
    (200 of the content and the dots). *)
Theorem rag_sources_are_retrieved provider dream context n w resp w' :
  interpret_dream World collection_query float_str client_create
    provider dream context n w = Some (resp, w') ->
  exists docs,
    VectorStoreManager.hybrid_search collection_query dream n None = Some docs /\
    sources_used resp = format_source <$> docs /\
    relevance <$> sources_used resp
    = (fun d => VectorStoreManager.relevance_score (VectorStoreManager.hit d)) <$> docs /\
    (length (sources_used resp) <= n)%nat /\
    Forall (fun s => (String.length (excerpt s) <= 203)%nat) (sources_used resp).
Proof.
  intros (ctx & docs & text & d & Hctx & _ & _ & _ & _ & _ & _ & ->)
    %rag_interpret_dream_unfold.
  apply get_context_unfold in Hctx as [Hs _].
  exists docs. split; [done|]. split; [done|]. split; [|split].
  - rewrite <- list_fmap_compose. done.
  - rewrite length_fmap.
    apply hybrid_search_unfold in Hs as (cands & scored & _ & _ & ->).
    rewrite length_take. lia.
  - apply Forall_fmap, Forall_forall. intros doc _. apply format_source_excerpt.
Qed.

(** X13: the confidence score of a RAG result is 0.5 for every run that
    returns, whatever the model answered: the parser reads the leftmost
    percentage of the text of the confidence section, and that text
    starts with the default label, Medium - 50%. *)
Theorem rag_confidence_is_default provider dream context n w resp w' :
  interpret_dream World collection_query float_str client_create
    provider dream context n w = Some (resp, w') ->
  exists x, confidence_score resp = VFloat x /\ x == 0.5.
Proof.
  intros (ctx & docs & text & d & _ & _ & Hd & _ & Hs & _)
    %rag_interpret_dream_unfold.
  destruct (rag_confidence_score_constant text) as (d' & x & Hd' & Hx & Hx05).
  exists x. split; [congruence|done].
Qed.

End RagRuns.

Section RagRunExamples.
Import Fixtures.

Lemma rag_sources_are_retrieved_witness :
  RAGPipeline.interpret_dream (list string) index_ST float_str (fun _ => scripted)
    RAGPipeline.anthropic "I was flying" None 5 [rag_answer]
  = Some (rag_response, []) /\
  exists docs,
    VectorStoreManager.hybrid_search index_ST "I was flying" 5 None = Some docs /\
    RAGPipeline.sources_used rag_response = RAGPipeline.format_source <$> docs /\
    RAGPipeline.relevance <$> RAGPipeline.sources_used rag_response
    = (fun d => VectorStoreManager.relevance_score (VectorStoreManager.hit d)) <$> docs /\
    (length (RAGPipeline.sources_used rag_response) <= 5)%nat /\
    Forall (fun s => (String.length (RAGPipeline.excerpt s) <= 203)%nat)
      (RAGPipeline.sources_used rag_response).
Proof.
  split; [run|].
  apply (rag_sources_are_retrieved (list string) index_ST float_str
           (fun _ => scripted) RAGPipeline.anthropic "I was flying" None 5
           [rag_answer] rag_response []).
  run.
Defined.

Lemma rag_confidence_is_default_witness :
  RAGPipeline.interpret_dream (list string) index_ST float_str (fun _ => scripted)
    RAGPipeline.anthropic "I was flying" None 5 [rag_answer]
  = Some (rag_response, []) /\
  exists x, RAGPipeline.confidence_score rag_response = RAGPipeline.VFloat x /\
            x == 0.5.
Proof.
  split; [run|].
  apply (rag_confidence_is_default (list string) index_ST float_str
           (fun _ => scripted) RAGPipeline.anthropic "I was flying" None 5
           [rag_answer] rag_response []).
  run.
Defined.

End RagRunExamples.

(** ** rag_pipeline.py: follow-up questions *)

Section FollowupRuns.
Import Eff RAGPipeline.
Variable World : Type.
Variable collection_query :
  string -> nat -> option (list string) -> VectorStoreManager.query_result.
Variable float_str : Q -> string.
Variable client_create_followup : llm_provider -> list chat_message -> M World string.

(** X14: a follow-up returns the answer of the model unparsed.  The
    research is searched for the dream text and the question joined by a
    space, with three results at most; the answer of the model to the one
    user message is the interpretation as it is; the confidence is the
    constant 0.75, there are no alternatives, and the query of the result
    is the question.  The user context is not read. *)
Theorem followup_returns_raw_answer provider dream question previous
    user_context w resp w' :
  interpret_with_followup World collection_query float_str client_create_followup
    provider dream question previous user_context w = Some (resp, w') ->
  exists ctx docs,
    VectorStoreManager.get_context_for_query collection_query float_str
      (dream +:+ " " +:+ question) 2000 3 = Some (ctx, docs) /\
    client_create_followup provider
      [ {| role := "user";
           msg_content := followup_prompt dream previous question ctx |} ] w
    = Some (followup_interpretation resp, w') /\
    followup_sources_used resp = format_followup_source <$> docs /\
    (length (followup_sources_used resp) <= 3)%nat /\
    followup_confidence_score resp = 0.75 /\
    followup_alternative_interpretations resp = [] /\
    followup_reasoning resp = "Follow-up response" /\
    followup_query resp = question /\
    forall other_context,
      interpret_with_followup World collection_query float_str
        client_create_followup provider dream question previous other_context w
      = Some (resp, w').
Proof.
  intros H. pose proof H as H0. unfold interpret_with_followup in H.
  apply bind_Some in H as ([ctx docs] & w1 & [Hctx ->]%lift_Some & H).
  apply bind_Some in H as (text & w2 & Hllm & [<- <-]%ret_Some).
  exists ctx, docs. cbn. repeat split; try done.
  rewrite length_fmap.
  apply get_context_unfold in Hctx as [Hs _].
  apply hybrid_search_unfold in Hs as (cands & scored & _ & _ & ->).
  rewrite length_take. lia.
Qed.

End FollowupRuns.

Section FollowupExamples.
Import Fixtures.

Lemma followup_returns_raw_answer_witness :
  RAGPipeline.interpret_with_followup (list string) index_ST float_str
    (fun _ => scripted) RAGPipeline.openai "I was flying" "Why water?"
    "The dream reflects a wish for freedom." None ["CONFIDENCE: High - 95%"]
  = Some (followup_response, []) /\
  exists ctx docs,
    VectorStoreManager.get_context_for_query index_ST float_str
      ("I was flying" +:+ " " +:+ "Why water?") 2000 3 = Some (ctx, docs) /\
    scripted
      [ {| RAGPipeline.role := "user";
           RAGPipeline.msg_content :=
             RAGPipeline.followup_prompt "I was flying"
               "The dream reflects a wish for freedom." "Why water?" ctx |} ]
      ["CONFIDENCE: High - 95%"]
    = Some (RAGPipeline.followup_interpretation followup_response, []) /\
    RAGPipeline.followup_sources_used followup_response
    = RAGPipeline.format_followup_source <$> docs /\
    (length (RAGPipeline.followup_sources_used followup_response) <= 3)%nat /\
    RAGPipeline.followup_confidence_score followup_response = 0.75 /\
    RAGPipeline.followup_alternative_interpretations followup_response = [] /\
    RAGPipeline.followup_reasoning followup_response = "Follow-up response" /\
    RAGPipeline.followup_query followup_response = "Why water?" /\
    forall other_context,
      RAGPipeline.interpret_with_followup (list string) index_ST float_str
        (fun _ => scripted) RAGPipeline.openai "I was flying" "Why water?"
        "The dream reflects a wish for freedom." other_context
        ["CONFIDENCE: High - 95%"]
      = Some (followup_response, []).
Proof.
  split; [run|].
  apply (followup_returns_raw_answer (list string) index_ST float_str
           (fun _ => scripted) RAGPipeline.openai "I was flying" "Why water?"
           "The dream reflects a wish for freedom." None
           ["CONFIDENCE: High - 95%"] followup_response []).
  run.
Defined.

(** On this run the answer states a confidence of 95% and the result
    reports 0.75. *)
Example followup_confidence_is_constant :
  RAGPipeline.followup_interpretation followup_response = "CONFIDENCE: High - 95%" /\
  RAGPipeline.followup_confidence_score followup_response = 0.75.
Proof. split; run. Qed.

End FollowupExamples.

(** ** agentic_system.py: what the synthesis stage reads off the answer *)

Section SynthesisFacts.
Import DreamInterpreterAgents.

Lemma find_from_none i sub s :
  PyStr.contains sub s = false -> PyStr.find_from i sub s = (-1)%Z.
Proof.
  revert i. induction s as [|c s IH]; intros i; cbn [PyStr.contains PyStr.find_from].
  - intros H. apply orb_false_elim in H as [-> _]. done.
  - intros H. apply orb_false_elim in H as [-> H]. by apply IH.
Qed.

Lemma find_none sub s :
  PyStr.contains sub s = false -> PyStr.find sub s = (-1)%Z.
Proof. apply find_from_none. Qed.

Lemma substring_0 n s : String.substring n 0 s = "".
Proof.
  revert n. induction s as [|c s IH]; intros [|n]; simpl; done.
Qed.

Lemma alternatives_loop_no_header lines :
  Forall (fun line =>
            PyStr.contains "ALTERNATIVE INTERPRETATION" (PyStr.upper line) = false)
    lines ->
  alternatives_loop false lines = [].
Proof.
  induction 1 as [|line lines Hline _ IH]; [done|].
  cbn [alternatives_loop]. rewrite Hline. cbn [andb]. exact IH.
Qed.

Lemma synthesis_reasoning_reversed synthesis :
  PyStr.find "REASONING:" synthesis <> (-1)%Z ->
  PyStr.find "ALTERNATIVE INTERPRETATIONS:" synthesis <> (-1)%Z ->
  (PyStr.find "ALTERNATIVE INTERPRETATIONS:" synthesis
     <= PyStr.find "REASONING:" synthesis)%Z ->
  synthesis_reasoning synthesis = "".
Proof.
  intros Hs He Hle. unfold synthesis_reasoning.
  rewrite (proj2 (Z.eqb_neq _ _) Hs), (proj2 (Z.eqb_neq _ _) He). cbn [negb andb].
  unfold PyStr.slice.
  replace (Z.to_nat (PyStr.find "ALTERNATIVE INTERPRETATIONS:" synthesis)
           - Z.to_nat (PyStr.find "REASONING:" synthesis))%nat with 0%nat by lia.
  by rewrite substring_0.
Qed.

End SynthesisFacts.

Section AgenticRuns.
Import Eff DreamInterpreterAgents.
Variable World : Type.
Variable collection_query :
  string -> nat -> option (list string) -> VectorStoreManager.query_result.
Variable float_str : Q -> string.
Variable llm_invoke : list message -> M World string.

(** X15: on an answer of the synthesis stage that does not follow the
    format the result falls back on defaults: without a percent sign the
    confidence is 0.7; when the marker REASONING: or the marker
    ALTERNATIVE INTERPRETATIONS: is missing the reasoning is a fixed
    sentence; when no line holds ALTERNATIVE INTERPRETATION in any case of
    letters there is no alternative. *)
Theorem agentic_defaults dream context w resp w' :
  interpret_dream World collection_query float_str llm_invoke dream context w
    = Some (resp, w') ->
  (PyStr.contains "%" (interpretation resp) = false ->
   response_confidence_score resp = 0.7) /\
  (PyStr.contains "REASONING:" (interpretation resp) = false \/
   PyStr.contains "ALTERNATIVE INTERPRETATIONS:" (interpretation resp) = false ->
   response_reasoning resp = "Synthesized from multiple analytical perspectives") /\
  (Forall (fun line =>
             PyStr.contains "ALTERNATIVE INTERPRETATION" (PyStr.upper line) = false)
     (PyStr.split "010" (interpretation resp)) ->
   response_alternative_interpretations resp = []).
Proof.
  intros (Hc & Ha & Hr)%agentic_result_fields.
  rewrite Hc, Ha, Hr. clear Hc Ha Hr.
  set (text := interpretation resp). split; [|split].
  - intros H. unfold synthesis_confidence. rewrite H.
    by rewrite !andb_false_r.
  - intros H. unfold synthesis_reasoning.
    destruct H as [H|H]; rewrite (find_none _ _ H); cbn [Z.eqb negb andb];
      [done|by rewrite andb_false_r].
  - intros H. unfold synthesis_alternatives.
    by rewrite alternatives_loop_no_header.
Qed.

(** X16: when the answer of the synthesis stage holds both markers and
    ALTERNATIVE INTERPRETATIONS: does not stand after REASONING:, the
    reasoning of the result is the empty string, not the fixed sentence
    of the fallback. *)
Theorem agentic_reasoning_of_reversed_sections dream context w resp w' :
  interpret_dream World collection_query float_str llm_invoke dream context w
    = Some (resp, w') ->
  PyStr.find "REASONING:" (interpretation resp) <> (-1)%Z ->
  PyStr.find "ALTERNATIVE INTERPRETATIONS:" (interpretation resp) <> (-1)%Z ->
  (PyStr.find "ALTERNATIVE INTERPRETATIONS:" (interpretation resp)
     <= PyStr.find "REASONING:" (interpretation resp))%Z ->
  response_reasoning resp = "".
Proof.
  intros (_ & _ & ->)%agentic_result_fields Hs He Hle.
  by apply synthesis_reasoning_reversed.
Qed.

Lemma invoke_cons node nodes state w final w' :
  invoke World (node :: nodes) state w = Some (final, w') ->
  exists state1 w1, node state w = Some (state1, w1) /\
                    invoke World nodes state1 w1 = Some (final, w').
Proof. cbn [invoke]. apply bind_Some. Qed.

(** The run, stage by stage: the answers of the model and the context
    that the retrieval returned. *)
Lemma agentic_run_unfold dream context w resp w' :
  interpret_dream World collection_query float_str llm_invoke dream context w
    = Some (resp, w') ->
  exists symbols_text w1 ctx srcs a3 w3 a4 w4 a5 w5,
    let s0 := initial_state dream context in
    let s2 :=
      set_retrieved_sources srcs
        (set_research_context ctx
           (set_dream_symbols (parse_symbols symbols_text) s0)) in
    llm_invoke (extract_symbols_messages s0) w = Some (symbols_text, w1) /\
    VectorStoreManager.get_context_for_query collection_query float_str
      (dream +:+ " " +:+ String.concat " " (take 5 (parse_symbols symbols_text)))
      4000 7 = Some (ctx, srcs) /\
    llm_invoke [SystemMessage "You are a scientific dream symbol analyst.";
                HumanMessage (analyze_symbols_prompt s2)] w1 = Some (a3, w3) /\
    llm_invoke [SystemMessage "You are a psychological dream analyst with expertise in contemporary dream research.";
                HumanMessage (psychological_prompt (set_symbol_analysis a3 s2))] w3
      = Some (a4, w4) /\
    llm_invoke [SystemMessage "You are a cultural dream analyst specializing in cross-cultural dream patterns.";
                HumanMessage (cultural_prompt s2)] w4 = Some (a5, w5) /\
    llm_invoke
      (synthesis_messages
         (set_cultural_analysis a5
            (set_psychological_analysis a4 (set_symbol_analysis a3 s2)))) w5
      = Some (interpretation resp, w') /\
    sources_used resp = srcs /\
    response_symbol_analysis resp = a3 /\
    response_psychological_analysis resp = a4 /\
    response_cultural_analysis resp = a5.
Proof.
  unfold interpret_dream.
  intros (final & w6 & Hrun & [<- <-]%ret_Some)%bind_Some.
  unfold workflow, analysis_stages in Hrun. cbn [app] in Hrun.
  apply invoke_cons in Hrun as (s1 & w1 & H1 & Hrun).
  apply invoke_cons in Hrun as (s2 & w2 & H2 & Hrun).
  apply invoke_cons in Hrun as (s3 & w3 & H3 & Hrun).
  apply invoke_cons in Hrun as (s4 & w4 & H4 & Hrun).
  apply invoke_cons in Hrun as (s5 & w5 & H5 & Hrun).
  apply invoke_cons in Hrun as (s6 & w6' & H6 & [<- <-]%ret_Some).
  unfold extract_symbols_agent in H1.
  apply bind_Some in H1 as (symbols_text & w1' & Hllm1 & [<- <-]%ret_Some).
  unfold retrieve_research_agent in H2.
  apply bind_Some in H2 as ([ctx srcs] & w2' & [Hctx ->]%lift_Some & [<- <-]%ret_Some).
  unfold analyze_symbols_agent in H3.
  apply bind_Some in H3 as (a3 & w3' & Hllm3 & [<- <-]%ret_Some).
  unfold psychological_analysis_agent in H4.
  apply bind_Some in H4 as (a4 & w4' & Hllm4 & [<- <-]%ret_Some).
  unfold cultural_analysis_agent in H5.
  apply bind_Some in H5 as (a5 & w5' & Hllm5 & [<- <-]%ret_Some).
  unfold synthesis_agent in H6.
  apply bind_Some in H6 as (synthesis & w6'' & Hllm6 & [<- <-]%ret_Some).
  eexists symbols_text, _, ctx, srcs, a3, _, a4, _, a5, _.
  cbv zeta. split; [exact Hllm1|]. split; [exact Hctx|].
  split; [exact Hllm3|]. split; [exact Hllm4|]. split; [exact Hllm5|].
  split; [exact Hllm6|]. done.
Qed.

(** X17: the sources of an agentic result are the sources of the context
    that the second stage retrieved: the query is the dream text, a
    space, and the first five symbols of the first answer of the model
    joined by spaces; the budget is 4000 tokens and there are seven
    sources at most. *)
Theorem agentic_sources_are_retrieved dream context w resp w' :
  interpret_dream World collection_query float_str llm_invoke dream context w
    = Some (resp, w') ->
  exists symbols_text w1 ctx,
    llm_invoke (extract_symbols_messages (initial_state dream context)) w
      = Some (symbols_text, w1) /\
    VectorStoreManager.get_context_for_query collection_query float_str
      (dream +:+ " " +:+ String.concat " " (take 5 (parse_symbols symbols_text)))
      4000 7 = Some (ctx, sources_used resp) /\
    (length (sources_used resp) <= 7)%nat.
Proof.
  intros (symbols_text & w1 & ctx & srcs & a3 & w3 & a4 & w4 & a5 & w5 & H)
    %agentic_run_unfold.
  cbv zeta in H. destruct H as (H1 & Hctx & _ & _ & _ & _ & -> & _).
  exists symbols_text, w1, ctx. split; [exact H1|]. split; [exact Hctx|].
  apply get_context_unfold in Hctx as [Hs _].
  apply hybrid_search_unfold in Hs as (cands & scored & _ & _ & ->).
  rewrite length_take. lia.
Qed.

(** X18: the three analyses of an agentic result are the answers of the
    model as they came.  The symbol analysis answers the prompt of the
    third stage, built on the state that the retrieval left; the
    psychological analysis answers a prompt that sees the symbol
    analysis; the cultural analysis answers a prompt that sees neither;
    the synthesis is asked with the three of them. *)
Theorem agentic_analyses_are_raw_answers dream context w resp w' :
  interpret_dream World collection_query float_str llm_invoke dream context w
    = Some (resp, w') ->
  exists state w2 w3 w4 w5,
    invoke World
      [extract_symbols_agent World llm_invoke;
       retrieve_research_agent World collection_query float_str]
      (initial_state dream context) w = Some (state, w2) /\
    llm_invoke [SystemMessage "You are a scientific dream symbol analyst.";
                HumanMessage (analyze_symbols_prompt state)] w2
      = Some (response_symbol_analysis resp, w3) /\
    llm_invoke [SystemMessage "You are a psychological dream analyst with expertise in contemporary dream research.";
                HumanMessage
                  (psychological_prompt
                     (set_symbol_analysis (response_symbol_analysis resp) state))] w3
      = Some (response_psychological_analysis resp, w4) /\
    llm_invoke [SystemMessage "You are a cultural dream analyst specializing in cross-cultural dream patterns.";
                HumanMessage (cultural_prompt state)] w4
      = Some (response_cultural_analysis resp, w5) /\
    llm_invoke
      (synthesis_messages
         (set_cultural_analysis (response_cultural_analysis resp)
            (set_psychological_analysis (response_psychological_analysis resp)
               (set_symbol_analysis (response_symbol_analysis resp) state)))) w5
      = Some (interpretation resp, w').
Proof.
  intros (symbols_text & w1 & ctx & srcs & a3 & w3 & a4 & w4 & a5 & w5 & H)
    %agentic_run_unfold.
  cbv zeta in H. destruct H as (H1 & Hctx & H3 & H4 & H5 & H6 & _ & -> & -> & ->).
  eexists _, w1, w3, w4, w5. split.
  { cbn [invoke]. unfold extract_symbols_agent.
    rewrite (bind_Some_2 _ _ _ _ _ (bind_Some_2 _ _ _ _ _ H1)).
    unfold retrieve_research_agent, mbind, M_bind, lift, mret, M_ret.
    cbv beta iota.
    replace (dream_text (append_message _ _)) with dream by reflexivity.
    replace (dream_symbols (append_message _ _)) with (parse_symbols symbols_text)
      by reflexivity.
    rewrite Hctx. reflexivity. }
  split; [exact H3|]. split; [exact H4|]. split; [exact H5|exact H6].
Qed.

End AgenticRuns.

Section AgenticRunExamples.
Import DreamInterpreterAgents Fixtures.

Lemma agentic_defaults_witness :
  interpret_dream (list string) index_ST float_str scripted "I was flying" None
    ["flying, water"; "symbols"; "psyche"; "culture"; "You long for freedom."]
  = Some (agentic_response_free, []) /\
  ((PyStr.contains "%" (interpretation agentic_response_free) = false ->
    response_confidence_score agentic_response_free = 0.7) /\
   (PyStr.contains "REASONING:" (interpretation agentic_response_free) = false \/
    PyStr.contains "ALTERNATIVE INTERPRETATIONS:"
      (interpretation agentic_response_free) = false ->
    response_reasoning agentic_response_free
    = "Synthesized from multiple analytical perspectives") /\
   (Forall (fun line =>
              PyStr.contains "ALTERNATIVE INTERPRETATION" (PyStr.upper line) = false)
      (PyStr.split "010" (interpretation agentic_response_free)) ->
    response_alternative_interpretations agentic_response_free = [])).
Proof.
  split; [run|].
  apply (agentic_defaults (list string) index_ST float_str scripted
           "I was flying" None
           ["flying, water"; "symbols"; "psyche"; "culture"; "You long for freedom."]
           agentic_response_free []).
  run.
Defined.

(** The result for an answer in free form. *)
Example agentic_defaults_of_free_answer :
  interpretation agentic_response_free = "You long for freedom." /\
  response_confidence_score agentic_response_free = 0.7 /\
  response_reasoning agentic_response_free
  = "Synthesized from multiple analytical perspectives" /\
  response_alternative_interpretations agentic_response_free = [].
Proof. repeat split; run. Qed.

Lemma agentic_reasoning_of_reversed_sections_witness :
  interpret_dream (list string) index_ST float_str scripted "I was flying" None
    ["flying, water"; "symbols"; "psyche"; "culture"; reversed_answer]
  = Some (agentic_response_reversed, []) /\
  PyStr.find "REASONING:" (interpretation agentic_response_reversed) <> (-1)%Z /\
  PyStr.find "ALTERNATIVE INTERPRETATIONS:" (interpretation agentic_response_reversed)
    <> (-1)%Z /\
  (PyStr.find "ALTERNATIVE INTERPRETATIONS:" (interpretation agentic_response_reversed)
     <= PyStr.find "REASONING:" (interpretation agentic_response_reversed))%Z /\
  response_reasoning agentic_response_reversed = "".
Proof.
  split; [run|]. split; [vm_compute; congruence|].
  split; [vm_compute; congruence|]. split; [vm_compute; congruence|].
  apply (agentic_reasoning_of_reversed_sections (list string) index_ST float_str
           scripted "I was flying" None
           ["flying, water"; "symbols"; "psyche"; "culture"; reversed_answer]
           agentic_response_reversed []);
    [run|vm_compute; congruence..].
Defined.

Lemma agentic_sources_are_retrieved_witness :
  interpret_dream (list string) index_ST float_str scripted "I was flying" None
    agentic_script = Some (agentic_response, []) /\
  exists symbols_text w1 ctx,
    scripted (extract_symbols_messages (initial_state "I was flying" None))
      agentic_script = Some (symbols_text, w1) /\
    VectorStoreManager.get_context_for_query index_ST float_str
      ("I was flying" +:+ " "
         +:+ String.concat " " (take 5 (parse_symbols symbols_text)))
      4000 7 = Some (ctx, sources_used agentic_response) /\
    (length (sources_used agentic_response) <= 7)%nat.
Proof.
  split; [run|].
  apply (agentic_sources_are_retrieved (list string) index_ST float_str scripted
           "I was flying" None agentic_script agentic_response []).
  run.
Defined.

Lemma agentic_analyses_are_raw_answers_witness :
  interpret_dream (list string) index_ST float_str scripted "I was flying" None
    agentic_script = Some (agentic_response, []) /\
  exists state w2 w3 w4 w5,
    invoke (list string)
      [extract_symbols_agent (list string) scripted;
       retrieve_research_agent (list string) index_ST float_str]
      (initial_state "I was flying" None) agentic_script = Some (state, w2) /\
    scripted [SystemMessage "You are a scientific dream symbol analyst.";
              HumanMessage (analyze_symbols_prompt state)] w2
      = Some (response_symbol_analysis agentic_response, w3) /\
    scripted [SystemMessage "You are a psychological dream analyst with expertise in contemporary dream research.";
              HumanMessage
                (psychological_prompt
                   (set_symbol_analysis (response_symbol_analysis agentic_response)
                      state))] w3
      = Some (response_psychological_analysis agentic_response, w4) /\
    scripted [SystemMessage "You are a cultural dream analyst specializing in cross-cultural dream patterns.";
              HumanMessage (cultural_prompt state)] w4
      = Some (response_cultural_analysis agentic_response, w5) /\
    scripted
      (synthesis_messages
         (set_cultural_analysis (response_cultural_analysis agentic_response)
            (set_psychological_analysis
               (response_psychological_analysis agentic_response)
               (set_symbol_analysis (response_symbol_analysis agentic_response)
                  state)))) w5
      = Some (interpretation agentic_response, []).
Proof.
  split; [run|].
  apply (agentic_analyses_are_raw_answers (list string) index_ST float_str scripted
           "I was flying" None agentic_script agentic_response []).
  run.
Defined.

End AgenticRunExamples.

(** ** document_processor.py: the cleaning of extracted text *)

Section CleanText.
Import PyText DocumentProcessor.
Variable is_digit : N -> bool.

(** a character of the result of [sub_runs] is the space or a character
    of the text that is not of the class *)
Lemma sub_runs_chars cls in_run s :
  Forall (fun c => c = SPACE \/ (cls c = false /\ c ∈ s)) (sub_runs cls in_run s).
Proof.
  revert in_run. induction s as [|c s IH]; intros in_run; cbn [sub_runs];
    [constructor|].
  assert (forall b, Forall (fun c' => c' = SPACE \/ (cls c' = false /\ c' ∈ c :: s))
                      (sub_runs cls b s)) as IH'.
  { intros b. eapply Forall_impl; [apply IH|]. intros x [->|[? ?]]; [by left|].
    right. split; [done|]. by apply list_elem_of_further. }
  destruct (cls c) eqn:E.
  - destruct in_run; [apply IH'|]. constructor; [by left|apply IH'].
  - constructor; [|apply IH']. right. split; [done|]. apply list_elem_of_here.
Qed.

Lemma match_digits_lf_none s :
  LF ∉ s -> match_digits_lf is_digit s = None.
Proof.
  induction s as [|c s IH]; intros H; cbn [match_digits_lf]; [done|].
  destruct (is_digit c); [|done].
  rewrite IH by (intros ?; apply H; by apply list_elem_of_further).
  destruct s as [|c' s]; [done|].
  destruct (N.eqb_spec c' LF) as [->|?]; [|done].
  exfalso. apply H. apply list_elem_of_further, list_elem_of_here.
Qed.

(** without a line feed there is no page number to remove *)
Lemma sub_page_numbers_no_lf s :
  LF ∉ s -> sub_page_numbers is_digit s = s.
Proof.
  unfold sub_page_numbers. induction s as [|c s IH]; intros H;
    cbn [sub_page_numbers_go]; [done|].
  assert (LF ∉ s) as Hs by (intros ?; apply H; by apply list_elem_of_further).
  destruct (N.eqb_spec c LF) as [->|?].
  - exfalso. apply H. apply list_elem_of_here.
  - by rewrite IH.
Qed.

Lemma sub_spaces_no_lf in_run s : LF ∉ sub_runs is_space in_run s.
Proof.
  intros H. pose proof (sub_runs_chars is_space in_run s) as Hc.
  rewrite Forall_forall in Hc. by destruct (Hc LF H) as [?|[? _]].
Qed.

Lemma lstrip_chars (P : N -> Prop) s : Forall P s -> Forall P (lstrip s).
Proof.
  induction 1 as [|c s Hc Hs IH]; cbn [lstrip]; [constructor|].
  destruct (is_space c); [exact IH|by constructor].
Qed.

Lemma rstrip_chars (P : N -> Prop) s : Forall P s -> Forall P (rstrip s).
Proof.
  induction 1 as [|c s Hc Hs IH]; cbn [rstrip]; [constructor|].
  destruct (rstrip s) as [|x rest].
  - destruct (is_space c); repeat constructor; done.
  - by constructor.
Qed.

Lemma lstrip_head s c rest : lstrip s = c :: rest -> is_space c = false.
Proof.
  induction s as [|x s IH]; cbn [lstrip]; [done|].
  destruct (is_space x) eqn:E; [exact IH|]. by intros [= <- _].
Qed.

Lemma rstrip_head s c rest : rstrip s = c :: rest -> exists rest', s = c :: rest'.
Proof.
  destruct s as [|x s]; cbn [rstrip]; [done|].
  destruct (rstrip s) as [|y r].
  - destruct (is_space x); [done|]. intros [= <- _]. by eexists.
  - intros [= <- _]. by eexists.
Qed.

Lemma rstrip_last s front c : rstrip s = front ++ [c] -> is_space c = false.
Proof.
  revert front. induction s as [|x s IH]; intros front; cbn [rstrip].
  - by destruct front.
  - destruct (rstrip s) as [|y r] eqn:E.
    + destruct (is_space x) eqn:Ex; [by destruct front|].
      destruct front as [|? [|? ?]]; simpl; intros [= <-]; done.
    + destruct front as [|z front]; simpl.
      * intros H. discriminate H.
      * intros [= _ H]. by apply (IH front).
Qed.

Lemma clean_text_chars t :
  Forall (fun c => (c < 128)%N /\ (is_space c = true -> c = SPACE))
    (_clean_text is_digit t).
Proof.
  unfold _clean_text, strip. apply rstrip_chars, lstrip_chars.
  eapply Forall_impl; [apply sub_runs_chars|].
  intros c [->|[Hc Hin]]; [split; [done|by intros _]|].
  split; [unfold non_ascii in Hc; by apply N.ltb_ge, N.lt_succ_r in Hc|].
  rewrite sub_page_numbers_no_lf in Hin by apply sub_spaces_no_lf.
  pose proof (sub_runs_chars is_space false t) as Ht.
  rewrite Forall_forall in Ht. destruct (Ht c Hin) as [->|[Hs _]]; [done|].
  intros ?. congruence.
Qed.

(** X19: the cleaned text holds 7-bit characters only; the space is its
    only whitespace, so it holds no line break and no tab; and it neither
    starts nor ends with a space. *)
Theorem clean_text_shape t :
  let out := _clean_text is_digit t in
  Forall (fun c => (c < 128)%N /\ (is_space c = true -> c = SPACE)) out /\
  (forall c rest, out = c :: rest -> is_space c = false) /\
  (forall front c, out = front ++ [c] -> is_space c = false).
Proof.
  intros out. split; [apply clean_text_chars|split].
  - intros c rest H. unfold out, _clean_text, strip in H.
    apply rstrip_head in H as [rest' H]. by apply lstrip_head in H.
  - intros front c H. unfold out, _clean_text, strip in H.
    by apply rstrip_last in H.
Qed.

(** X20: the removal of page numbers never removes anything.  When it
    runs every line break is already a space, so the pattern of a number
    on a line of its own has nothing to match, whatever the table of the
    digits: the cleaned text is the text with the runs of whitespace and
    the runs of characters above 127 each replaced by a space, stripped,
    and a page number stays in it. *)
Theorem clean_text_keeps_page_numbers t :
  sub_page_numbers is_digit (sub_runs is_space false t) = sub_runs is_space false t /\
  _clean_text is_digit t
  = strip (sub_runs non_ascii false (sub_runs is_space false t)).
Proof.
  assert (sub_page_numbers is_digit (sub_runs is_space false t)
          = sub_runs is_space false t) as H
    by apply sub_page_numbers_no_lf, sub_spaces_no_lf.
  split; [exact H|]. unfold _clean_text. by rewrite H.
Qed.

Lemma clean_text_no_lf t : LF ∉ _clean_text is_digit t.
Proof.
  intros H. pose proof (clean_text_chars t) as Hc.
  rewrite Forall_forall in Hc. destruct (Hc LF H) as [_ Hs].
  by specialize (Hs eq_refl).
Qed.

Lemma count_lf_app (a b : text) :
  length (List.filter (N.eqb LF) (a ++ b))
  = (length (List.filter (N.eqb LF) a) + length (List.filter (N.eqb LF) b))%nat.
Proof. by rewrite List.filter_app, length_app. Qed.

Lemma count_lf_none (t : text) :
  LF ∉ t -> length (List.filter (N.eqb LF) t) = 0%nat.
Proof.
  induction t as [|c t IH]; [done|]. intros H. cbn [List.filter].
  destruct (N.eqb_spec LF c) as [<-|_].
  - exfalso. apply H, list_elem_of_here.
  - apply IH. intros ?. by apply H, list_elem_of_further.
Qed.

Lemma count_lf_join (parts : list text) :
  Forall (fun p => LF ∉ p) parts ->
  length (List.filter (N.eqb LF) (join [LF; LF] parts))
  = (2 * (length parts - 1))%nat.
Proof.
  induction 1 as [|p parts Hp Hparts IH]; [done|].
  destruct parts as [|q parts].
  - cbn [join]. by rewrite count_lf_none.
  - change (join [LF; LF] (p :: q :: parts))
      with (p ++ [LF; LF] ++ join [LF; LF] (q :: parts)).
    rewrite !count_lf_app, IH, (count_lf_none p Hp). cbn. lia.
Qed.

Lemma join_cleaned_pages (kept : list text) :
  let text := join [LF; LF] (_clean_text is_digit <$> kept) in
  length (List.filter (N.eqb LF) text) = (2 * (length kept - 1))%nat /\
  (text = [] <->
   kept = [] \/ exists page, kept = [page] /\ _clean_text is_digit page = []).
Proof.
  intros text. unfold text. split.
  - rewrite count_lf_join, length_fmap; [done|].
    apply Forall_fmap, Forall_forall. intros p _. apply clean_text_no_lf.
  - destruct kept as [|p [|q kept]].
    + split; [by left|by intros _].
    + cbn [fmap list_fmap join]. split.
      * intros H. right. by exists p.
      * intros [?|(page & [= <-] & ?)]; done.
    + change (join [LF; LF] (_clean_text is_digit <$> p :: q :: kept))
        with (_clean_text is_digit p ++ [LF; LF]
                ++ join [LF; LF] (_clean_text is_digit <$> q :: kept)).
      split.
      * intros H. apply (f_equal length) in H.
        rewrite !length_app in H. simpl in H. lia.
      * intros [?|(page & ? & _)]; done.
Qed.

(** X28: in the text extracted from a file the line breaks are the page
    breaks, and nothing else.  The text is made of the cleaned texts of
    the pages that have text, joined by two line feeds, so it holds two
    line feeds for every page after the first; it is empty only when no
    page has text or the one page that has text is blank, so that a file
    with two blank pages still yields a text, of two line feeds.  A file
    that cannot be read yields the empty text. *)
Theorem extract_text_page_breaks (pdf_pages : string -> option (list text)) pdf_path :
  let text := extract_text_from_pdf is_digit pdf_pages pdf_path in
  (pdf_pages pdf_path = None -> text = []) /\
  forall pages, pdf_pages pdf_path = Some pages ->
    let kept := List.filter (fun page => negb (bool_decide (page = []))) pages in
    text = join [LF; LF] (_clean_text is_digit <$> kept) /\
    length (List.filter (N.eqb LF) text) = (2 * (length kept - 1))%nat /\
    (text = [] <->
     kept = [] \/ exists page, kept = [page] /\ _clean_text is_digit page = []).
Proof.
  intros text. unfold text, extract_text_from_pdf. split; [by intros ->|].
  intros pages ->. cbv zeta. split; [done|].
  apply (join_cleaned_pages
           (List.filter (fun page => negb (bool_decide (page = []))) pages)).
Qed.

End CleanText.

Section CleanTextExamples.
Import PyText DocumentProcessor Fixtures.

(** The page number 12 between two lines stays in the text; the pattern
    would have removed it from the raw text. *)
Example clean_text_of_page_number :
  _clean_text ascii_digit [97; 10; 49; 50; 10; 98]%N = [97; 32; 49; 50; 32; 98]%N /\
  sub_page_numbers ascii_digit [97; 10; 49; 50; 10; 98]%N = [97; 10; 98]%N.
Proof. split; run. Qed.

(** The character U+00E9 between two spaces leaves three spaces, which a
    second cleaning would collapse. *)
Example clean_text_leaves_double_spaces :
  _clean_text ascii_digit [97; 32; 233; 32; 98]%N = [97; 32; 32; 32; 98]%N /\
  _clean_text ascii_digit [97; 32; 32; 32; 98]%N = [97; 32; 98]%N.
Proof. split; run. Qed.

(** A file of two blank pages yields the text of two line feeds, which
    is not empty. *)
Example extract_text_of_blank_pages :
  extract_text_from_pdf ascii_digit (fun _ => Some [[32]; [9; 10]]%N) "blank.pdf"
  = [10; 10]%N.
Proof. run. Qed.

End CleanTextExamples.

(** ** document_processor.py: chunks and their metadata *)

Section ProcessPdf.
Import PyText DocumentProcessor.
Variable is_digit : N -> bool.
Variable pdf_pages : string -> option (list text).
Variable split_text : text -> list text.
Variable path_name path_stem : string -> string.
Variable glob_pdf : string -> list string.

Abbreviation extract_text_from_pdf' := (extract_text_from_pdf is_digit pdf_pages).
Abbreviation process_pdf' :=
  (process_pdf is_digit pdf_pages split_text path_name path_stem).

Abbreviation default_metadata' := (default_metadata path_name path_stem).

Lemma process_pdf_unfold pdf_path metadata processed_docs :
  extract_text_from_pdf' pdf_path <> [] ->
  process_pdf' pdf_path metadata processed_docs
  = let chunks := split_text (extract_text_from_pdf' pdf_path) in
    let doc_metadata :=
      match metadata with
      | Some m => m ∪ default_metadata' pdf_path
      | None => default_metadata' pdf_path
      end in
    let processed_chunks :=
      imap (fun chunk_idx chunk =>
              {| content := chunk;
                 metadata :=
                   <["total_chunks" :=
                       VectorStoreManager.MNum (inject_Z (Z.of_nat (length chunks)))]>
                   (<["chunk_id" :=
                       VectorStoreManager.MNum (inject_Z (Z.of_nat chunk_idx))]>
                      doc_metadata);
                 doc_id := path_stem pdf_path; chunk_id := Z.of_nat chunk_idx |})
        chunks in
    (processed_chunks, processed_docs ++ processed_chunks).
Proof.
  intros H. unfold process_pdf.
  destruct (extract_text_from_pdf' pdf_path) as [|c t] eqn:E; [done|].
  cbv zeta.
  destruct metadata as [m|]; [|done].
  destruct (bool_decide (m = ∅)) eqn:Em; [|done].
  apply bool_decide_eq_true in Em as ->.
  by rewrite (left_id_L ∅ (∪)).
Qed.

(** X21: the chunks of a file are numbered from 0 in the order of the
    splitter, and the numbering wins over the metadata that the caller
    supplies.  Chunk [i] has the content of piece [i], the stem of the
    file as its document id, [chunk_id] [i] in the record and in its
    metadata, and the number of pieces as [total_chunks]; under any other
    key the metadata holds the value that the caller supplied, or else the
    default (the name of the file as source, the stem, the path, the type
    research_paper).  The chunks are appended to the stored documents. *)
Theorem process_pdf_numbers_chunks pdf_path supplied processed_docs :
  let text := extract_text_from_pdf' pdf_path in
  let chunks := split_text text in
  let result := process_pdf' pdf_path supplied processed_docs in
  text <> [] ->
  content <$> result.1 = chunks /\
  result.2 = processed_docs ++ result.1 /\
  forall i doc, result.1 !! i = Some doc ->
    doc_id doc = path_stem pdf_path /\
    chunk_id doc = Z.of_nat i /\
    metadata doc !! "chunk_id"
      = Some (VectorStoreManager.MNum (inject_Z (Z.of_nat i))) /\
    metadata doc !! "total_chunks"
      = Some (VectorStoreManager.MNum (inject_Z (Z.of_nat (length chunks)))) /\
    forall k, k <> "chunk_id" -> k <> "total_chunks" ->
      metadata doc !! k
      = match supplied ≫= (fun m => m !! k) with
        | Some v => Some v
        | None => default_metadata' pdf_path !! k
        end.
Proof.
  intros text chunks result Htext. unfold result.
  rewrite (process_pdf_unfold _ _ _ Htext). cbv zeta. fold text. fold chunks.
  cbn [fst snd]. split; [|split; [done|]].
  - apply list_eq. intros i. rewrite list_lookup_fmap, list_lookup_imap.
    by destruct (chunks !! i).
  - intros i doc Hdoc. rewrite list_lookup_imap in Hdoc.
    destruct (chunks !! i) as [chunk|]; [|done]. injection Hdoc as <-.
    cbn [doc_id chunk_id metadata]. split; [done|]. split; [done|].
    split; [by rewrite lookup_insert_ne, lookup_insert_eq|].
    split; [by rewrite lookup_insert_eq|].
    intros k Hk1 Hk2. rewrite !lookup_insert_ne by done.
    destruct supplied as [m|]; cbn [mbind option_bind]; [|done].
    rewrite lookup_union. by destruct (m !! k), (default_metadata' pdf_path !! k).
Qed.

Lemma process_pdf_result pdf_path supplied processed_docs :
  process_pdf' pdf_path supplied processed_docs
  = ((process_pdf' pdf_path supplied []).1,
     processed_docs ++ (process_pdf' pdf_path supplied []).1).
Proof.
  unfold process_pdf.
  destruct (extract_text_from_pdf' pdf_path); cbn [fst snd];
    [by rewrite app_nil_r|done].
Qed.

(** X22: the chunks of a directory are the chunks of its files, each
    file processed with the metadata that the map holds under its name,
    in the order of the listing; they are appended to the stored
    documents; and a file that cannot be read, or has no text, adds
    nothing and does not stop the others. *)
Theorem process_directory_concatenates directory metadata_map processed_docs :
  let result :=
    process_directory is_digit pdf_pages split_text path_name path_stem glob_pdf
      directory metadata_map processed_docs in
  result.1
  = concat ((fun pdf_file =>
               (process_pdf' pdf_file (metadata_map ≫= (fun m => m !! path_name pdf_file))
                  []).1) <$> glob_pdf directory) /\
  result.2 = processed_docs ++ result.1 /\
  forall pdf_file supplied docs,
    pdf_pages pdf_file = None \/ pdf_pages pdf_file = Some [] ->
    process_pdf' pdf_file supplied docs = ([], docs).
Proof.
  intros result. unfold result, process_directory.
  set (supplied_for := fun pdf_file : string =>
         match metadata_map with
         | Some m => m !! path_name pdf_file
         | None => None
         end).
  assert (forall files docs,
            process_files is_digit pdf_pages split_text path_name path_stem
              files metadata_map docs
            = (concat ((fun f => (process_pdf' f (supplied_for f) []).1) <$> files),
               docs ++ concat ((fun f => (process_pdf' f (supplied_for f) []).1)
                                 <$> files))) as Hfiles.
  { induction files as [|f files IH]; intros docs; cbn [process_files].
    - by rewrite app_nil_r.
    - fold (supplied_for f). rewrite (process_pdf_result f _ docs), IH.
      cbn [fmap list_fmap concat]. by rewrite app_assoc. }
  rewrite Hfiles. cbn [fst snd].
  split; [|split; [done|]].
  - reflexivity.
  - intros f supplied docs H. unfold process_pdf, extract_text_from_pdf.
    by destruct H as [-> | ->].
Qed.

End ProcessPdf.

Section ProcessPdfExamples.
Import DocumentProcessor Fixtures.

Lemma process_pdf_numbers_chunks_witness :
  extract_text_from_pdf ascii_digit pdf_pages "docs/paper.pdf" <> [] /\
  content <$> paper_chunks
  = split_text (extract_text_from_pdf ascii_digit pdf_pages "docs/paper.pdf") /\
  (process_pdf ascii_digit pdf_pages split_text path_name path_stem
     "docs/paper.pdf" (Some paper_metadata) []).2 = [] ++ paper_chunks /\
  forall i doc, paper_chunks !! i = Some doc ->
    doc_id doc = path_stem "docs/paper.pdf" /\
    chunk_id doc = Z.of_nat i /\
    metadata doc !! "chunk_id"
      = Some (VectorStoreManager.MNum (inject_Z (Z.of_nat i))) /\
    metadata doc !! "total_chunks"
      = Some (VectorStoreManager.MNum
                (inject_Z (Z.of_nat
                   (length (split_text
                      (extract_text_from_pdf ascii_digit pdf_pages "docs/paper.pdf")))))) /\
    forall k, k <> "chunk_id" -> k <> "total_chunks" ->
      metadata doc !! k
      = match Some paper_metadata ≫= (fun m => m !! k) with
        | Some v => Some v
        | None => default_metadata path_name path_stem "docs/paper.pdf" !! k
        end.
Proof.
  assert (extract_text_from_pdf ascii_digit pdf_pages "docs/paper.pdf" <> []) as H
    by (vm_compute; congruence).
  split; [exact H|].
  apply (process_pdf_numbers_chunks ascii_digit pdf_pages split_text path_name
           path_stem "docs/paper.pdf" (Some paper_metadata) [] H).
Defined.

(** On paper.pdf the text ab, two line feeds, cd is cut into two pieces;
    the source that the caller supplied is kept, the chunk number 7 that
    the caller supplied is not. *)
Example process_pdf_of_paper :
  content <$> paper_chunks = [[97; 98; 10]; [10; 99; 100]]%N /\
  chunk_id <$> paper_chunks = [0; 1]%Z /\
  (fun doc => metadata doc !! "chunk_id") <$> paper_chunks
  = [Some (VectorStoreManager.MNum (inject_Z 0));
     Some (VectorStoreManager.MNum (inject_Z 1))] /\
  (fun doc => metadata doc !! "source") <$> paper_chunks
  = [Some (VectorStoreManager.MStr "Solms 2021");
     Some (VectorStoreManager.MStr "Solms 2021")] /\
  (fun doc => metadata doc !! "doc_id") <$> paper_chunks
  = [Some (VectorStoreManager.MStr "paper"); Some (VectorStoreManager.MStr "paper")].
Proof. repeat split; run. Qed.

(** In the folder scan.pdf cannot be read and paper.pdf is processed all
    the same. *)
Example process_directory_of_docs :
  (process_directory ascii_digit pdf_pages split_text path_name path_stem glob_pdf
     "docs" None []).1
  = (process_pdf ascii_digit pdf_pages split_text path_name path_stem
       "docs/paper.pdf" None []).1 /\
  length (process_directory ascii_digit pdf_pages split_text path_name path_stem
            glob_pdf "docs" None []).1 = 2%nat.
Proof. split; run. Qed.

End ProcessPdfExamples.

(** ** vector_store.py: what add_documents sends to the collection *)

Section AddDocuments.
Import VectorStoreAdmin.

Lemma range_step_batches {A : Type} (n : nat) (l : list A) :
  (0 < n)%nat ->
  concat ((fun i => slice i n l) <$> PyText.range_step (length l) n) = l.
Proof.
  intros Hn. unfold PyText.range_step. rewrite <- list_fmap_compose.
  assert (length l <= (length l + n - 1) / n * n)%nat as Hlen.
  { pose proof (Nat.div_mod (length l + n - 1) n ltac:(lia)) as Hd.
    pose proof (Nat.mod_upper_bound (length l + n - 1) n ltac:(lia)). nia. }
  revert Hlen. generalize ((length l + n - 1) / n)%nat. intros m. revert l.
  induction m as [|m IH]; intros l Hlen.
  - destruct l; [done|]. simpl in Hlen. lia.
  - cbn [seq fmap list_fmap concat compose]. unfold slice at 1.
    rewrite Nat.mul_0_l, drop_0.
    assert (concat ((fun i => slice i n l) ∘ (fun k => (k * n)%nat) <$> seq 1 m)
            = drop n l) as ->; [|apply take_drop].
    rewrite <- fmap_S_seq, <- list_fmap_compose.
    etrans; [|apply (IH (drop n l)); rewrite length_drop; lia].
    f_equal. apply list_fmap_ext. intros _ k _. unfold compose, slice.
    rewrite drop_drop. do 2 f_equal; lia.
Qed.

Lemma range_step_elem i stop n :
  (0 < n)%nat -> i ∈ PyText.range_step stop n -> (i < stop)%nat.
Proof.
  intros Hn. unfold PyText.range_step.
  intros (k & -> & Hk%elem_of_seq)%list_elem_of_fmap.
  pose proof (Nat.div_mod (stop + n - 1) n ltac:(lia)) as Hd.
  pose proof (Nat.mod_upper_bound (stop + n - 1) n ltac:(lia)). nia.
Qed.

(** X23: the documents reach the collection in batches of 100.  The
    calls of [collection.add], taken together and in their order, carry
    the id, the text and the metadata of every document once and in the
    order of the list; every call carries between 1 and 100 documents,
    with as many texts and metadatas as ids; there are as many calls as
    the hundreds that the list begins, and none for the empty list. *)
Theorem add_documents_batches documents :
  let calls := add_documents documents in
  concat (batch_ids <$> calls) = chunk_key <$> documents /\
  concat (batch_texts <$> calls) = DocumentProcessor.content <$> documents /\
  concat (batch_metadatas <$> calls) = DocumentProcessor.metadata <$> documents /\
  Forall (fun call =>
            (1 <= length (batch_ids call) <= 100)%nat /\
            length (batch_texts call) = length (batch_ids call) /\
            length (batch_metadatas call) = length (batch_ids call)) calls /\
  length calls = ((length documents + 99) / 100)%nat.
Proof.
  intros calls. unfold calls, add_documents.
  destruct documents as [|doc documents]; [by repeat split|].
  set (docs := doc :: documents).
  rewrite <- !list_fmap_compose.
  assert (length (chunk_key <$> docs) = length docs) as Hl by apply length_fmap.
  split; [|split; [|split; [|split]]].
  - apply (range_step_batches 100 (chunk_key <$> docs)). lia.
  - rewrite Hl, <- (length_fmap DocumentProcessor.content docs).
    apply (range_step_batches 100 (DocumentProcessor.content <$> docs)). lia.
  - rewrite Hl, <- (length_fmap DocumentProcessor.metadata docs).
    apply (range_step_batches 100 (DocumentProcessor.metadata <$> docs)). lia.
  - apply Forall_fmap, Forall_forall. intros i Hi%range_step_elem; [|lia].
    cbn [compose batch_ids batch_texts batch_metadatas]. unfold slice.
    rewrite !length_take, !length_drop, !length_fmap in *. lia.
  - rewrite length_fmap. unfold PyText.range_step.
    rewrite length_fmap, length_seq, Hl. f_equal. lia.
Qed.

Lemma string_of_uint_no_underscore d :
  PyStr.contains "_" (NilEmpty.string_of_uint d) = false.
Proof. induction d; simpl; done. Qed.

Lemma of_nat_inj n m : PyStr.of_nat n = PyStr.of_nat m -> n = m.
Proof.
  unfold PyStr.of_nat. intros H.
  apply (f_equal NilEmpty.uint_of_string) in H.
  rewrite !NilEmpty.usu in H. injection H as H.
  by apply Unsigned.to_uint_inj.
Qed.

Lemma of_nat_not_minus n s : PyStr.of_nat n <> String "-" s.
Proof.
  unfold PyStr.of_nat. intros H.
  apply (f_equal NilEmpty.uint_of_string) in H.
  rewrite NilEmpty.usu in H. simpl in H. by destruct (NilEmpty.uint_of_string s).
Qed.

Lemma of_int_inj a b : PyText.of_int a = PyText.of_int b -> a = b.
Proof.
  unfold PyText.of_int.
  destruct (Z.ltb_spec a 0) as [Ha|Ha], (Z.ltb_spec b 0) as [Hb|Hb]; intros H.
  - injection H as H'. apply of_nat_inj in H'. lia.
  - symmetry in H. by apply of_nat_not_minus in H.
  - by apply of_nat_not_minus in H.
  - apply of_nat_inj in H. lia.
Qed.

Lemma of_int_no_underscore z : PyStr.contains "_" (PyText.of_int z) = false.
Proof.
  unfold PyText.of_int, PyStr.of_nat.
  destruct (z <? 0)%Z; [|apply string_of_uint_no_underscore].
  rewrite string_app_cons, string_app_nil_l. cbn [PyStr.contains PyStr.starts_with].
  apply string_of_uint_no_underscore.
Qed.

(** a string is cut in one way only at its last underscore *)
Lemma split_at_last_underscore a b x y :
  PyStr.contains "_" x = false -> PyStr.contains "_" y = false ->
  a +:+ String "_" x = b +:+ String "_" y -> a = b /\ x = y.
Proof.
  intros Hx Hy. revert b. induction a as [|c a IH]; intros [|c' b];
    rewrite ?string_app_cons, ?string_app_nil_l.
  - by intros [= ->].
  - intros [= <- ->]. exfalso.
    rewrite (contains_suffix "_" b (String "_" y)) in Hx; done.
  - intros [= -> <-]. exfalso.
    rewrite (contains_suffix "_" a (String "_" x)) in Hy; done.
  - intros [= -> H]. destruct (IH _ H) as [-> ->]. done.
Qed.

Lemma string_app_inj_r a b c : a +:+ c = b +:+ c -> a = b.
Proof.
  intros H.
  assert (String.length a = String.length b) as Hl.
  { apply (f_equal String.length) in H. rewrite !string_length_app in H. lia. }
  revert b H Hl. induction a as [|x a IH]; intros [|y b] H Hl; try done.
  rewrite !string_app_cons in H. injection H as -> H. f_equal.
  apply IH; [done|]. simpl in Hl. lia.
Qed.

Lemma chunk_key_inj doc1 doc2 :
  chunk_key doc1 = chunk_key doc2 ->
  DocumentProcessor.doc_id doc1 = DocumentProcessor.doc_id doc2 /\
  DocumentProcessor.chunk_id doc1 = DocumentProcessor.chunk_id doc2.
Proof.
  unfold chunk_key.
  replace "_chunk_" with ("_chunk" +:+ "_") by reflexivity.
  rewrite !string_app_assoc, <- !(string_app_assoc _ "_chunk").
  rewrite !string_app_cons, !string_app_nil_l.
  intros [H1 H2]%split_at_last_underscore; try apply of_int_no_underscore.
  split; [by apply string_app_inj_r in H1|by apply of_int_inj].
Qed.

(** X24: the id of a chunk in the collection, the document id, _chunk_
    and the chunk number, names the chunk: two chunks have the same id
    exactly when they have the same document id and the same chunk
    number, whatever characters the document id holds. *)
Theorem chunk_key_injective doc1 doc2 :
  chunk_key doc1 = chunk_key doc2 <->
  DocumentProcessor.doc_id doc1 = DocumentProcessor.doc_id doc2 /\
  DocumentProcessor.chunk_id doc1 = DocumentProcessor.chunk_id doc2.
Proof.
  split; [apply chunk_key_inj|].
  unfold chunk_key. by intros [-> ->].
Qed.

End AddDocuments.

Section ChunkKeys.
Import PyText DocumentProcessor.
Variable is_digit : N -> bool.
Variable pdf_pages : string -> option (list text).
Variable split_text : text -> list text.
Variable path_name path_stem : string -> string.

Lemma process_pdf_lookup pdf_path supplied processed_docs i doc :
  (process_pdf is_digit pdf_pages split_text path_name path_stem
     pdf_path supplied processed_docs).1 !! i = Some doc ->
  doc_id doc = path_stem pdf_path /\ chunk_id doc = Z.of_nat i.
Proof.
  unfold process_pdf.
  destruct (extract_text_from_pdf is_digit pdf_pages pdf_path) as [|c t];
    cbn [fst]; [done|].
  rewrite list_lookup_imap. destruct (split_text (c :: t) !! i); [|done].
  by intros [= <-].
Qed.

(** X25: the ids under which the chunks of a file reach the collection
    are the stem of the file, _chunk_ and the numbers from 0: they differ
    from one another, and a chunk of another file has the id of one of
    them exactly when the two files have the same stem and the chunks the
    same number. *)
Theorem process_pdf_chunk_keys pdf_path supplied processed_docs :
  let chunks :=
    (process_pdf is_digit pdf_pages split_text path_name path_stem
       pdf_path supplied processed_docs).1 in
  NoDup (VectorStoreAdmin.chunk_key <$> chunks) /\
  (forall i doc, chunks !! i = Some doc ->
     VectorStoreAdmin.chunk_key doc
     = path_stem pdf_path +:+ "_chunk_" +:+ PyStr.of_nat i) /\
  forall other supplied' docs' i j doc doc',
    chunks !! i = Some doc ->
    (process_pdf is_digit pdf_pages split_text path_name path_stem
       other supplied' docs').1 !! j = Some doc' ->
    (VectorStoreAdmin.chunk_key doc = VectorStoreAdmin.chunk_key doc' <->
     path_stem pdf_path = path_stem other /\ i = j).
Proof.
  intros chunks. split; [|split].
  - apply NoDup_alt. intros i j key.
    rewrite !list_lookup_fmap.
    destruct (chunks !! i) as [doc|] eqn:Ei; [|done].
    destruct (chunks !! j) as [doc'|] eqn:Ej; [|done].
    cbn. intros [= <-] [= H].
    apply chunk_key_inj in H as [_ H].
    apply process_pdf_lookup in Ei as [_ Hi], Ej as [_ Hj]. lia.
  - intros i doc [Hd Hc]%process_pdf_lookup.
    unfold VectorStoreAdmin.chunk_key, of_int. rewrite Hd, Hc.
    destruct (Z.ltb_spec (Z.of_nat i) 0); [lia|]. by rewrite Nat2Z.id.
  - intros other supplied' docs' i j doc doc'
      [Hd Hc]%process_pdf_lookup [Hd' Hc']%process_pdf_lookup.
    split.
    + intros [H1 H2]%chunk_key_inj. rewrite Hd, Hd' in H1. split; [done|lia].
    + intros [H1 ->]. unfold VectorStoreAdmin.chunk_key. by rewrite Hd, Hd', Hc, Hc', H1.
Qed.

End ChunkKeys.

(** ** vector_store.py: the statistics of the collection *)

Section GetStats.
Import VectorStoreManager VectorStoreAdmin.

Lemma mvalue_eqb_refl a : mvalue_eqb a a = true.
Proof. destruct a; simpl; [apply String.eqb_refl|apply Qeq_bool_refl]. Qed.

Lemma mvalue_eqb_sym a b : mvalue_eqb a b = mvalue_eqb b a.
Proof.
  destruct a, b; simpl; try done; [apply String.eqb_sym|].
  destruct (Qeq_bool x x0) eqn:E, (Qeq_bool x0 x) eqn:E'; try done.
  - apply Qeq_bool_eq in E. symmetry in E. apply Qeq_eq_bool in E. congruence.
  - apply Qeq_bool_eq in E'. symmetry in E'. apply Qeq_eq_bool in E'. congruence.
Qed.

Lemma mvalue_eqb_trans a b c :
  mvalue_eqb a b = true -> mvalue_eqb a c = mvalue_eqb b c.
Proof.
  destruct a, b; simpl; try done.
  - by intros ->%String.eqb_eq.
  - intros H%Qeq_bool_eq. destruct c; [done|].
    destruct (Qeq_bool x x1) eqn:E, (Qeq_bool x0 x1) eqn:E'; try done.
    + apply Qeq_bool_eq in E. rewrite H in E. apply Qeq_eq_bool in E. congruence.
    + apply Qeq_bool_eq in E'. rewrite <- H in E'. apply Qeq_eq_bool in E'. congruence.
Qed.

(** the category and the source under which an entry of the sample is
    counted *)
Abbreviation category_of md := (default (MStr "unknown") (md !! "category")).
Abbreviation source_of md := (default (MStr "Unknown") (md !! "source")).

(** the number of entries of the sample whose category equals [k] *)
Abbreviation counted k sample :=
  (length (List.filter (fun md => mvalue_eqb k (category_of md)) sample)).

(** the count that a dict holds under the keys equal to [c] *)
Abbreviation held c cats :=
  (sum_list (snd <$> List.filter (fun kv : mvalue * nat => mvalue_eqb kv.1 c) cats)).

(** no two entries of a dict have equal keys *)
Abbreviation distinct_keys cats :=
  (forall i j (kv kv' : mvalue * nat), cats !! i = Some kv -> cats !! j = Some kv' ->
     mvalue_eqb kv.1 kv'.1 = true -> i = j).

Lemma held_cons c (kv : mvalue * nat) cats :
  held c (kv :: cats)
  = ((if mvalue_eqb kv.1 c then kv.2 else 0) + held c cats)%nat.
Proof. cbn [List.filter]. destruct (mvalue_eqb kv.1 c); reflexivity. Qed.

Lemma count_category_held c k cats :
  held c (count_category k cats)
  = (held c cats + (if mvalue_eqb k c then 1 else 0))%nat.
Proof.
  induction cats as [|[k0 v] cats IH]; cbn [count_category].
  - cbn. destruct (mvalue_eqb k c); simpl; lia.
  - destruct (mvalue_eqb k0 k) eqn:E.
    + rewrite !held_cons. cbn [fst snd]. rewrite <- (mvalue_eqb_trans _ _ c E).
      destruct (mvalue_eqb k0 c); lia.
    + rewrite !held_cons, IH. lia.
Qed.

Lemma sum_counts_cons (kv : mvalue * nat) cats :
  sum_list (snd <$> kv :: cats) = (kv.2 + sum_list (snd <$> cats))%nat.
Proof. reflexivity. Qed.

Lemma count_category_sum k cats :
  sum_list (snd <$> count_category k cats) = S (sum_list (snd <$> cats)).
Proof.
  induction cats as [|[k0 v] cats IH]; cbn [count_category]; [done|].
  destruct (mvalue_eqb k0 k); rewrite !sum_counts_cons; [simpl; lia|].
  rewrite IH. lia.
Qed.

Lemma count_category_keys k cats kv i :
  count_category k cats !! i = Some kv ->
  (exists v, cats !! i = Some (kv.1, v)) \/
  (kv.1 = k /\ i = length cats /\ Forall (fun kv' => mvalue_eqb kv'.1 k = false) cats).
Proof.
  revert i. induction cats as [|[k0 v] cats IH]; intros i; cbn [count_category].
  - destruct i; [|done]. intros [= <-]. right. by repeat split.
  - destruct (mvalue_eqb k0 k) eqn:E.
    + destruct i; simpl; [intros [= <-]; left; by eexists|].
      intros H. left. destruct kv. by eexists.
    + destruct i; simpl; [intros [= <-]; left; by eexists|].
      intros [H|(? & -> & ?)]%IH; [by left|]. right. repeat split; [done|].
      constructor; done.
Qed.

Lemma count_category_distinct k cats :
  distinct_keys cats -> distinct_keys (count_category k cats).
Proof.
  intros Hd i j kv kv' Hi Hj He.
  apply count_category_keys in Hi as [[v Hi]|(Hk & -> & Hall)],
        Hj as [[v' Hj]|(Hk' & -> & Hall')].
  - by apply (Hd i j _ _ Hi Hj).
  - exfalso. rewrite Forall_forall in Hall'.
    specialize (Hall' _ (list_elem_of_lookup_2 _ _ _ Hi)). simpl in Hall'.
    rewrite Hk' in He. congruence.
  - exfalso. rewrite Forall_forall in Hall.
    specialize (Hall _ (list_elem_of_lookup_2 _ _ _ Hj)). simpl in Hall.
    rewrite Hk, mvalue_eqb_sym in He. congruence.
  - done.
Qed.

Lemma filter_keys_nil k (cats : list (mvalue * nat)) :
  Forall (fun kv => mvalue_eqb kv.1 k = false) cats ->
  List.filter (fun kv : mvalue * nat => mvalue_eqb kv.1 k) cats = [].
Proof.
  induction 1 as [|kv cats Hkv _ IH]; [done|].
  cbn [List.filter]. by rewrite Hkv.
Qed.

Lemma held_of_key cats i k v :
  distinct_keys cats -> cats !! i = Some (k, v) -> held k cats = v.
Proof.
  revert i. induction cats as [|[k0 v0] cats IH]; intros i Hd Hi; [done|].
  rewrite held_cons. cbn [fst snd].
  assert (distinct_keys cats) as Hd'.
  { intros a b kv kv' Ha Hb He. by injection (Hd (S a) (S b) kv kv' Ha Hb He). }
  destruct i as [|i]; simpl in Hi.
  - injection Hi as -> ->. rewrite mvalue_eqb_refl.
    rewrite filter_keys_nil; [simpl; lia|].
    apply Forall_forall. intros kv' [j Hj]%list_elem_of_lookup.
    destruct (mvalue_eqb kv'.1 k) eqn:E; [|done].
    rewrite mvalue_eqb_sym in E.
    by specialize (Hd 0%nat (S j) (k, v) kv' eq_refl Hj E).
  - destruct (mvalue_eqb k0 k) eqn:E.
    + by specialize (Hd 0%nat (S i) (k0, v0) (k, v) eq_refl Hi E).
    + by apply (IH i).
Qed.

Lemma add_source_length source sources :
  (length sources <= length (add_source source sources) <= S (length sources))%nat /\
  (1 <= length (add_source source sources))%nat.
Proof.
  unfold add_source. destruct (existsb _ sources) eqn:E.
  - split; [lia|]. destruct sources; [done|simpl; lia].
  - rewrite length_app. simpl. lia.
Qed.

Lemma count_category_positive k cats :
  Forall (fun kv : mvalue * nat => (1 <= kv.2)%nat) cats ->
  Forall (fun kv : mvalue * nat => (1 <= kv.2)%nat) (count_category k cats).
Proof.
  induction 1 as [|[k0 v] cats Hkv Hcats IH]; cbn [count_category].
  - by repeat constructor.
  - destruct (mvalue_eqb k0 k); constructor; try done. simpl. lia.
Qed.

Lemma held_positive c (cats : list (mvalue * nat)) :
  (1 <= held c cats)%nat -> exists kv, kv ∈ cats /\ mvalue_eqb kv.1 c = true.
Proof.
  induction cats as [|kv cats IH]; [simpl; lia|].
  rewrite held_cons. destruct (mvalue_eqb kv.1 c) eqn:E.
  - intros _. exists kv. split; [apply list_elem_of_here|done].
  - intros H. destruct IH as (kv' & Hin & He); [lia|].
    exists kv'. split; [by apply list_elem_of_further|done].
Qed.

Lemma counted_positive md (sample : list metadata_dict) :
  md ∈ sample -> (1 <= counted (category_of md) sample)%nat.
Proof.
  induction 1 as [md sample|md md' sample Hin IH]; cbn [List.filter].
  - rewrite mvalue_eqb_refl. simpl. lia.
  - destruct (mvalue_eqb _ _); simpl; lia.
Qed.

Section Stats.
Variable collection_count : nat.
Variable collection_get : nat -> list metadata_dict.
Variable provider : string.

Lemma count_sample_inv sample cats sources :
  distinct_keys cats ->
  Forall (fun kv : mvalue * nat => (1 <= kv.2)%nat) cats ->
  let result := count_sample sample (cats, sources) in
  distinct_keys result.1 /\
  Forall (fun kv : mvalue * nat => (1 <= kv.2)%nat) result.1 /\
  sum_list (snd <$> result.1) = (sum_list (snd <$> cats) + length sample)%nat /\
  (forall c, held c result.1 = (held c cats + counted c sample)%nat) /\
  (length sources <= length result.2 <= length sources + length sample)%nat /\
  (sample <> [] -> 1 <= length result.2)%nat.
Proof.
  revert cats sources.
  induction sample as [|md sample IH]; intros cats sources Hd Hpos;
    cbn [count_sample].
  - cbn [fst snd length List.filter]. repeat split; try done; lia.
  - cbn [fst snd].
    destruct (IH (count_category (category_of md) cats)
                (add_source (source_of md) sources)
                (count_category_distinct _ _ Hd)
                (count_category_positive _ _ Hpos))
      as (Hd1 & Hpos1 & Hsum & Hheld & Hlen & _).
    pose proof (add_source_length (source_of md) sources) as [Hs1 Hs2].
    split; [exact Hd1|]. split; [exact Hpos1|]. split; [|split; [|split]].
    + rewrite Hsum, count_category_sum. cbn [length]. lia.
    + intros c. rewrite Hheld, count_category_held. cbn [List.filter].
      rewrite (mvalue_eqb_sym c). destruct (mvalue_eqb _ c); simpl; lia.
    + cbn [length]. lia.
    + intros _. lia.
Qed.

(** X26: the statistics count every entry of the sample once.  The dict
    of the categories has one entry for each category of the sample and
    no two entries for one category; the count of a category is the
    number of entries of the sample of that category (the category
    unknown for an entry without one), so the counts add up to the size
    of the sample; the number of unique sources is at least 1 for a sample
    that is not empty and at most the size of the sample; and the total
    is the count of the collection, whatever the sample holds. *)
Theorem get_stats_counts :
  let stats := get_stats collection_count collection_get provider in
  let sample := collection_get collection_count in
  total_chunks stats = collection_count /\
  distinct_keys (categories stats) /\
  sum_list (snd <$> categories stats) = length sample /\
  Forall (fun kv => kv.2 = counted kv.1 sample /\ (1 <= kv.2)%nat) (categories stats) /\
  (forall md, md ∈ sample ->
     exists kv, kv ∈ categories stats /\ mvalue_eqb kv.1 (category_of md) = true) /\
  (unique_sources stats <= length sample)%nat /\
  (sample <> [] -> 1 <= unique_sources stats)%nat.
Proof.
  intros stats sample. unfold stats, get_stats. fold sample.
  pose proof (count_sample_inv sample [] []) as H. cbv zeta in H.
  destruct H as (Hd & Hpos & Hsum & Hheld & Hlen & Hne);
    [by intros [] |constructor|].
  destruct (count_sample sample ([], [])) as [cats sources].
  cbn [fst snd total_chunks unique_sources categories] in *.
  split; [done|]. split; [exact Hd|]. split; [exact Hsum|].
  split; [|split; [|split; [simpl in Hlen; lia|exact Hne]]].
  - apply Forall_forall. intros [k v] Hin. cbn [fst snd]. split.
    + apply list_elem_of_lookup in Hin as [i Hi].
      rewrite <- (held_of_key cats i k v Hd Hi), Hheld. done.
    + rewrite Forall_forall in Hpos. apply (Hpos _ Hin).
  - intros md Hmd. apply held_positive. rewrite Hheld.
    pose proof (counted_positive md sample Hmd). simpl. lia.
Qed.
End Stats.
End GetStats.

Section GetStatsExamples.
Import VectorStoreManager VectorStoreAdmin Fixtures.

(** The statistics of three chunks, one of them without a category. *)
Example get_stats_of_sample :
  get_stats 3 sample_metadatas "huggingface"
  = {| total_chunks := 3; unique_sources := 2;
       categories := [(MStr "clinical", 2%nat); (MStr "unknown", 1%nat)];
       embedding_provider := "huggingface" |}.
Proof. run. Qed.

End GetStatsExamples.

(** ** ragas_evaluation.py: the simplified metrics *)

Section SimpleMetrics.
Import RAGEvaluator.

Lemma relevancy_score_bounds result :
  0 <= relevancy_score result <= 1.
Proof.
  unfold relevancy_score, py_min.
  set (gen := words (generated_interpretation result)).
  set (truth := words (ground_truth result)).
  destruct (bool_decide (truth = ∅)) eqn:E.
  - replace (Qle_bool 0 1) with true by reflexivity. split; [apply Qle_refl|done].
  - destruct (Qle_bool _ 1) eqn:E1; [|split; done].
    split; [|by apply Qle_bool_iff].
    apply Qle_shift_div_l.
    + apply bool_decide_eq_false in E.
      assert (size truth <> 0%nat) as Hs by (by intros ?%size_empty_inv%leibniz_equiv).
      unfold Qlt. simpl. lia.
    + rewrite Qmult_0_l. unfold Qle. simpl. lia.
Qed.

(** the overlap never exceeds 1: [min] leaves it as it is *)
Lemma relevancy_score_overlap result :
  words (ground_truth result) <> ∅ ->
  relevancy_score result
  == inject_Z (Z.of_nat (size (words (generated_interpretation result)
                                 ∩ words (ground_truth result))))
     / inject_Z (Z.of_nat (size (words (ground_truth result)))).
Proof.
  intros Hne. unfold relevancy_score, py_min.
  set (gen := words (generated_interpretation result)) in *.
  set (truth := words (ground_truth result)) in *.
  rewrite bool_decide_eq_false_2 by done.
  assert (size truth <> 0%nat) as Hs by (by intros ?%size_empty_inv%leibniz_equiv).
  assert (size (gen ∩ truth) <= size truth)%nat as Hle
    by apply subseteq_size, intersection_subseteq_r.
  destruct (Qle_bool _ 1) eqn:E1; [reflexivity|].
  exfalso. apply not_true_iff_false in E1. apply E1, Qle_bool_iff.
  apply Qle_shift_div_r; [unfold Qlt; simpl; lia|].
  rewrite Qmult_1_l. unfold Qle. simpl. lia.
Qed.

Lemma Qsum_bounds (l : list Q) :
  Forall (fun x => 0 <= x <= 1) l ->
  0 <= Qsum l <= inject_Z (Z.of_nat (length l)).
Proof.
  induction 1 as [|x l [Hx0 Hx1] _ [IH0 IH1]].
  - split; apply Qle_refl.
  - cbn [Qsum foldr length]. fold (Qsum l).
    rewrite Nat2Z.inj_succ, <- Z.add_1_l, inject_Z_plus.
    change (inject_Z 1) with 1.
    set (n := inject_Z (Z.of_nat (length l))) in *. split; lra.
Qed.

Lemma Qsum_ones (l : list Q) :
  Forall (fun x => x == 1) l -> Qsum l == inject_Z (Z.of_nat (length l)).
Proof.
  induction 1 as [|x l Hx _ IH].
  - reflexivity.
  - cbn [Qsum foldr length]. fold (Qsum l).
    rewrite Nat2Z.inj_succ, <- Z.add_1_l, inject_Z_plus, Hx, IH. reflexivity.
Qed.

(** X27: the simplified metrics divide by the number of results, so
    they raise (ZeroDivisionError) exactly for the empty list of results.
    For any other list the number of tests is the number of results and
    the keyword overlap lies between 0 and 1: it is 1 when every ground
    truth has words and all of them occur in the generated text, letter
    case apart, and 0 when no ground truth has a word. *)
Theorem simple_metrics_bounds results :
  (_calculate_simple_metrics results = None <-> results = []) /\
  forall metrics, _calculate_simple_metrics results = Some metrics ->
    total_tests metrics = length results /\
    0 <= keyword_overlap_score metrics <= 1 /\
    (Forall (fun result =>
               words (ground_truth result) <> ∅ /\
               words (ground_truth result) ⊆ words (generated_interpretation result))
       results ->
     keyword_overlap_score metrics == 1) /\
    (Forall (fun result => words (ground_truth result) = ∅) results ->
     keyword_overlap_score metrics == 0).
Proof.
  split.
  - destruct results; [done|]. split; intros; done.
  - intros metrics H. destruct results as [|r results]; [done|].
    set (rs := r :: results) in *. unfold _calculate_simple_metrics in H.
    injection H as <-. cbn [total_tests keyword_overlap_score].
    rewrite length_fmap.
    assert (0 < inject_Z (Z.of_nat (length rs))) as Hn.
    { unfold Qlt. simpl. lia. }
    split; [done|]. split; [|split].
    + pose proof (Qsum_bounds (relevancy_score <$> rs)) as [H0 H1].
      { apply Forall_fmap, Forall_forall. intros x _. apply relevancy_score_bounds. }
      rewrite length_fmap in H1. split.
      * apply Qle_shift_div_l; [done|]. by rewrite Qmult_0_l.
      * apply Qle_shift_div_r; [done|]. by rewrite Qmult_1_l.
    + intros Hall.
      assert (Qsum (relevancy_score <$> rs) == inject_Z (Z.of_nat (length rs))) as Hs.
      { rewrite <- (length_fmap relevancy_score rs). apply Qsum_ones.
        apply Forall_fmap. eapply Forall_impl; [exact Hall|].
        intros x [Hne Hsub]. cbn.
        eapply Qeq_trans; [apply (relevancy_score_overlap x Hne)|].
        rewrite (comm_L (∩)), (subseteq_intersection_1_L _ _ Hsub).
        assert (size (words (ground_truth x)) <> 0%nat) as Hsz
          by (by intros ?%size_empty_inv%leibniz_equiv).
        field. intros Hz. unfold Qeq in Hz. simpl in Hz. lia. }
      eapply Qeq_trans; [apply Qdiv_comp; [exact Hs|reflexivity]|].
      unfold Qdiv. apply Qmult_inv_r, Qnot_eq_sym, Qlt_not_eq, Hn.
    + intros Hall.
      assert (Qsum (relevancy_score <$> rs) == 0) as Hs.
      { clear Hn. induction Hall as [|x l Hx _ IH]; [reflexivity|].
        cbn [fmap list_fmap Qsum foldr]. fold (Qsum (relevancy_score <$> l)).
        eapply Qeq_trans; [apply Qplus_comp; [reflexivity|exact IH]|].
        unfold relevancy_score. rewrite Hx.
        rewrite bool_decide_eq_true_2 by done. reflexivity. }
      eapply Qeq_trans; [apply Qdiv_comp; [exact Hs|reflexivity]|].
      unfold Qdiv. apply Qmult_0_l.
Qed.

End SimpleMetrics.

Section SimpleMetricsExamples.
Import RAGEvaluator Fixtures.

(** Two results: every word of the first ground truth occurs in the
    generated text, no word of the second does. *)
Example simple_metrics_of_two_cases :
  Forall2 Qeq (relevancy_score <$> case_results) [1; 0] /\
  (exists metrics,
     _calculate_simple_metrics case_results = Some metrics /\
     keyword_overlap_score metrics == 1 # 2 /\
     average_sources_retrieved metrics == 4) /\
  _calculate_simple_metrics [] = None.
Proof.
  split; [repeat constructor|]. split; [|run].
  eexists. split; [reflexivity|]. split; run.
Qed.

End SimpleMetricsExamples.

(** ** web_app.py: the user context of a request and the prompts *)

Section WebContext.
Import DreamInterpreterAgents.

(** the prompts read three keys of a context that is not empty, each
    with its default *)
Lemma rag_prompt_reads_three_keys dream context (m m' : gmap string string) :
  m <> ∅ -> m' <> ∅ ->
  default "unknown" (m !! "stress_level") = default "unknown" (m' !! "stress_level") ->
  default "unknown" (m !! "emotional_state")
    = default "unknown" (m' !! "emotional_state") ->
  default "none provided" (m !! "recent_events")
    = default "none provided" (m' !! "recent_events") ->
  RAGPipeline._build_dream_interpretation_prompt dream context (Some m)
  = RAGPipeline._build_dream_interpretation_prompt dream context (Some m').
Proof.
  intros Hm Hm' H1 H2 H3. unfold RAGPipeline._build_dream_interpretation_prompt.
  unfold RAGPipeline.truthy.
  rewrite !bool_decide_eq_false_2 by done. cbn [negb].
  by rewrite H1, H2, H3.
Qed.

Lemma psychological_prompt_reads_three_keys s s' :
  dream_text s = dream_text s' ->
  symbol_analysis s = symbol_analysis s' ->
  research_context s = research_context s' ->
  (user_context s = ∅ <-> user_context s' = ∅) ->
  default "unknown" (user_context s !! "stress_level")
    = default "unknown" (user_context s' !! "stress_level") ->
  default "unknown" (user_context s !! "emotional_state")
    = default "unknown" (user_context s' !! "emotional_state") ->
  default "none" (user_context s !! "recent_events")
    = default "none" (user_context s' !! "recent_events") ->
  psychological_prompt s = psychological_prompt s'.
Proof.
  intros Hd Hs Hr He H1 H2 H3. unfold psychological_prompt.
  rewrite Hd, Hs, Hr, H1, H2, H3.
  destruct (decide (user_context s = ∅)) as [E|E].
  - rewrite !bool_decide_eq_true_2 by tauto. done.
  - rewrite !bool_decide_eq_false_2 by tauto. done.
Qed.

Lemma user_context_of_keys age gender recent_events m k :
  WebApp.user_context_of age gender recent_events = Some m ->
  m <> ∅ /\
  (k <> "age" -> k <> "gender" -> k <> "recent_life_events" -> m !! k = None).
Proof.
  unfold WebApp.user_context_of.
  destruct (bool_decide _) eqn:E; [done|]. intros [= <-].
  apply bool_decide_eq_false in E. split; [exact E|].
  intros H1 H2 H3.
  destruct age, (negb (String.eqb gender "")), (negb (String.eqb recent_events ""));
    by rewrite ?lookup_insert_ne, ?lookup_empty by done.
Qed.

Lemma user_context_of_None age gender recent_events :
  WebApp.user_context_of age gender recent_events = None <->
  (forall n, age <> WebApp.age_number n) /\ gender = "" /\ recent_events = "".
Proof.
  unfold WebApp.user_context_of.
  destruct (String.eqb_spec gender "") as [->|Hg],
           (String.eqb_spec recent_events "") as [->|Hr]; cbn [negb].
  - destruct age; cbn.
    + split; [by intros _|done].
    + rewrite bool_decide_eq_false_2 by apply insert_non_empty.
      split; [done|]. intros [H _]. by destruct (H n).
    + split; [by intros _|done].
  - rewrite bool_decide_eq_false_2 by apply insert_non_empty.
    split; [done|]. by intros (_ & _ & ?).
  - rewrite bool_decide_eq_false_2
      by (destruct age; apply insert_non_empty).
    split; [done|]. by intros (_ & ? & _).
  - rewrite bool_decide_eq_false_2 by apply insert_non_empty.
    split; [done|]. by intros (_ & ? & _).
Qed.

(** X29: what the web form collects never reaches the model.  The
    handler files the age, the gender and the recent events of a request
    under the keys age, gender and recent_life_events, and passes no
    context when all three are missing; the prompts read the keys
    stress_level, emotional_state and recent_events.  So the prompt of the
    RAG pipeline, and the psychological prompt of the agentic pipeline,
    are those of a user who stated the defaults: unknown, unknown and
    none provided (none in the agentic prompt). *)
Theorem web_context_is_not_shown age gender recent_events dream context :
  let user_context := WebApp.user_context_of age gender recent_events in
  let stated_nothing (events : string) : option (gmap string string) :=
    match user_context with
    | Some _ =>
        Some (<["stress_level" := "unknown"]>
              (<["emotional_state" := "unknown"]>
              (<["recent_events" := events]> ∅)))
    | None => None
    end in
  (user_context = None <->
   (forall n, age <> WebApp.age_number n) /\ gender = "" /\ recent_events = "") /\
  RAGPipeline._build_dream_interpretation_prompt dream context user_context
  = RAGPipeline._build_dream_interpretation_prompt dream context
      (stated_nothing "none provided") /\
  forall s s',
    DreamInterpreterAgents.user_context s = default ∅ user_context ->
    DreamInterpreterAgents.user_context s' = default ∅ (stated_nothing "none") ->
    dream_text s = dream_text s' ->
    symbol_analysis s = symbol_analysis s' ->
    research_context s = research_context s' ->
    psychological_prompt s = psychological_prompt s'.
Proof.
  intros uc stated_nothing. split; [apply user_context_of_None|].
  unfold stated_nothing.
  destruct uc as [m|] eqn:E; [|split; [done|]].
  - pose proof (fun k => user_context_of_keys _ _ _ m k E) as Hm.
    destruct (Hm "stress_level") as [Hne H1].
    destruct (Hm "emotional_state") as [_ H2].
    destruct (Hm "recent_events") as [_ H3].
    specialize (H1 ltac:(done) ltac:(done) ltac:(done)).
    specialize (H2 ltac:(done) ltac:(done) ltac:(done)).
    specialize (H3 ltac:(done) ltac:(done) ltac:(done)).
    split.
    + apply rag_prompt_reads_three_keys; [done|apply insert_non_empty|..].
      * by rewrite H1, lookup_insert_eq.
      * rewrite H2, lookup_insert_ne by done. by rewrite lookup_insert_eq.
      * rewrite H3, !lookup_insert_ne by done. by rewrite lookup_insert_eq.
    + intros s s' Hs Hs' Hd Ha Hr. cbn [default from_option] in Hs, Hs'. unfold id in Hs, Hs'.
      apply psychological_prompt_reads_three_keys; try done; rewrite Hs, Hs'.
      * split; intros H; [done|]. by destruct (insert_non_empty _ _ _ H).
      * by rewrite H1, lookup_insert_eq.
      * rewrite H2, lookup_insert_ne by done. by rewrite lookup_insert_eq.
      * rewrite H3, !lookup_insert_ne by done. by rewrite lookup_insert_eq.
  - intros s s' Hs Hs' Hd Ha Hr. cbn [default from_option] in Hs, Hs'. unfold id in Hs, Hs'.
    apply psychological_prompt_reads_three_keys; try done; rewrite Hs, Hs'; done.
Qed.
End WebContext.

Section WebContextExamples.

(** A request with an age, a gender and recent events: none of them
    occurs in the prompt, which shows the defaults. *)
Example web_context_of_request :
  let user_context := WebApp.user_context_of (WebApp.age_number 34) "female" "new job" in
  let prompt :=
    RAGPipeline._build_dream_interpretation_prompt "I was flying" "" user_context in
  user_context
  = Some (<["age" := "34"]> (<["gender" := "female"]>
          (<["recent_life_events" := "new job"]> ∅))) /\
  PyStr.contains "new job" prompt = false /\
  PyStr.contains "female" prompt = false /\
  PyStr.contains "- Recent Events: none provided" prompt = true.
Proof.
  cbv zeta. split; [|repeat split; run].
  unfold WebApp.user_context_of. cbn [String.eqb Ascii.eqb Bool.eqb negb].
  rewrite bool_decide_eq_false_2 by apply insert_non_empty.
  reflexivity.
Qed.

End WebContextExamples.
